(** * Forecast: the evaluation core of the forecasting tool, verified

    A shallow embedding of the evaluation core of the repository
    (splitters/, models/, utils/model_evaluation.py,
    services/model_service.py, state/app_state.py, ui/comparison_tab.py
    with the chart of utils/plotting.py)
    and the properties its specification states about it.

    Conventions of the embedding:
    - a pandas DataFrame with a DatetimeIndex and one 'value' column is a
      list of rows (timestamp, value), in row order; timestamps are integers
      (pandas keeps nanoseconds since the epoch), values are IEEE-754
      doubles ([spec_float], with NaN and the infinities);
    - Python integers are [Z], and [len] is the length as a [Z];
    - a raised exception is a value of [exn], an instance of Python's
      [Exception] with its class and message; the interpreter's
      system-exiting signals (KeyboardInterrupt, SystemExit) are not part
      of the model, and streamlit's script stop is an outcome of its own;
    - code that can raise returns a [result]; methods that mutate [self]
      are state passing ([PyM]) and keep the mutations made before a raise;
    - Python dicts that are only looked up by key are [gmap]s, dicts whose
      iteration order is observable are association lists in insertion
      order;
    - the numerical libraries (pandas' frequency inference, statsmodels,
      prophet, darts, sklearn) are interfaces ([Class]es) the code is
      parametrised by; what a property needs of them is a stated contract. *)

From Stdlib Require Import ZArith String Ascii List Lia SpecFloat.
From stdpp Require Import gmap strings list fin_maps pretty sorting.

Open Scope Z_scope.

(** ** Python values, exceptions and method bodies *)

Module Py.

Inductive exn_class :=
| ValueError
| TypeError
| IndexError
| KeyError
| AttributeError
| LibraryError.

Record exn := Exn { exn_cls : exn_class; exn_msg : string }.

Inductive result (A : Type) :=
| Ok (a : A)
| Raise (e : exn).
Arguments Ok {A} a.
Arguments Raise {A} e.

Definition rbind {A B} (r : result A) (k : A -> result B) : result B :=
  match r with
  | Ok a => k a
  | Raise e => Raise e
  end.

(** [try: body except Exception as e: handler] *)
Definition try_except {A} (body : result A) (handler : exn -> result A)
  : result A :=
  match body with
  | Ok a => Ok a
  | Raise e => handler e
  end.

Definition PyM (S A : Type) : Type := S -> result A * S.

Definition ret {S A} (a : A) : PyM S A := fun s => (Ok a, s).
Definition raise {S A} (e : exn) : PyM S A := fun s => (Raise e, s).
Definition bind {S A B} (m : PyM S A) (k : A -> PyM S B) : PyM S B :=
  fun s =>
    match m s with
    | (Ok a, s') => k a s'
    | (Raise e, s') => (Raise e, s')
    end.
Definition get {S} : PyM S S := fun s => (Ok s, s).
Definition put {S} (s : S) : PyM S unit := fun _ => (Ok tt, s).
Definition modify {S} (f : S -> S) : PyM S unit := fun s => (Ok tt, f s).
Definition lift {S A} (r : result A) : PyM S A := fun s => (r, s).

Abbreviation float := spec_float.

(** [np.isnan], [np.isinf] *)
Definition isnan (x : float) : bool :=
  match x with S754_nan => true | _ => false end.
Definition isinf (x : float) : bool :=
  match x with S754_infinity _ => true | _ => false end.

(** binary64 subtraction and comparison *)
Definition fsub : float -> float -> float := SFsub 53 1024.
Definition flt : float -> float -> bool := SFltb.

Definition len {A} (l : list A) : Z := Z.of_nat (length l).

(** [l[:k]] and [l[k:]]: a negative bound counts from the end, and the
    bound is clipped to the sequence. *)
Definition slice_bound (n k : Z) : Z :=
  if k <? 0 then Z.max 0 (n + k) else Z.min k n.
Definition slice_to {A} (k : Z) (l : list A) : list A :=
  take (Z.to_nat (slice_bound (len l) k)) l.
Definition slice_from {A} (k : Z) (l : list A) : list A :=
  drop (Z.to_nat (slice_bound (len l) k)) l.

(** [int(a / b)] for integers [a] and [b > 0]: the true division yields the
    double nearest to the quotient and [int] drops its fraction.  For
    [|a| < 2^53] no rounding of the quotient reaches the next integer, so
    the result is the exact quotient truncated towards zero. *)
Definition int_truediv (a b : Z) : Z := Z.quot a b.

(** [str.lower] on ASCII.  A string is its UTF-8 bytes; an ASCII letter is
    lowered and every other byte is kept.  This is [str.lower] on every
    string that [str.isascii] accepts, which the names of the code are
    (registry names, session keys, display names of the widgets); on a
    string with a byte above 127 [str.lower] may change more, and nothing
    is claimed there. *)
Definition lower_ascii (c : ascii) : ascii :=
  let n := nat_of_ascii c in
  if ((65 <=? n) && (n <=? 90))%nat then ascii_of_nat (n + 32) else c.
Fixpoint lower (s : string) : string :=
  match s with
  | EmptyString => EmptyString
  | String c s' => String (lower_ascii c) (lower s')
  end.

(** [str.isascii] *)
Fixpoint isascii (s : string) : bool :=
  match s with
  | EmptyString => true
  | String c s' => (nat_of_ascii c <? 128)%nat && isascii s'
  end.

(** Lookup in a dict kept as an association list *)
Fixpoint assoc {A} (k : string) (d : list (string * A)) : option A :=
  match d with
  | [] => None
  | (k', v) :: d' => if decide (k' = k) then Some v else assoc k d'
  end.

(** The double nearest to an integer, and to a ratio of two integers (a
    decimal literal such as [0.05]). *)
Definition float_of_Z (z : Z) : float := binary_normalize 53 1024 z 0 false.
Definition float_of_ratio (a b : Z) : float :=
  SFdiv 53 1024 (float_of_Z a) (float_of_Z b).

(** The value of a result, or a default *)
Definition value_or {A} (d : A) (r : result A) : A :=
  match r with
  | Ok a => a
  | Raise _ => d
  end.

(** [l[0]] *)
Definition first_item {A} (l : list A) : result A :=
  match l with
  | a :: _ => Ok a
  | [] => Raise (Exn IndexError "list index out of range")
  end.

(** [l[-1]] *)
Definition last_item {A} (l : list A) : result A :=
  match last l with
  | Some a => Ok a
  | None => Raise (Exn IndexError "index -1 is out of bounds for axis 0 with size 0")
  end.

(** [l.tail(n)] of pandas, for [n >= 0]: the last [n] rows. *)
Definition tail {A} (n : Z) (l : list A) : list A :=
  drop (length l - Z.to_nat n)%nat l.

End Py.
Import Py.

Declare Scope py_scope.
Delimit Scope py_scope with py.
Notation "x <- m ;; k" := (bind m (fun x => k))
  (at level 100, m at next level, right associativity) : py_scope.
Notation "m ;;; k" := (bind m (fun _ => k))
  (at level 100, right associativity) : py_scope.
Notation "x <~ r ;; k" := (rbind r (fun x => k))
  (at level 100, r at next level, right associativity) : py_scope.

(** ** Time series *)

Abbreviation Timestamp := Z.
Abbreviation Row := (Timestamp * float)%type.
Abbreviation DataFrame := (list Row).

Definition index (df : DataFrame) : list Timestamp := df.*1.
Definition values (df : DataFrame) : list float := df.*2.

(** [df.iloc[:k]] and [df.iloc[k:]] *)
Definition iloc_to (k : Z) (df : DataFrame) : DataFrame := slice_to k df.
Definition iloc_from (k : Z) (df : DataFrame) : DataFrame := slice_from k df.

(** [pd.DataFrame({'value': values}, index=index)] *)
Definition mk_DataFrame (vals : list float) (idx : list Timestamp)
  : result DataFrame :=
  if decide (length vals = length idx)
  then Ok (zip idx vals)
  else Raise (Exn ValueError "Length of values does not match length of index").

(** The TimeSeries invariant of the data model: strictly increasing
    timestamps. *)
Definition increasing (df : DataFrame) : Prop :=
  StronglySorted Z.lt (index df).

(** ** The error taxonomy of the specification

    The code raises [ValueError] for every configuration error and for a
    prediction before fit; the kinds of the specification are told apart by
    the raising statement, that is by the message. *)
Module Taxonomy.

Definition train_pct_error : exn := Exn ValueError "".
Definition horizon_error (horizon : Z) : exn :=
  Exn ValueError ("Horizon must be >= 1, got " +:+ pretty horizon).
Definition not_fitted_error : exn :=
  Exn ValueError "Model must be fitted before prediction".

Inductive kind := InvalidConfiguration | NotFittedError.

Definition classify (e : exn) : option kind :=
  match exn_cls e with
  | ValueError =>
      if decide (exn_msg e = exn_msg not_fitted_error)
      then Some NotFittedError
      else if decide (exn_msg e = "") then Some InvalidConfiguration
      else if String.prefix "Horizon must be >= 1, got " (exn_msg e)
      then Some InvalidConfiguration
      else None
  | _ => None
  end.

End Taxonomy.

(** ** splitters/base.py, splitters/holdoutpct.py *)

Class TimeSeriesSplitter (S : Type) := {
  split : S -> DataFrame -> result (DataFrame * DataFrame)
}.

Module HoldoutPct.

Record HoldoutPctSplitter := { train_pct : Z }.

(** [__init__] *)
Definition init (train_pct : Z) : result HoldoutPctSplitter :=
  if negb ((0 <? train_pct) && (train_pct <? 100))
  then Raise Taxonomy.train_pct_error
  else Ok {| train_pct := train_pct |}.

(** [max(1, min(n - 1, int(n * self.train_pct / 100)))] *)
Definition split_idx (self : HoldoutPctSplitter) (n : Z) : Z :=
  Z.max 1 (Z.min (n - 1) (int_truediv (n * train_pct self) 100)).

(** [split] *)
Definition split (self : HoldoutPctSplitter) (data : DataFrame)
  : DataFrame * DataFrame :=
  let n := len data in
  let split_idx := split_idx self n in
  let train := iloc_to split_idx data in
  let test := iloc_from split_idx data in
  (train, test).

(** [HoldoutPctSplitter(train_pct=train_pct).split(data)] *)
Definition construct_and_split (train_pct : Z) (data : DataFrame)
  : result (DataFrame * DataFrame) :=
  (splitter <~ init train_pct ;; Ok (split splitter data))%py.

End HoldoutPct.

#[export] Instance HoldoutPct_splitter
  : TimeSeriesSplitter HoldoutPct.HoldoutPctSplitter :=
  {| split := fun s data => Ok (HoldoutPct.split s data) |}.

(** The split index as the specification words it:
    [clamp(round(n * train_pct/100), lower=1, upper=n-1)], rounding to the
    nearest integer (ties to even, as Python's [round]). *)
Module SplitSpec.

Definition round_div (a b : Z) : Z :=
  let q := a / b in
  let r := a mod b in
  if 2 * r <? b then q
  else if b <? 2 * r then q + 1
  else if Z.even q then q else q + 1.

Definition clamp (x lower upper : Z) : Z := Z.max lower (Z.min upper x).

Definition spec_split_idx (train_pct n : Z) : Z :=
  clamp (round_div (n * train_pct) 100) 1 (n - 1).

Definition spec_split (train_pct : Z) (data : DataFrame)
  : DataFrame * DataFrame :=
  let k := Z.to_nat (spec_split_idx train_pct (len data)) in
  (take k data, drop k data).

End SplitSpec.

(** ** utils/model_evaluation.py *)

Module ModelEvaluation.

(** A metric function is called on (actual, predicted) and returns a float
    or raises. *)
Abbreviation metric_function := (list float -> list float -> result float).

Abbreviation Metrics := (gmap string (option float)).

(** The body of the loop of [calculate_metrics], for one item of
    [metric_functions.items()]. *)
Definition metric_step (actual predicted : list float)
  (name : string) (func : metric_function) (results : Metrics)
  : result Metrics :=
  try_except
    (value <~ func actual predicted ;;
     if isnan value || isinf value
     then Ok (<[name := None]> results)
     else Ok (<[name := Some value]> results))%py
    (fun e => Ok (<[name := None]> results)).

Definition calculate_metrics (actual predicted : list float)
  (metric_functions : gmap string metric_function) : result Metrics :=
  map_fold
    (fun name func acc =>
       (results <~ acc ;; metric_step actual predicted name func results)%py)
    (Ok ∅) metric_functions.

End ModelEvaluation.
Import ModelEvaluation.

(** ** models/base.py *)

Class ForecastModel (M : Type) := {
  fit : DataFrame -> PyM M unit;
  predict : Z -> PyM M DataFrame
}.

Definition EvaluationResult : Type := Metrics * DataFrame * DataFrame.

(** [ForecastModel.evaluate] *)
Definition evaluate {M S} `{ForecastModel M} `{TimeSeriesSplitter S}
  (data : DataFrame) (splitter : S) (horizon : Z)
  (metric_functions : gmap string metric_function)
  : PyM M EvaluationResult :=
  (sp <- lift (split splitter data) ;;
   let train_data := sp.1 in
   let test_data := sp.2 in
   fit train_data ;;;
   test_predictions <- predict (len test_data) ;;
   metrics <- lift (calculate_metrics (values test_data)
                      (values test_predictions) metric_functions) ;;
   fit data ;;;
   forecast <- predict horizon ;;
   ret (metrics, forecast, test_predictions))%py.

(** A model wrapped in a call recorder: every [fit] and [predict] is
    logged, in call order, before it is passed on to the wrapped model. *)
Inductive call :=
| CallFit (data : DataFrame)
| CallPredict (horizon : Z).

Definition Recorded (M : Type) : Type := M * list call.

Definition recorded {M A} (c : call) (m : PyM M A) : PyM (Recorded M) A :=
  fun s =>
    let '(r, m') := m s.1 in
    (r, (m', s.2 ++ [c])).

#[export] Instance Recorded_model {M} `{ForecastModel M}
  : ForecastModel (Recorded M) :=
  {| fit := fun data => recorded (CallFit data) (fit data);
     predict := fun horizon => recorded (CallPredict horizon) (predict horizon) |}.

(** ** The libraries behind the models

    Interfaces of the calls the models make into pandas, statsmodels,
    prophet, sklearn and darts.  Fitting and forecasting are opaque; they
    may raise. *)

Inductive hyperval :=
| HInt (z : Z)
| HFloat (x : float)
| HStr (s : string).

Class Pandas := {
  (** a frequency string such as 'D', 'W-SUN' or 'MS', with its offset *)
  Freq : Type;
  (** [pd.infer_freq(index)]: [None] when no frequency fits, a raise when
      the index is too short *)
  infer_freq : list Timestamp -> result (option Freq);
  (** the frequency ['D'] *)
  freq_D : Freq;
  (** [t + pd.tseries.frequencies.to_offset(freq)] *)
  offset_add : Freq -> Timestamp -> Timestamp
}.

(** [pd.date_range(start=start, periods=periods, freq=freq)] for a [start]
    on the grid of [freq]: [start], [start + offset], ... *)
Fixpoint date_range_from `{Pandas} (start : Timestamp) (periods : nat)
  (freq : Freq) : list Timestamp :=
  match periods with
  | O => []
  | S k => start :: date_range_from (offset_add freq start) k freq
  end.

Definition date_range `{Pandas} (start : Timestamp) (periods : Z)
  (freq : Freq) : list Timestamp :=
  date_range_from start (Z.to_nat periods) freq.

(** [pd.infer_freq(data.index) or 'D'] *)
Definition infer_freq_or_D `{Pandas} (data : DataFrame) : result Freq :=
  (f <~ infer_freq (index data) ;; Ok (default freq_D f))%py.

Class Statsmodels := {
  ARIMAResults : Type;
  (** [ARIMA(values, order=order).fit()] *)
  ARIMA_fit : list float -> hyperval * hyperval * hyperval
              -> result ARIMAResults;
  (** [results.forecast(steps=steps)] *)
  ARIMA_forecast : ARIMAResults -> Z -> result (list float)
}.

Class ProphetLib := {
  Prophet : Type;
  (** [Prophet(changepoint_prior_scale=.., seasonality_prior_scale=..,
      seasonality_mode=.., daily_seasonality=False,
      weekly_seasonality='auto', yearly_seasonality='auto')] *)
  Prophet_new : hyperval -> hyperval -> hyperval -> result Prophet;
  (** [model.fit(prophet_df)], on the rows (ds, y) *)
  Prophet_fit : DataFrame -> PyM Prophet unit;
  (** [model.history_dates], [None] until fitted *)
  history_dates : Prophet -> option (list Timestamp);
  (** [model.predict(future)]: the rows (ds, yhat) *)
  Prophet_predict : Prophet -> list Timestamp -> result (list Row)
}.

(** [model.make_future_dataframe(periods=periods, freq=freq)] of prophet:
    the history dates followed by the next [periods] dates after the last
    one. *)
Definition max_date (dates : list Timestamp) : option Timestamp :=
  match dates with
  | [] => None
  | d :: rest => Some (foldr Z.max d rest)
  end.

Definition make_future_dataframe `{Pandas} `{ProphetLib}
  (model : Prophet) (periods : Z) (freq : Freq) : result (list Timestamp) :=
  match history_dates model with
  | None => Raise (Exn LibraryError "Model has not been fit.")
  | Some history =>
      match max_date history with
      | None => Raise (Exn LibraryError "Neither `start` nor `end` can be NaT")
      | Some last_date =>
          let dates := date_range last_date (periods + 1) freq in
          let dates := filter (fun d => last_date < d) dates in
          let dates := slice_to periods dates in
          Ok (history ++ dates)
      end
  end.

Class Sklearn := {
  Scaler : Type;
  (** [MinMaxScaler(feature_range=(0, 1))], [StandardScaler()] *)
  MinMaxScaler : Scaler;
  StandardScaler : Scaler;
  (** [scaler.fit_transform(values)] refits the scaler *)
  fit_transform : list float -> PyM Scaler (list float);
  (** [scaler.inverse_transform(predictions)] *)
  inverse_transform : Scaler -> list float -> result (list float)
}.

Class Darts `{Pandas} := {
  TimeSeries : Type;
  (** [TimeSeries.from_dataframe(df, value_cols='value',
      fill_missing_dates=True, freq=freq)] *)
  from_dataframe : DataFrame -> Freq -> result TimeSeries;
  (** [series.values().flatten()], [series.time_index] *)
  ts_values : TimeSeries -> list float;
  time_index : TimeSeries -> list Timestamp;
  NBEATSModel : Type;
  (** [NBEATSModel(input_chunk_length=.., output_chunk_length=..,
      n_epochs=.., random_state=.., batch_size=32, ...)] *)
  NBEATSModel_new : hyperval -> hyperval -> hyperval -> hyperval
                    -> result NBEATSModel;
  (** [model.fit(series, verbose=False)] *)
  NBEATS_fit : TimeSeries -> PyM NBEATSModel unit;
  (** [model.predict(n=n, verbose=False)] *)
  NBEATS_predict : NBEATSModel -> Z -> result TimeSeries
}.

(** ** models/arima.py *)

Module ARIMA.
Section ARIMA.
Context `{Pandas} `{Statsmodels}.

Record ARIMAForecaster := {
  order : hyperval * hyperval * hyperval;
  model : option ARIMAResults;
  _last_date : option Timestamp;
  _freq : option Freq
}.

Definition init (p d q : hyperval) : ARIMAForecaster :=
  {| order := (p, d, q); model := None; _last_date := None; _freq := None |}.

Definition set_model (v : option ARIMAResults) (self : ARIMAForecaster) :=
  {| order := order self; model := v;
     _last_date := _last_date self; _freq := _freq self |}.
Definition set_last_date (v : option Timestamp) (self : ARIMAForecaster) :=
  {| order := order self; model := model self;
     _last_date := v; _freq := _freq self |}.
Definition set_freq (v : option Freq) (self : ARIMAForecaster) :=
  {| order := order self; model := model self;
     _last_date := _last_date self; _freq := v |}.

Definition fit (data : DataFrame) : PyM ARIMAForecaster unit :=
  (last_date <- lift (last_item (index data)) ;;
   modify (set_last_date (Some last_date)) ;;;
   freq <- lift (infer_freq_or_D data) ;;
   modify (set_freq (Some freq)) ;;;
   self <- get ;;
   fitted <- lift (ARIMA_fit (values data) (order self)) ;;
   modify (set_model (Some fitted)))%py.

Definition predict (horizon : Z) : PyM ARIMAForecaster DataFrame :=
  (self <- get ;;
   if horizon <? 1 then raise (Taxonomy.horizon_error horizon)
   else
     match model self with
     | None => raise Taxonomy.not_fitted_error
     | Some fitted =>
         forecast_values <- lift (ARIMA_forecast fitted horizon) ;;
         match _freq self, _last_date self with
         | Some freq, Some last_date =>
             let future_dates :=
               date_range (offset_add freq last_date) horizon freq in
             lift (mk_DataFrame forecast_values future_dates)
         | _, _ =>
             raise (Exn TypeError "unsupported operand type(s) for +")
         end
     end)%py.

End ARIMA.
End ARIMA.

(** ** models/prophet.py *)

Module ProphetModel.
Section ProphetModel.
Context `{Pandas} `{ProphetLib}.

Record ProphetForecaster := {
  changepoint_prior_scale : hyperval;
  seasonality_prior_scale : hyperval;
  seasonality_mode : hyperval;
  model : option Prophet;
  _last_date : option Timestamp;
  _freq : option Freq
}.

Definition init (changepoint_prior_scale seasonality_prior_scale
                 seasonality_mode : hyperval) : ProphetForecaster :=
  {| changepoint_prior_scale := changepoint_prior_scale;
     seasonality_prior_scale := seasonality_prior_scale;
     seasonality_mode := seasonality_mode;
     model := None; _last_date := None; _freq := None |}.

Definition set_model (v : option Prophet) (self : ProphetForecaster) :=
  {| changepoint_prior_scale := changepoint_prior_scale self;
     seasonality_prior_scale := seasonality_prior_scale self;
     seasonality_mode := seasonality_mode self;
     model := v; _last_date := _last_date self; _freq := _freq self |}.
Definition set_last_date (v : option Timestamp) (self : ProphetForecaster) :=
  {| changepoint_prior_scale := changepoint_prior_scale self;
     seasonality_prior_scale := seasonality_prior_scale self;
     seasonality_mode := seasonality_mode self;
     model := model self; _last_date := v; _freq := _freq self |}.
Definition set_freq (v : option Freq) (self : ProphetForecaster) :=
  {| changepoint_prior_scale := changepoint_prior_scale self;
     seasonality_prior_scale := seasonality_prior_scale self;
     seasonality_mode := seasonality_mode self;
     model := model self; _last_date := _last_date self; _freq := v |}.

(** [self.model.fit(prophet_df)]: the call mutates the object held in
    [self.model]. *)
Definition fit_held_model (prophet_df : DataFrame)
  : PyM ProphetForecaster unit :=
  fun self =>
    match model self with
    | Some m =>
        let '(r, m') := Prophet_fit prophet_df m in
        (r, set_model (Some m') self)
    | None =>
        (Raise (Exn AttributeError "'NoneType' object has no attribute 'fit'"),
         self)
    end.

Definition fit (data : DataFrame) : PyM ProphetForecaster unit :=
  (last_date <- lift (last_item (index data)) ;;
   modify (set_last_date (Some last_date)) ;;;
   freq <- lift (infer_freq_or_D data) ;;
   modify (set_freq (Some freq)) ;;;
   let prophet_df := zip (index data) (values data) in
   self <- get ;;
   m <- lift (Prophet_new (changepoint_prior_scale self)
                (seasonality_prior_scale self) (seasonality_mode self)) ;;
   modify (set_model (Some m)) ;;;
   fit_held_model prophet_df)%py.

Definition predict (horizon : Z) : PyM ProphetForecaster DataFrame :=
  (self <- get ;;
   if horizon <? 1 then raise (Taxonomy.horizon_error horizon)
   else
     match model self with
     | None => raise Taxonomy.not_fitted_error
     | Some m =>
         match _freq self with
         | Some freq =>
             future <- lift (make_future_dataframe m horizon freq) ;;
             forecast <- lift (Prophet_predict m future) ;;
             let forecast_future := tail horizon forecast in
             lift (mk_DataFrame (values forecast_future)
                     (index forecast_future))
         | None =>
             raise (Exn LibraryError "Unable to infer `freq`")
         end
     end)%py.

End ProphetModel.
End ProphetModel.

(** ** config/settings.py *)

Definition RANDOM_SEED : Z := 22.
Definition TRAIN_PCT_DEFAULT : Z := 80.
Definition HORIZON_DEFAULT : Z := 30.

(** ** models/nbeats.py *)

Module NBEATS.
Section NBEATS.
Context `{Pandas} `{Sklearn} `{!Darts}.

Record NBEATSForecaster := {
  input_chunk_length : hyperval;
  n_epochs : hyperval;
  scaler_type : string;
  random_state : hyperval;
  model : option NBEATSModel;
  scaler : option Scaler;
  _last_date : option Timestamp;
  _freq : option Freq;
  _timeseries : option TimeSeries;
  _output_chunk_length : option hyperval
}.

Definition scaler_mapping : list (string * string) :=
  [("Standard (z-score)", "standard"); ("MinMax (0-1)", "minmax");
   ("None", "none"); ("standard", "standard"); ("minmax", "minmax");
   ("none", "none")].

(** [scaler_mapping.get(scaler_type, scaler_type.lower())]: the default is
    evaluated before the lookup, so a value without [lower] raises. *)
Definition map_scaler_type (scaler_type : hyperval) : result string :=
  match scaler_type with
  | HStr s =>
      Ok (default (lower s) (assoc s scaler_mapping))
  | _ => Raise (Exn AttributeError "object has no attribute 'lower'")
  end.

Definition init (input_chunk_length n_epochs scaler_type random_state
                 : hyperval) : result NBEATSForecaster :=
  (mapped <~ map_scaler_type scaler_type ;;
   Ok {| input_chunk_length := input_chunk_length;
         n_epochs := n_epochs;
         scaler_type := mapped;
         random_state := random_state;
         model := None;
         scaler := if decide (mapped = "minmax") then Some MinMaxScaler
                   else if decide (mapped = "standard") then Some StandardScaler
                   else None;
         _last_date := None; _freq := None; _timeseries := None;
         _output_chunk_length := None |})%py.

Definition set_model v (self : NBEATSForecaster) :=
  {| input_chunk_length := input_chunk_length self; n_epochs := n_epochs self;
     scaler_type := scaler_type self; random_state := random_state self;
     model := v; scaler := scaler self; _last_date := _last_date self;
     _freq := _freq self; _timeseries := _timeseries self;
     _output_chunk_length := _output_chunk_length self |}.
Definition set_scaler v (self : NBEATSForecaster) :=
  {| input_chunk_length := input_chunk_length self; n_epochs := n_epochs self;
     scaler_type := scaler_type self; random_state := random_state self;
     model := model self; scaler := v; _last_date := _last_date self;
     _freq := _freq self; _timeseries := _timeseries self;
     _output_chunk_length := _output_chunk_length self |}.
Definition set_last_date v (self : NBEATSForecaster) :=
  {| input_chunk_length := input_chunk_length self; n_epochs := n_epochs self;
     scaler_type := scaler_type self; random_state := random_state self;
     model := model self; scaler := scaler self; _last_date := v;
     _freq := _freq self; _timeseries := _timeseries self;
     _output_chunk_length := _output_chunk_length self |}.
Definition set_freq v (self : NBEATSForecaster) :=
  {| input_chunk_length := input_chunk_length self; n_epochs := n_epochs self;
     scaler_type := scaler_type self; random_state := random_state self;
     model := model self; scaler := scaler self; _last_date := _last_date self;
     _freq := v; _timeseries := _timeseries self;
     _output_chunk_length := _output_chunk_length self |}.
Definition set_timeseries v (self : NBEATSForecaster) :=
  {| input_chunk_length := input_chunk_length self; n_epochs := n_epochs self;
     scaler_type := scaler_type self; random_state := random_state self;
     model := model self; scaler := scaler self; _last_date := _last_date self;
     _freq := _freq self; _timeseries := v;
     _output_chunk_length := _output_chunk_length self |}.
Definition set_output_chunk_length v (self : NBEATSForecaster) :=
  {| input_chunk_length := input_chunk_length self; n_epochs := n_epochs self;
     scaler_type := scaler_type self; random_state := random_state self;
     model := model self; scaler := scaler self; _last_date := _last_date self;
     _freq := _freq self; _timeseries := _timeseries self;
     _output_chunk_length := v |}.

(** The scaling branch of [fit]: [self.scaler.fit_transform] refits the
    scaler object held in [self.scaler]. *)
Definition scale (data : DataFrame) : PyM NBEATSForecaster DataFrame :=
  fun self =>
    match scaler self with
    | Some sc =>
        let '(r, sc') := fit_transform (values data) sc in
        let self' := set_scaler (Some sc') self in
        match r with
        | Ok scaled_values => (mk_DataFrame scaled_values (index data), self')
        | Raise e => (Raise e, self')
        end
    | None => (Ok data, self)
    end.

(** [self.model.fit(self._timeseries, verbose=False)] *)
Definition fit_held_model (series : TimeSeries) : PyM NBEATSForecaster unit :=
  fun self =>
    match model self with
    | Some m =>
        let '(r, m') := NBEATS_fit series m in
        (r, set_model (Some m') self)
    | None =>
        (Raise (Exn AttributeError "'NoneType' object has no attribute 'fit'"),
         self)
    end.

Definition fit (data : DataFrame) : PyM NBEATSForecaster unit :=
  (last_date <- lift (last_item (index data)) ;;
   modify (set_last_date (Some last_date)) ;;;
   freq <- lift (infer_freq_or_D data) ;;
   modify (set_freq (Some freq)) ;;;
   processed_data <- scale data ;;
   series <- lift (from_dataframe processed_data freq) ;;
   modify (set_timeseries (Some series)) ;;;
   self <- get ;;
   modify (set_output_chunk_length (Some (input_chunk_length self))) ;;;
   m <- lift (NBEATSModel_new (input_chunk_length self)
                (input_chunk_length self) (n_epochs self)
                (random_state self)) ;;
   modify (set_model (Some m)) ;;;
   fit_held_model series)%py.

Definition predict (horizon : Z) : PyM NBEATSForecaster DataFrame :=
  (self <- get ;;
   if horizon <? 1 then raise (Taxonomy.horizon_error horizon)
   else
     match model self with
     | None => raise Taxonomy.not_fitted_error
     | Some m =>
         forecast_ts <- lift (NBEATS_predict m horizon) ;;
         let predictions := ts_values forecast_ts in
         predictions <-
           match scaler self with
           | Some sc => lift (inverse_transform sc predictions)
           | None => ret predictions
           end ;;
         lift (mk_DataFrame predictions (time_index forecast_ts))
     end)%py.

End NBEATS.
End NBEATS.

(** ** models/__init__.py: the registry, and a model of any class *)

Inductive model_class :=
| ARIMAForecaster
| ProphetForecaster
| NBEATSForecaster.

Definition AVAILABLE_MODELS : list (string * model_class) :=
  [("ARIMA", ARIMAForecaster); ("PROPHET", ProphetForecaster);
   ("NBEATS", NBEATSForecaster)].

Section Models.
Context `{Pandas} `{Statsmodels} `{ProphetLib} `{Sklearn} `{!Darts}.

Inductive model :=
| MArima (m : ARIMA.ARIMAForecaster)
| MProphet (m : ProphetModel.ProphetForecaster)
| MNbeats (m : NBEATS.NBEATSForecaster).

Definition on_arima {A} (f : PyM ARIMA.ARIMAForecaster A) m : result A * model :=
  let '(r, m') := f m in (r, MArima m').
Definition on_prophet {A} (f : PyM ProphetModel.ProphetForecaster A) m
  : result A * model :=
  let '(r, m') := f m in (r, MProphet m').
Definition on_nbeats {A} (f : PyM NBEATS.NBEATSForecaster A) m
  : result A * model :=
  let '(r, m') := f m in (r, MNbeats m').

Definition model_fit (data : DataFrame) : PyM model unit :=
  fun self =>
    match self with
    | MArima m => on_arima (ARIMA.fit data) m
    | MProphet m => on_prophet (ProphetModel.fit data) m
    | MNbeats m => on_nbeats (NBEATS.fit data) m
    end.

Definition model_predict (horizon : Z) : PyM model DataFrame :=
  fun self =>
    match self with
    | MArima m => on_arima (ARIMA.predict horizon) m
    | MProphet m => on_prophet (ProphetModel.predict horizon) m
    | MNbeats m => on_nbeats (NBEATS.predict horizon) m
    end.

#[export] Instance model_ForecastModel : ForecastModel model :=
  {| fit := model_fit; predict := model_predict |}.

(** Keyword arguments of a constructor: a name outside the signature is a
    [TypeError], a missing one takes its default. *)
Definition check_kwargs (allowed : list string)
  (kwargs : gmap string hyperval) : result unit :=
  if decide (map_Forall (fun name _ => name ∈ allowed) kwargs)
  then Ok tt
  else Raise (Exn TypeError "__init__() got an unexpected keyword argument").

Definition kwarg (name : string) (dflt : hyperval)
  (kwargs : gmap string hyperval) : hyperval :=
  default dflt (kwargs !! name).

(** The call of [model_class] with the keyword arguments [hyperparams] *)
Definition construct (cls : model_class) (hyperparams : gmap string hyperval)
  : result model :=
  match cls with
  | ARIMAForecaster =>
      (_ <~ check_kwargs ["p"; "d"; "q"] hyperparams ;;
       Ok (MArima (ARIMA.init (kwarg "p" (HInt 1) hyperparams)
                     (kwarg "d" (HInt 1) hyperparams)
                     (kwarg "q" (HInt 1) hyperparams))))%py
  | ProphetForecaster =>
      (_ <~ check_kwargs ["changepoint_prior_scale";
                          "seasonality_prior_scale"; "seasonality_mode"]
            hyperparams ;;
       Ok (MProphet
             (ProphetModel.init
                (kwarg "changepoint_prior_scale"
                   (HFloat (float_of_ratio 5 100))
                   hyperparams)
                (kwarg "seasonality_prior_scale"
                   (HFloat (float_of_Z 10)) hyperparams)
                (kwarg "seasonality_mode" (HStr "additive") hyperparams))))%py
  | NBEATSForecaster =>
      (_ <~ check_kwargs ["input_chunk_length"; "n_epochs"; "scaler_type";
                          "random_state"] hyperparams ;;
       m <~ NBEATS.init (kwarg "input_chunk_length" (HInt 5) hyperparams)
              (kwarg "n_epochs" (HInt 10) hyperparams)
              (kwarg "scaler_type" (HStr "standard") hyperparams)
              (kwarg "random_state" (HInt RANDOM_SEED) hyperparams) ;;
       Ok (MNbeats m))%py
  end.

End Models.

(** ** utils/model_evaluation.py: the metric registry *)

Class SklearnMetrics := {
  mean_absolute_error : metric_function;
  mean_squared_error : metric_function
}.

Record metric_config := {
  mc_name : string;
  mc_function : metric_function;
  lower_is_better : bool;
  description : string
}.

(** [np.sqrt] *)
Definition np_sqrt : float -> float := SFsqrt 53 1024.

Definition AVAILABLE_METRICS `{SklearnMetrics} : list (string * metric_config) :=
  [("mae",
    {| mc_name := "MAE";
       mc_function := mean_absolute_error;
       lower_is_better := true;
       description := "**Mean Absolute Error**: Average size of the errors in the same units as the data." |});
   ("rmse",
    {| mc_name := "RMSE";
       mc_function := fun a p => (v <~ mean_squared_error a p ;; Ok (np_sqrt v))%py;
       lower_is_better := true;
       description := "**Root Mean Squared Error**: Square root of the average squared errors. Penalizes larger errors more." |})].

(** ** services/model_service.py *)

Section ModelService.
Context `{Pandas} `{Statsmodels} `{ProphetLib} `{Sklearn} `{!Darts}
        `{SklearnMetrics}.

(** The body of [ModelService.train_and_evaluate]: the producer behind the
    cache. *)
Definition train_and_evaluate_body (cls : model_class) (data : DataFrame)
  (train_pct horizon upload_key : Z) (hyperparams : gmap string hyperval)
  : result EvaluationResult :=
  (model <~ construct cls hyperparams ;;
   splitter <~ HoldoutPct.init train_pct ;;
   let metric_functions : gmap string metric_function :=
     list_to_map ((fun nc => (nc.1, mc_function nc.2)) <$> AVAILABLE_METRICS) in
   (evaluate data splitter horizon metric_functions model).1)%py.

End ModelService.

(** ** The training cache

    Modelled from the spec: the memoizing cache [get_or_train(key, producer)]
    of the Training Cache component.  The code obtains it from streamlit's
    [st.cache_resource] decorator on [train_and_evaluate], whose
    implementation is not in the repository.  The key is composed of every
    argument of the call; identical keys return the retained result without
    invoking the producer, and a result is retained only when the producer
    returned one.  [producer_calls] is the call counter on the producer. *)

#[export] Instance spec_float_eq_dec : EqDecision spec_float.
Proof. solve_decision. Defined.
#[export] Instance hyperval_eq_dec : EqDecision hyperval.
Proof. solve_decision. Defined.
#[export] Instance model_class_eq_dec : EqDecision model_class.
Proof. solve_decision. Defined.

Record CacheKey := {
  k_model_class : model_class;
  k_data : DataFrame;
  k_train_pct : Z;
  k_horizon : Z;
  k_upload_key : Z;
  k_hyperparams : gmap string hyperval
}.

#[export] Instance CacheKey_eq_dec : EqDecision CacheKey.
Proof. solve_decision. Defined.

Record TrainingCache := {
  entries : list (CacheKey * EvaluationResult);
  producer_calls : nat
}.

Definition empty_cache : TrainingCache :=
  {| entries := []; producer_calls := 0 |}.

Fixpoint cache_lookup (key : CacheKey)
  (es : list (CacheKey * EvaluationResult)) : option EvaluationResult :=
  match es with
  | [] => None
  | (k, r) :: es' => if decide (k = key) then Some r else cache_lookup key es'
  end.

Definition get_or_train (key : CacheKey)
  (producer : unit -> result EvaluationResult)
  : PyM TrainingCache EvaluationResult :=
  fun cache =>
    match cache_lookup key (entries cache) with
    | Some r => (Ok r, cache)
    | None =>
        match producer tt with
        | Ok r =>
            (Ok r, {| entries := (key, r) :: entries cache;
                      producer_calls := S (producer_calls cache) |})
        | Raise e =>
            (Raise e, {| entries := entries cache;
                         producer_calls := S (producer_calls cache) |})
        end
    end.

Section CachedService.
Context `{Pandas} `{Statsmodels} `{ProphetLib} `{Sklearn} `{!Darts}
        `{SklearnMetrics}.

(** [ModelService.train_and_evaluate], as decorated *)
Definition train_and_evaluate (cls : model_class) (data : DataFrame)
  (train_pct horizon upload_key : Z) (hyperparams : gmap string hyperval)
  : PyM TrainingCache EvaluationResult :=
  get_or_train
    {| k_model_class := cls; k_data := data; k_train_pct := train_pct;
       k_horizon := horizon; k_upload_key := upload_key;
       k_hyperparams := hyperparams |}
    (fun _ => train_and_evaluate_body cls data train_pct horizon upload_key
                hyperparams).

End CachedService.

(** ** state/app_state.py

    The session state, with the per-model entries
    [f'{key}_results'], [f'{key}_predictions'], ... grouped by entry kind
    and indexed by the model key.  The code keeps them in the one flat
    [st.session_state] under the key [session_key]; the grouping is
    faithful for the models whose flat keys are all different, which the
    registered models are ([registry_session_keys_distinct]).  A name that
    ends in "_test" or "_trained" shares keys with another name, so
    nothing is claimed of models outside the registry. *)

Module AppState.

Record SessionState := {
  historical_data : option DataFrame;
  model_trained : gmap string bool;
  upload_key : Z;
  train_pct : gmap string Z;
  horizon : gmap string Z;
  results : gmap string (option Metrics);
  predictions : gmap string (option DataFrame);
  test_predictions : gmap string (option DataFrame);
  trained_train_pct : gmap string (option Z);
  trained_horizon : gmap string (option Z)
}.

(** [st.session_state.get(k)]: [None] for a missing entry *)
Definition session_get {A} (m : gmap string (option A)) (k : string)
  : option A :=
  mjoin (m !! k).

Definition model_keys : list string := (fun nc => lower nc.1) <$> AVAILABLE_MODELS.

(** The key of a per-model entry in [st.session_state], [f'{key}{suffix}']
    for the lower-cased model name, and the suffixes the code uses. *)
Definition session_key (model_name suffix : string) : string :=
  lower model_name +:+ suffix.

Definition entry_suffixes : list string :=
  ["_results"; "_predictions"; "_test_predictions"; "_trained_train_pct";
   "_trained_horizon"; "_train_pct"; "_horizon"; "_recommend"].

(** The keys that are not per model *)
Definition top_level_keys : list string :=
  ["historical_data"; "model_trained"; "upload_key"; "preprocessing_pending";
   "pending_df"; "pending_gap_count"; "load_data_btn"; "fill_method";
   "apply_fill"].

Definition set_all {A} (v : A) (m : gmap string A) : gmap string A :=
  foldl (fun acc key => <[key := v]> acc) m model_keys.

Definition set_missing {A} (v : A) (m : gmap string A) : gmap string A :=
  foldl (fun acc key => match acc !! key with
                        | Some _ => acc
                        | None => <[key := v]> acc
                        end) m model_keys.

(** The session before [initialize] ran *)
Definition fresh_session : SessionState :=
  {| historical_data := None; model_trained := ∅; upload_key := 0;
     train_pct := ∅; horizon := ∅; results := ∅; predictions := ∅;
     test_predictions := ∅; trained_train_pct := ∅; trained_horizon := ∅ |}.

Definition initialize (s : SessionState) : SessionState :=
  {| historical_data := historical_data s;
     model_trained := set_missing false (model_trained s);
     upload_key := upload_key s;
     train_pct := set_missing TRAIN_PCT_DEFAULT (train_pct s);
     horizon := set_missing HORIZON_DEFAULT (horizon s);
     results := set_missing None (results s);
     predictions := predictions s;
     test_predictions := test_predictions s;
     trained_train_pct := trained_train_pct s;
     trained_horizon := trained_horizon s |}.

Definition get_data (s : SessionState) : option DataFrame := historical_data s.

Definition get_upload_key (s : SessionState) : Z := upload_key s.

Record model_results := {
  r_trained : bool;
  r_metrics : option Metrics;
  r_predictions : option DataFrame;
  r_test_predictions : option DataFrame;
  r_train_pct : option Z;
  r_horizon : option Z
}.

Definition get_model_results (model_name : string) (s : SessionState)
  : model_results :=
  let key := lower model_name in
  {| r_trained := default false (model_trained s !! key);
     r_metrics := session_get (results s) key;
     r_predictions := session_get (predictions s) key;
     r_test_predictions := session_get (test_predictions s) key;
     r_train_pct := session_get (trained_train_pct s) key;
     r_horizon := session_get (trained_horizon s) key |}.

Definition set_model_results (model_name : string) (metrics : Metrics)
  (preds test_preds : DataFrame) (pct hor : Z) (s : SessionState)
  : SessionState :=
  let key := lower model_name in
  {| historical_data := historical_data s;
     model_trained := <[key := true]> (model_trained s);
     upload_key := upload_key s;
     train_pct := train_pct s;
     horizon := horizon s;
     results := <[key := Some metrics]> (results s);
     predictions := <[key := Some preds]> (predictions s);
     test_predictions := <[key := Some test_preds]> (test_predictions s);
     trained_train_pct := <[key := Some pct]> (trained_train_pct s);
     trained_horizon := <[key := Some hor]> (trained_horizon s) |}.

Definition get_all_trained_models (s : SessionState) : list (string * bool) :=
  (fun nc => (nc.1, default false (model_trained s !! lower nc.1)))
    <$> AVAILABLE_MODELS.

Definition clear_all_models (s : SessionState) : SessionState :=
  {| historical_data := historical_data s;
     model_trained := set_all false ∅;
     upload_key := upload_key s + 1;
     train_pct := train_pct s;
     horizon := horizon s;
     results := set_all None (results s);
     predictions := set_all None (predictions s);
     test_predictions := set_all None (test_predictions s);
     trained_train_pct := set_all None (trained_train_pct s);
     trained_horizon := set_all None (trained_horizon s) |}.

Definition set_data (data : option DataFrame) (s : SessionState)
  : SessionState :=
  clear_all_models
    {| historical_data := data;
       model_trained := model_trained s; upload_key := upload_key s;
       train_pct := train_pct s; horizon := horizon s; results := results s;
       predictions := predictions s; test_predictions := test_predictions s;
       trained_train_pct := trained_train_pct s;
       trained_horizon := trained_horizon s |}.

Definition reset_all (s : SessionState) : SessionState :=
  let s' := set_data None s in
  {| historical_data := historical_data s';
     model_trained := model_trained s'; upload_key := upload_key s';
     train_pct := set_all TRAIN_PCT_DEFAULT (train_pct s');
     horizon := set_all HORIZON_DEFAULT (horizon s');
     results := results s';
     predictions := predictions s'; test_predictions := test_predictions s';
     trained_train_pct := trained_train_pct s';
     trained_horizon := trained_horizon s' |}.

End AppState.

(** ** The session together with the process-wide cache *)

Section Application.
Context `{Pandas} `{Statsmodels} `{ProphetLib} `{Sklearn} `{!Darts}
        `{SklearnMetrics}.

Record App := {
  session : AppState.SessionState;
  cache : TrainingCache
}.

Definition initial_app : App :=
  {| session := AppState.initialize AppState.fresh_session;
     cache := empty_cache |}.

(** The train button of ui/model_tab.py: the cached call with the
    session's data and upload key, then [set_model_results]; a raise is
    reported and leaves the session as it was. *)
Definition on_train (model_name : string) (cls : model_class)
  (historical_data : DataFrame) (train_pct horizon : Z)
  (hyperparams : gmap string hyperval) (app : App) : App :=
  let '(r, cache') :=
    train_and_evaluate cls historical_data train_pct horizon
      (AppState.get_upload_key (session app)) hyperparams (cache app) in
  match r with
  | Ok (metrics, preds, test_preds) =>
      {| session := AppState.set_model_results model_name metrics preds
                      test_preds train_pct horizon (session app);
         cache := cache' |}
  | Raise e => {| session := session app; cache := cache' |}
  end.

(** The states the application reaches: data is loaded or reset, and
    models are trained on the loaded data. *)
Inductive reachable : App -> Prop :=
| reach_initial : reachable initial_app
| reach_set_data app data :
    reachable app ->
    reachable {| session := AppState.set_data (Some data) (session app);
                 cache := cache app |}
| reach_reset_all app :
    reachable app ->
    reachable {| session := AppState.reset_all (session app);
                 cache := cache app |}
| reach_train app model_name cls data train_pct horizon hyperparams :
    reachable app ->
    AppState.get_data (session app) = Some data ->
    (model_name, cls) ∈ AVAILABLE_MODELS ->
    reachable (on_train model_name cls data train_pct horizon hyperparams app).

End Application.

(** ** ui/comparison_tab.py

    A render function emits streamlit elements, in order, and ends normally,
    with a raise, or with the script stopped by [st.stop()]. *)

Module UI.

(** A formatted number: [f"{v:,.2f}"] and [f"{v:+,.2f}"] *)
Inductive rendered :=
| Text (s : string)
| Fixed2 (v : float)
| SignedFixed2 (v : float).

(** utils/plotting.py: a figure is its line traces, each a name and the
    series drawn, in the order they were added, and the dates of its
    vertical lines.  Colours, widths and the layout are left out. *)
Record figure := {
  fig_traces : list (string * DataFrame);
  fig_vlines : list Timestamp
}.

(** [_add_traces]: a series that is [None] is skipped. *)
Definition add_traces (series_dict : list (string * option DataFrame))
  (traces : list (string * DataFrame)) : list (string * DataFrame) :=
  traces ++ omap (fun ns : string * option DataFrame =>
                    (fun series => (ns.1, series)) <$> ns.2) series_dict.

(** [plot_model_comparison]: the two vertical lines read the last date of
    the train and of the test part, [train_data.index[-1]] and
    [test_data.index[-1]], which raises on an empty part. *)
Definition plot_model_comparison (train_data test_data : DataFrame)
  (model_predictions : list (string * (option DataFrame * option DataFrame)))
  (selected_models : list string) : result figure :=
  let traces :=
    add_traces [("Training Data", Some train_data);
                ("Test Data Actual", Some test_data)] [] in
  (train_end <~ last_item (index train_data) ;;
   test_end <~ last_item (index test_data) ;;
   let traces :=
     foldl (fun traces model_name =>
              match assoc model_name model_predictions with
              | None => traces
              | Some preds =>
                  add_traces [(model_name +:+ " Test", preds.1);
                              (model_name +:+ " Forecast", preds.2)] traces
              end) traces selected_models in
   Ok {| fig_traces := traces; fig_vlines := [train_end; test_end] |})%py.

Inductive element :=
| st_info (msg : string)
| st_warning (msg : string)
| st_success (msg : string)
| st_caption (msg : string)
| st_write (msg : string)
| st_plotly_chart (fig : figure)
| st_columns (n : Z)
| st_metric (bordered : bool) (label : string) (value delta : rendered)
    (delta_color : string).

Inductive outcome (A : Type) :=
| Done (a : A)
| Failed (e : exn)
| Stopped.
Arguments Done {A} a.
Arguments Failed {A} e.
Arguments Stopped {A}.

Definition Render (A : Type) : Type := list element -> outcome A * list element.

Definition done {A} (a : A) : Render A := fun out => (Done a, out).
Definition emit (e : element) : Render unit := fun out => (Done tt, out ++ [e]).
Definition stop {A} : Render A := fun out => (Stopped, out).
Definition of_result {A} (r : result A) : Render A :=
  fun out => match r with
             | Ok a => (Done a, out)
             | Raise e => (Failed e, out)
             end.
Definition and_then {A B} (m : Render A) (k : A -> Render B) : Render B :=
  fun out =>
    match m out with
    | (Done a, out') => k a out'
    | (Failed e, out') => (Failed e, out')
    | (Stopped, out') => (Stopped, out')
    end.

Fixpoint for_each {A} (items : list A) (body : A -> Render unit) : Render unit :=
  match items with
  | [] => done tt
  | item :: rest => and_then (body item) (fun _ => for_each rest body)
  end.

(** UTF-8 text of the symbols in the messages *)
Definition utf8 (bytes : list nat) : string :=
  foldr (fun b s => String (ascii_of_nat b) s) EmptyString bytes.
Definition warning_sign : string := utf8 [226; 154; 160; 239; 184; 143]%nat.
Definition info_sign : string := utf8 [226; 132; 185; 239; 184; 143]%nat.
Definition check_mark : string := utf8 [226; 156; 133]%nat.
Definition chart_sign : string := utf8 [240; 159; 147; 136]%nat.
Definition trophy : string := utf8 [240; 159; 143; 134]%nat.
Definition newline : string := utf8 [10]%nat.

(** A formatted field [{pct}] of an optional integer *)
Definition pretty_opt (pct : option Z) : string :=
  match pct with
  | Some p => pretty p
  | None => "None"
  end.

(** [100 - pct] *)
Definition hundred_minus (pct : option Z) : result Z :=
  match pct with
  | Some p => Ok (100 - p)
  | None => Raise (Exn TypeError "unsupported operand type(s) for -: 'int' and 'NoneType'")
  end.

(** A value of a metrics dict: a float or [None] *)
Definition py_lt (a b : option float) : result bool :=
  match a, b with
  | Some x, Some y => Ok (flt x y)
  | _, _ => Raise (Exn TypeError "'<' not supported between instances")
  end.
Definition py_gt (a b : option float) : result bool :=
  match a, b with
  | Some x, Some y => Ok (flt y x)
  | _, _ => Raise (Exn TypeError "'>' not supported between instances")
  end.
Definition py_sub (a b : option float) : result float :=
  match a, b with
  | Some x, Some y => Ok (fsub x y)
  | _, _ => Raise (Exn TypeError "unsupported operand type(s) for -")
  end.
Definition format_fixed2 (v : option float) : result rendered :=
  match v with
  | Some x => Ok (Fixed2 x)
  | None => Raise (Exn TypeError "unsupported format string passed to NoneType.__format__")
  end.

(** The builtins [min] and [max] with a key: the first item is kept until
    a later one compares strictly better. *)
Fixpoint min_max_loop {A} (op : option float -> option float -> result bool)
  (key : A -> option float) (items : list A) (best : A)
  (best_val : option float) : result A :=
  match items with
  | [] => Ok best
  | item :: rest =>
      let val := key item in
      (better <~ op val best_val ;;
       if better : bool
       then min_max_loop op key rest item val
       else min_max_loop op key rest best best_val)%py
  end.

Definition min_max {A} (op : option float -> option float -> result bool)
  (key : A -> option float) (items : list A) : result A :=
  match items with
  | [] => Raise (Exn ValueError "arg is an empty sequence")
  | item :: rest => min_max_loop op key rest item (key item)
  end.

Definition py_min {A} := @min_max A py_lt.
Definition py_max {A} := @min_max A py_gt.

(** [{model: results[metric_key] for model, results in model_results.items()}] *)
Fixpoint metric_values_of (metric_key : string)
  (model_results : list (string * option Metrics))
  : result (list (string * option float)) :=
  match model_results with
  | [] => Ok []
  | (model, results) :: rest =>
      match results with
      | None => Raise (Exn TypeError "'NoneType' object is not subscriptable")
      | Some results =>
          match results !! metric_key with
          | None => Raise (Exn KeyError metric_key)
          | Some v =>
              (vs <~ metric_values_of metric_key rest ;; Ok ((model, v) :: vs))%py
          end
      end
  end.

(** [metric_key not in list(model_results.values())[0]] *)
Definition metric_missing (metric_key : string)
  (model_results : list (string * option Metrics)) : result bool :=
  match model_results with
  | [] => Raise (Exn IndexError "list index out of range")
  | (_, None) :: _ =>
      Raise (Exn TypeError "argument of type 'NoneType' is not iterable")
  | (_, Some results) :: _ =>
      Ok (bool_decide (results !! metric_key = None))
  end.

(** One card of the leaderboard: the body of the loop over
    [selected_models]. *)
Definition render_card (metric_config : metric_config)
  (metric_values : list (string * option float))
  (best_value : option float) (best_model : string) (model_name : string)
  : Render unit :=
  and_then
    (of_result
       match assoc model_name metric_values with
       | Some v => Ok v
       | None => Raise (Exn KeyError model_name)
       end)
    (fun value =>
       let is_best := bool_decide (model_name = best_model) in
       and_then
         (of_result
            (if is_best then Ok (Text trophy)
             else (d <~ py_sub value best_value ;; Ok (SignedFixed2 d))%py))
         (fun delta =>
            and_then (of_result (format_fixed2 value))
              (fun shown =>
                 if is_best
                 then emit (st_metric true model_name shown delta "off")
                 else
                   let delta_color :=
                     if lower_is_better metric_config then "inverse"
                     else "normal" in
                   emit (st_metric false model_name shown delta delta_color)))).

Definition render_metric_leaderboard (metric_key : string)
  (metric_config : metric_config)
  (model_results : list (string * option Metrics))
  (selected_models : list string) : Render unit :=
  let metric_name := mc_name metric_config in
  and_then (of_result (metric_missing metric_key model_results))
    (fun missing =>
       if missing : bool then done tt
       else
         and_then (emit (st_write ("#### " +:+ metric_name))) (fun _ =>
         and_then (emit (st_caption (description metric_config))) (fun _ =>
         and_then (of_result (metric_values_of metric_key model_results))
           (fun metric_values =>
              let get k := mjoin (assoc k metric_values) in
              and_then
                (of_result
                   (if lower_is_better metric_config
                    then (bv <~ py_min id metric_values.*2 ;;
                          bm <~ py_min get metric_values.*1 ;; Ok (bv, bm))%py
                    else (bv <~ py_max id metric_values.*2 ;;
                          bm <~ py_max get metric_values.*1 ;; Ok (bv, bm))%py))
                (fun best =>
                   and_then (emit (st_columns (len selected_models))) (fun _ =>
                   for_each selected_models
                     (render_card metric_config metric_values best.1 best.2))))))).

Section ComparisonTab.
Context `{SklearnMetrics}.

(** One line of the warning: [f"- **{model}**: {pct}% train / {100-pct}% test"] *)
Definition split_line (entry : string * option Z) : result string :=
  (rest <~ hundred_minus entry.2 ;;
   Ok ("- **" +:+ entry.1 +:+ "**: " +:+ pretty_opt entry.2 +:+ "% train / "
       +:+ pretty rest +:+ "% test"))%py.

Fixpoint split_lines (train_pcts : list (string * option Z))
  : result (list string) :=
  match train_pcts with
  | [] => Ok []
  | entry :: rest =>
      (line <~ split_line entry ;;
       lines <~ split_lines rest ;; Ok (line :: lines))%py
  end.

Fixpoint join (sep : string) (lines : list string) : string :=
  match lines with
  | [] => ""
  | [line] => line
  | line :: rest => line +:+ sep +:+ join sep rest
  end.

Definition mismatch_warning (lines : list string) : string :=
  warning_sign +:+ " **Cannot compare models trained on different data splits!**"
  +:+ newline +:+ newline +:+ "Current train/test splits:" +:+ newline
  +:+ join newline lines
  +:+ newline +:+ newline
  +:+ "Please retrain all models with the same train/test split percentage.".

(** The recorded split percentage of every trained model, in registry
    order *)
Definition recorded_train_pcts (trained_models : list (string * bool))
  (s : AppState.SessionState) : list (string * option Z) :=
  omap (fun nc : string * model_class =>
          if default false (assoc nc.1 trained_models)
          then Some (nc.1, AppState.r_train_pct (AppState.get_model_results nc.1 s))
          else None)
       AVAILABLE_MODELS.

(** [all(pct == train_pct_values[0] for pct in train_pct_values)] *)
Definition all_same (train_pct_values : list (option Z)) : bool :=
  match train_pct_values with
  | [] => true
  | first :: _ => forallb (fun pct => bool_decide (pct = first)) train_pct_values
  end.

Definition render_comparison_tab (historical_data : DataFrame)
  (multiselect : list string -> list string) (s : AppState.SessionState)
  : Render unit :=
  let trained_models := AppState.get_all_trained_models s in
  let num_trained := len (filter (fun nb => nb.2 = true) trained_models) in
  if decide (num_trained = 0) then
    emit (st_info (info_sign +:+ " Train at least one model to see comparisons."))
  else if decide (num_trained = 1) then
    emit (st_info (info_sign +:+ " Train at least 2 models to see meaningful comparisons."))
  else
    let train_pcts := recorded_train_pcts trained_models s in
    let train_pct_values := train_pcts.*2 in
    let all_same_split := all_same train_pct_values in
    and_then
      (if negb all_same_split
       then
         and_then (of_result (split_lines train_pcts)) (fun lines =>
         and_then (emit (st_warning (mismatch_warning lines))) (fun _ => stop))
       else done tt)
      (fun _ =>
    and_then (of_result (first_item train_pct_values)) (fun train_pct =>
    and_then (of_result (hundred_minus train_pct)) (fun rest =>
    and_then (emit (st_success (check_mark +:+ " All models trained on "
                                +:+ pretty_opt train_pct +:+ "% / "
                                +:+ pretty rest +:+ "% split"))) (fun _ =>
    and_then (of_result
                match train_pct with
                | Some pct => HoldoutPct.init pct
                | None => Raise (Exn TypeError "'<' not supported between instances of 'int' and 'NoneType'")
                end) (fun splitter =>
    let '(train_data, test_data) := HoldoutPct.split splitter historical_data in
    let trained_model_names := (filter (fun nb => nb.2 = true) trained_models).*1 in
    let selected_models := multiselect trained_model_names in
    and_then
      (if decide (len selected_models = 0)
       then and_then (emit (st_info (info_sign +:+ " Please select at least one model to display.")))
              (fun _ => stop)
       else done tt)
      (fun _ =>
    let model_predictions :=
      (fun name =>
         let results := AppState.get_model_results name s in
         (name, (AppState.r_test_predictions results,
                 AppState.r_predictions results))) <$> selected_models in
    let model_results :=
      (fun name =>
         (name, AppState.r_metrics (AppState.get_model_results name s)))
        <$> selected_models in
    and_then (of_result (plot_model_comparison train_data test_data
                           model_predictions selected_models)) (fun fig =>
    and_then (emit (st_plotly_chart fig)) (fun _ =>
    and_then (emit (st_caption (chart_sign +:+ " LEADERBOARD"))) (fun _ =>
    for_each AVAILABLE_METRICS
      (fun kc => render_metric_leaderboard kc.1 kc.2 model_results
                   selected_models)))))))))).

End ComparisonTab.

End UI.

(** ** ui/model_tab.py: the evaluation details *)

(** The train and test parts the detail view of a trained model rebuilds
    from the number of stored test predictions:
    [historical_data.iloc[:-test_size]] and
    [historical_data.iloc[-test_size:]]. *)
Definition evaluation_details (historical_data test_predictions : DataFrame)
  : DataFrame * DataFrame :=
  let test_size := len test_predictions in
  let train_data := iloc_to (- test_size) historical_data in
  let test_data := iloc_from (- test_size) historical_data in
  (train_data, test_data).

(** ** The hyperparameter schemas: [get_hyperparameters] of the models *)

Module Schema.

(** One entry of a schema: a dict with the keys the form renderer reads;
    a key that an entry does not have is [None]. *)
Record config := {
  cfg_label : string;
  cfg_type : string;
  cfg_min : option hyperval;
  cfg_max : option hyperval;
  cfg_default : hyperval;
  cfg_step : option float;
  cfg_options : option (list string);
  cfg_help : string
}.

Definition int_config (label : string) (min max default : Z) (help : string)
  : config :=
  {| cfg_label := label; cfg_type := "int";
     cfg_min := Some (HInt min); cfg_max := Some (HInt max);
     cfg_default := HInt default; cfg_step := None; cfg_options := None;
     cfg_help := help |}.

Definition float_config (label : string) (min max default step : float)
  (help : string) : config :=
  {| cfg_label := label; cfg_type := "float";
     cfg_min := Some (HFloat min); cfg_max := Some (HFloat max);
     cfg_default := HFloat default; cfg_step := Some step;
     cfg_options := None; cfg_help := help |}.

Definition select_config (label : string) (options : list string)
  (default : string) (help : string) : config :=
  {| cfg_label := label; cfg_type := "select";
     cfg_min := None; cfg_max := None;
     cfg_default := HStr default; cfg_step := None;
     cfg_options := Some options; cfg_help := help |}.

(** [ARIMAForecaster.get_hyperparameters] *)
Definition arima : list (string * config) :=
  [("p", int_config "p (AR order)" 0 5 1
           "How many **past values** to use for prediction");
   ("d", int_config "d (Differencing)" 0 2 1
           "How many **times the data is differenced** to remove trend");
   ("q", int_config "q (MA order)" 0 5 1
           "How many **past errors** to use for prediction")].

(** [ProphetForecaster.get_hyperparameters] *)
Definition prophet : list (string * config) :=
  [("changepoint_prior_scale",
    float_config "Trend Flexibility" (float_of_ratio 1 1000)
      (float_of_ratio 5 10) (float_of_ratio 5 100) (float_of_ratio 1 1000)
      "How flexible the trend is (higher = more flexible, captures more changes)");
   ("seasonality_prior_scale",
    float_config "Seasonality Strength" (float_of_ratio 1 100)
      (float_of_Z 25) (float_of_Z 10) (float_of_ratio 1 10)
      "Strength of seasonal patterns (higher = stronger seasonality)");
   ("seasonality_mode",
    select_config "Seasonality Mode" ["additive"; "multiplicative"] "additive"
      "**Additive**: seasonality constant over time. **Multiplicative**: seasonality scales with trend")].

(** [NBEATSForecaster.get_hyperparameters] *)
Definition nbeats : list (string * config) :=
  [("input_chunk_length",
    int_config "Lookback Window" 3 30 5
      "Number of **past timesteps** to look at (smaller = faster)");
   ("n_epochs",
    int_config "Training Epochs" 10 150 10
      "Number of **training iterations** (fewer = faster)");
   ("scaler_type",
    select_config "Data Scaling"
      ["Standard (z-score)"; "MinMax (0-1)"; "None"] "Standard (z-score)"
      ("**Standard (recommended)**: Scales to mean=0, std=1. Less sensitive to outliers. "
       +:+ "**MinMax**: Scales to [0,1] range, but outliers can squish other values near zero. "
       +:+ "**None**: No scaling - neural networks typically fail without it (predictions collapse). "
       +:+ "Try all three to see how preprocessing affects deep learning!"))].

(** [model_class.get_hyperparameters()] and
    [model_class.has_recommendations()] *)
Definition get_hyperparameters (cls : model_class) : list (string * config) :=
  match cls with
  | ARIMAForecaster => arima
  | ProphetForecaster => prophet
  | NBEATSForecaster => nbeats
  end.

Definition has_recommendations (cls : model_class) : bool :=
  match cls with
  | ARIMAForecaster => true
  | ProphetForecaster => false
  | NBEATSForecaster => false
  end.

(** The defaults of a schema as keyword arguments *)
Definition defaults (schema : list (string * config))
  : gmap string hyperval :=
  list_to_map ((fun nc => (nc.1, cfg_default nc.2)) <$> schema).

End Schema.

(** ** models/arima.py: the order recommendations *)

(** [adfuller(series)[1]], [pacf(series, nlags=n)] and [acf(series, nlags=n)]
    of statsmodels.tsa.stattools *)
Class StatTools := {
  adfuller_pvalue : list float -> result float;
  pacf : list float -> Z -> result (list float);
  acf : list float -> Z -> result (list float)
}.

Module Recommend.

(** A piece of an explanation: text, or a float formatted with a fixed
    number of decimals ([f"{v:.4f}"]). *)
Inductive fragment :=
| Plain (s : string)
| Decimals (digits : nat) (v : float).

Abbreviation explanation := (list fragment).

(** [series.dropna()] and [series.diff()] *)
Definition dropna (series : list float) : list float :=
  filter (fun v => isnan v = false) series.

Definition diff (series : list float) : list float :=
  match series with
  | [] => []
  | _ :: later => S754_nan :: zip_with fsub later series
  end.

(** [x < y] and [abs(x) > y] on floats *)
Definition significant (x confidence : float) : bool :=
  flt confidence (SFabs x).

Definition plus_minus : string := String (ascii_of_nat 194) (String (ascii_of_nat 177) "").

Section Recommend.
Context `{StatTools}.

(** The body of the loop of [recommend_d] from level [d] on, over
    [range(d, max_d + 1)]: [levels] counts the levels left.  The result is
    what the function returns from inside the loop, or the last p-value
    when the loop runs out. *)
Fixpoint adf_levels (levels : nat) (d : Z) (current_series : list float)
  (p_value : option float) : (Z * explanation) + option float :=
  match levels with
  | O => inr p_value
  | S levels' =>
      let clean_series := dropna current_series in
      if len clean_series <? 10
      then inl (1, [Plain "Data too short after differencing. Fallback to d=1."])
      else
        match adfuller_pvalue clean_series with
        | Raise e =>
            inl (1, [Plain ("Error in ADF test: " +:+ exn_msg e
                            +:+ ". Fallback to d=1.")])
        | Ok p =>
            if flt p (float_of_ratio 5 100)
            then
              inl (d,
                   if decide (d = 0)
                   then [Plain "Series is already stationary (ADF p-value=";
                         Decimals 4 p; Plain " < 0.05)."]
                   else if decide (d = 1)
                   then [Plain "Series became stationary after 1st differencing (ADF p-value=";
                         Decimals 4 p; Plain " < 0.05)."]
                   else [Plain "Series became stationary after 2nd differencing (ADF p-value=";
                         Decimals 4 p; Plain " < 0.05)."])
            else adf_levels levels' (d + 1) (diff current_series) (Some p)
        end
  end.

(** [ARIMAForecaster.recommend_d] *)
Definition recommend_d (data : DataFrame) (max_d : Z)
  : result (Z * explanation) :=
  let values := values data in
  if len (dropna values) <? 10
  then Ok (1, [Plain "Not enough data points for analysis. Using d=1 as default."])
  else
    match adf_levels (Z.to_nat (max_d + 1)) 0 values None with
    | inl returned => Ok returned
    | inr (Some p_value) =>
        Ok (1, [Plain "Series remains non-stationary (ADF p-value=";
                Decimals 4 p_value; Plain " > 0.05). Fallback to d=1."])
    | inr None =>
        Raise (Exn TypeError "unsupported format string passed to NoneType.__format__")
    end.

(** The loop of [recommend_p] and [recommend_q] over the lags still to
    scan: the last significant lag of the leading run. *)
Fixpoint scan_lags (corr : list float) (confidence : float)
  (lags : list Z) (found : Z) : result Z :=
  match lags with
  | [] => Ok found
  | lag :: rest =>
      match corr !! Z.to_nat lag with
      | None => Raise (Exn IndexError "index out of bounds")
      | Some v =>
          if significant v confidence
          then scan_lags corr confidence rest lag
          else Ok found
      end
  end.

(** The common body of [recommend_p] (on the PACF) and [recommend_q] (on
    the ACF); [max_lag] is 20 in both. *)
Definition recommend_order
  (correlation : list float -> Z -> result (list float))
  (tool symbol : string) (data : DataFrame) (max_lag : Z)
  : Z * explanation :=
  let clean_data := dropna (values data) in
  if len clean_data <? 20
  then (1, [Plain ("Not enough data points for " +:+ tool
                   +:+ " analysis. Fallback to " +:+ symbol +:+ "=1.")])
  else
    match
      (corr <~ correlation clean_data (Z.min max_lag (len clean_data / 2)) ;;
       let confidence :=
         SFdiv 53 1024 (float_of_ratio 196 100)
           (np_sqrt (float_of_Z (len clean_data))) in
       found <~ scan_lags corr confidence
                  (seqZ 1 (Z.min (len corr) 6 - 1)) 0 ;;
       let found := Z.min found 5 in
       if decide (found = 0)
       then Ok (1, [Plain ("No significant " +:+ tool
                           +:+ " values detected. Fallback to " +:+ symbol
                           +:+ "=1.")])
       else Ok (found,
                [Plain (tool +:+ " shows " +:+ pretty found
                        +:+ " significant lag(s) above confidence bound ("
                        +:+ plus_minus);
                 Decimals 3 confidence; Plain ")."]))%py
    with
    | Ok returned => returned
    | Raise e =>
        (1, [Plain ("Error in " +:+ tool +:+ " analysis: " +:+ exn_msg e
                    +:+ ". Fallback to " +:+ symbol +:+ "=1.")])
    end.

(** [ARIMAForecaster.recommend_p], [ARIMAForecaster.recommend_q] *)
Definition recommend_p (data : DataFrame) (max_lag : Z) : Z * explanation :=
  recommend_order pacf "PACF" "p" data max_lag.

Definition recommend_q (data : DataFrame) (max_lag : Z) : Z * explanation :=
  recommend_order acf "ACF" "q" data max_lag.

(** [ARIMAForecaster.get_recommendations] *)
Definition get_recommendations (data : DataFrame)
  : result (list (string * (Z * explanation))) :=
  (rec_d <~ recommend_d data 2 ;;
   let rec_p := recommend_p data 20 in
   let rec_q := recommend_q data 20 in
   Ok [("p", rec_p); ("d", rec_d); ("q", rec_q)])%py.

End Recommend.
End Recommend.

(** ** Notions used in the statements of the properties *)

(** *** The scaler type of the N-BEATS variant *)

(** The stored scaler type as the docstring of the constructor words it:
    a display name gives its internal name, every other string its lower
    case. *)
Definition expected_scaler_type (name : string) : string :=
  if decide (name = "Standard (z-score)") then "standard"
  else if decide (name = "MinMax (0-1)") then "minmax"
  else if decide (name = "None") then "none"
  else lower name.

(** *** The order recommendations *)

(** [k] is the length of the leading run of significant lags, among the
    lags 1 to 5 that [corr] holds. *)
Definition leading_run (corr : list float) (confidence : float) (k : Z)
  : Prop :=
  0 <= k <= 5 /\
  (forall lag, 1 <= lag <= k ->
     exists v, corr !! Z.to_nat lag = Some v /\
               Recommend.significant v confidence = true) /\
  (k = 5 \/ len corr <= k + 1 \/
   exists v, corr !! Z.to_nat (k + 1) = Some v /\
             Recommend.significant v confidence = false).

(** The bound [1.96 / np.sqrt(len(clean_data))] of [recommend_p] and
    [recommend_q] *)
Definition confidence_bound (data : DataFrame) : float :=
  SFdiv 53 1024 (float_of_ratio 196 100)
    (np_sqrt (float_of_Z (len (Recommend.dropna (values data))))).

(** The series after [j] rounds of differencing, missing values dropped. *)
Definition differenced (series : list float) (j : nat) : list float :=
  Recommend.dropna (Nat.iter j Recommend.diff series).

Section Stationarity.
Context `{StatTools}.

(** Level [j] is the first at which the ADF test rejects a unit root at
    0.05, every level up to it leaving at least 10 values and a test that
    returns. *)
Definition first_stationary (series : list float) (j : nat) : Prop :=
  (forall i, (i <= j)%nat -> 10 <= len (differenced series i)) /\
  (forall i, (i < j)%nat ->
     exists p_value, adfuller_pvalue (differenced series i) = Ok p_value /\
                     flt p_value (float_of_ratio 5 100) = false) /\
  exists p_value, adfuller_pvalue (differenced series j) = Ok p_value /\
                  flt p_value (float_of_ratio 5 100) = true.

End Stationarity.

(** *** The session and the cache *)

(** Every key the code writes to [st.session_state] for the registered
    models: the entries of the application state, the widgets of the
    hyperparameters and the buttons. *)
Definition all_session_keys : list string :=
  AppState.top_level_keys
  ++ flat_map
       (fun nc : string * model_class =>
          (AppState.session_key nc.1 <$> AppState.entry_suffixes)
          ++ ((fun param => AppState.session_key nc.1 ("_" +:+ param))
                <$> (Schema.get_hyperparameters nc.2).*1)
          ++ ["train_" +:+ lower nc.1])
       AVAILABLE_MODELS.

(** The results of a model that is not trained *)
Definition no_results : AppState.model_results :=
  {| AppState.r_trained := false; AppState.r_metrics := None;
     AppState.r_predictions := None; AppState.r_test_predictions := None;
     AppState.r_train_pct := None; AppState.r_horizon := None |}.

(** The registered models shown as trained, in registry order. *)
Definition trained_names (s : AppState.SessionState) : list string :=
  (filter (fun nc : string * model_class =>
             AppState.r_trained (AppState.get_model_results nc.1 s) = true)
          AVAILABLE_MODELS).*1.

Section TrainingResults.
Context `{Pandas} `{Statsmodels} `{ProphetLib} `{Sklearn} `{!Darts}
        `{SklearnMetrics}.

(** Every entry of the cache is a result of the producer for its key. *)
Definition cache_sound (c : TrainingCache) : Prop :=
  forall key r,
    (key, r) ∈ entries c ->
    train_and_evaluate_body (k_model_class key) (k_data key) (k_train_pct key)
      (k_horizon key) (k_upload_key key) (k_hyperparams key) = Ok r.

(** The stored results of a model shown as trained come from a training
    on the loaded data. *)
Definition results_from_training (s : AppState.SessionState)
  (name : string) (cls : model_class) : Prop :=
  exists data hyperparams metrics preds test_preds train_pct horizon,
    AppState.get_data s = Some data /\
    AppState.get_model_results name s
    = {| AppState.r_trained := true;
         AppState.r_metrics := Some metrics;
         AppState.r_predictions := Some preds;
         AppState.r_test_predictions := Some test_preds;
         AppState.r_train_pct := Some train_pct;
         AppState.r_horizon := Some horizon |} /\
    0 < train_pct < 100 /\
    train_and_evaluate_body cls data train_pct horizon
      (AppState.get_upload_key s) hyperparams
    = Ok (metrics, preds, test_preds).

End TrainingResults.

(** *** The order of the floats and the cards of the leaderboard *)

(** The position of a float that is not NaN on the line of floats: the
    class (infinities, negative, zero, positive), then exponent and
    mantissa. *)
Definition float_rank (x : float) : Z * Z * Z :=
  match x with
  | S754_nan => (0, 0, 0)
  | S754_zero _ => (0, 0, 0)
  | S754_infinity true => (-2, 0, 0)
  | S754_infinity false => (2, 0, 0)
  | S754_finite true m e => (-1, - e, - Z.pos m)
  | S754_finite false m e => (1, e, Z.pos m)
  end.

(** The lexicographic order on positions *)
Definition rank_lt (a b : Z * Z * Z) : Prop :=
  a.1.1 < b.1.1 \/
  (a.1.1 = b.1.1 /\ (a.1.2 < b.1.2 \/ (a.1.2 = b.1.2 /\ a.2 < b.2))).

(** [better a b]: [a] beats [b], for a metric where lower is better or
    where higher is. *)
Definition better (lower_is_better : bool) (a b : float) : bool :=
  if lower_is_better then flt a b else flt b a.

(** The comparison that [min] or [max] makes, by the direction of the
    metric *)
Definition py_better (lower_is_better : bool)
  : option float -> option float -> result bool :=
  if lower_is_better then UI.py_lt else UI.py_gt.

(** One card of the leaderboard for [model_name], given the best model. *)
Definition leaderboard_card (metric_config : metric_config)
  (val : string -> float) (best model_name : string) : UI.element :=
  if bool_decide (model_name = best)
  then UI.st_metric true model_name (UI.Fixed2 (val model_name))
         (UI.Text UI.trophy) "off"
  else UI.st_metric false model_name (UI.Fixed2 (val model_name))
         (UI.SignedFixed2 (fsub (val model_name) (val best)))
         (if lower_is_better metric_config then "inverse" else "normal").

(** ** What the properties need of the libraries *)

(** Adding the offset of a frequency moves a timestamp forward. *)
Class PandasContract `{Pandas} : Prop := {
  offset_add_gt : forall (f : Freq) (t : Timestamp), t < offset_add f t
}.

(** A fitted ARIMA forecasts as many values as steps are asked. *)
Class StatsmodelsContract `{Statsmodels} : Prop := {
  ARIMA_forecast_steps :
    forall (fitted : ARIMAResults) (steps : Z),
      1 <= steps ->
      exists vals, ARIMA_forecast fitted steps = Ok vals /\ len vals = steps
}.

(** A fitted Prophet keeps the dates of its training rows, and predicts one
    row for each date it is asked. *)
Class ProphetContract `{ProphetLib} : Prop := {
  Prophet_fit_history :
    forall (df : DataFrame) (m m' : Prophet),
      increasing df ->
      Prophet_fit df m = (Ok tt, m') ->
      history_dates m' = Some (index df);
  Prophet_predict_rows :
    forall (m : Prophet) (history dates : list Timestamp),
      history_dates m = Some history ->
      exists rows, Prophet_predict m dates = Ok rows /\ index rows = dates
}.

(** A scaler keeps the number of values. *)
Class SklearnContract `{Sklearn} : Prop := {
  fit_transform_length :
    forall (vals scaled : list float) (sc sc' : Scaler),
      fit_transform vals sc = (Ok scaled, sc') -> length scaled = length vals;
  inverse_transform_length :
    forall (vals scaled : list float) (sc sc' : Scaler),
      fit_transform vals sc = (Ok scaled, sc') ->
      forall l, exists l', inverse_transform sc' l = Ok l' /\ length l' = length l
}.

(** A fitted N-BEATS model predicts [n] values, dated from the end of its
    training series on at the frequency of that series. *)
Class DartsContract `{Pandas} `{!Darts} : Prop := {
  NBEATS_predict_index :
    forall (df : DataFrame) (freq : Freq) (series : TimeSeries)
           (m m' : NBEATSModel) (last_date : Timestamp) (n : Z),
      increasing df ->
      last (index df) = Some last_date ->
      from_dataframe df freq = Ok series ->
      NBEATS_fit series m = (Ok tt, m') ->
      1 <= n ->
      exists forecast_ts,
        NBEATS_predict m' n = Ok forecast_ts /\
        time_index forecast_ts = date_range (offset_add freq last_date) n freq /\
        len (ts_values forecast_ts) = n
}.

(** ** Stand-ins for the libraries

    Small executable instances of the library interfaces, used to run the
    embedding on concrete series: timestamps count days, a frequency is a
    positive number of days, and every model repeats the last value it was
    fitted on. *)

Module StandIn.

Fixpoint regular (step : Z) (dates : list Timestamp) : bool :=
  match dates with
  | a :: (b :: _) as rest => (b - a =? step) && regular step rest
  | _ => true
  end.

Definition infer (dates : list Timestamp) : result (option positive) :=
  match dates with
  | a :: b :: _ :: _ =>
      if (0 <? b - a) && regular (b - a) dates
      then Ok (Some (Z.to_pos (b - a)))
      else Ok None
  | _ => Raise (Exn ValueError "Need at least 3 dates to infer frequency")
  end.

#[export] Instance pandas : Pandas :=
  {| Freq := positive;
     infer_freq := infer;
     freq_D := 1%positive;
     offset_add := fun f t => t + Z.pos f |}.

Definition repeat_last (vals : list float) : result float :=
  match last vals with
  | Some v => Ok v
  | None => Raise (Exn LibraryError "zero-size array")
  end.

#[export] Instance statsmodels : Statsmodels :=
  {| ARIMAResults := float;
     ARIMA_fit := fun vals _ => repeat_last vals;
     ARIMA_forecast := fun v steps => Ok (replicate (Z.to_nat steps) v) |}.

#[export] Instance prophet : ProphetLib :=
  {| Prophet := option (list Timestamp * float);
     Prophet_new := fun _ _ _ => Ok None;
     Prophet_fit := fun df _ =>
       match repeat_last (values df) with
       | Ok v => (Ok tt, Some (index df, v))
       | Raise e => (Raise e, None)
       end;
     history_dates := fun m => fst <$> m;
     Prophet_predict := fun m dates =>
       match m with
       | Some (_, v) => Ok ((fun d => (d, v)) <$> dates)
       | None => Raise (Exn LibraryError "Model has not been fit.")
       end |}.

#[export] Instance sklearn : Sklearn :=
  {| Scaler := unit;
     MinMaxScaler := tt;
     StandardScaler := tt;
     fit_transform := fun vals sc => (Ok vals, sc);
     inverse_transform := fun _ vals => Ok vals |}.

#[export] Instance darts : Darts :=
  {| TimeSeries := positive * DataFrame;
     from_dataframe := fun df freq => Ok (freq, df);
     ts_values := fun series => values series.2;
     time_index := fun series => index series.2;
     NBEATSModel := option (positive * DataFrame);
     NBEATSModel_new := fun _ _ _ _ => Ok None;
     NBEATS_fit := fun series _ => (Ok tt, Some series);
     NBEATS_predict := fun m n =>
       match m with
       | Some (freq, df) =>
           match last df with
           | Some (t, v) =>
               Ok (freq, zip (date_range (offset_add freq t) n freq)
                             (replicate (Z.to_nat n) v))
           | None => Raise (Exn LibraryError "empty series")
           end
       | None => Raise (Exn LibraryError "The model must be fit before calling predict()")
       end |}.

(** The mean of the absolute, and of the squared, differences in binary64 *)
Definition fadd : float -> float -> float := SFadd 53 1024.
Definition fmul : float -> float -> float := SFmul 53 1024.
Definition fdiv : float -> float -> float := SFdiv 53 1024.

Definition mean_of (f : float -> float -> float) (a p : list float)
  : result float :=
  if decide (length a = length p) then
    match a with
    | [] => Raise (Exn ValueError "Found array with 0 sample(s)")
    | _ =>
        if existsb isnan (a ++ p)
        then Raise (Exn ValueError "Input contains NaN.")
        else Ok (fdiv (foldl fadd (float_of_Z 0) (zip_with f a p))
                      (float_of_Z (len a)))
    end
  else Raise (Exn ValueError "Found input variables with inconsistent numbers of samples").

#[export] Instance metrics : SklearnMetrics :=
  {| mean_absolute_error := mean_of (fun x y => SFabs (fsub x y));
     mean_squared_error := mean_of (fun x y => fmul (fsub x y) (fsub x y)) |}.

(** The series [value[i] = i] on the days [0 .. n-1] *)
Definition linear (n : nat) : DataFrame :=
  (fun i => (Z.of_nat i, float_of_Z (Z.of_nat i))) <$> seq 0 n.

(** An ADF test that rejects a unit root exactly on a constant series,
    and correlations that decay with the lag: the PACF as 1/lag, the ACF
    as 1 - lag/10. *)
Definition constant (series : list float) : bool :=
  match series with
  | [] => true
  | first :: rest => forallb (SFeqb first) rest
  end.

#[export] Instance stattools : StatTools :=
  {| adfuller_pvalue := fun series =>
       Ok (if constant series then float_of_ratio 1 100
           else float_of_ratio 1 2);
     pacf := fun _ nlags =>
       Ok ((fun lag => float_of_ratio 1 (Z.max 1 lag)) <$> seqZ 0 (nlags + 1));
     acf := fun _ nlags =>
       Ok ((fun lag => float_of_ratio (10 - lag) 10) <$> seqZ 0 (nlags + 1)) |}.

(** The series [value[i] = i * i] on the days [0 .. n-1] *)
Definition quadratic (n : nat) : DataFrame :=
  (fun i => (Z.of_nat i, float_of_Z (Z.of_nat i * Z.of_nat i))) <$> seq 0 n.

End StandIn.

(** * Properties *)

Import Py.

(** ** Slices *)

Lemma slice_to_nonneg {A} (k : Z) (l : list A) :
  0 <= k -> slice_to k l = take (Z.to_nat k) l.
Proof.
  intros Hk. unfold slice_to, slice_bound, len.
  destruct (Z.ltb_spec k 0) as [?|_]; [lia|].
  destruct (Z.le_ge_cases k (Z.of_nat (length l))) as [Hle|Hge].
  - by rewrite Z.min_l.
  - rewrite Z.min_r by lia. rewrite Nat2Z.id.
    rewrite !take_ge; [done | lia | lia].
Qed.

Lemma slice_from_nonneg {A} (k : Z) (l : list A) :
  0 <= k -> slice_from k l = drop (Z.to_nat k) l.
Proof.
  intros Hk. unfold slice_from, slice_bound, len.
  destruct (Z.ltb_spec k 0) as [?|_]; [lia|].
  destruct (Z.le_ge_cases k (Z.of_nat (length l))) as [Hle|Hge].
  - by rewrite Z.min_l.
  - rewrite Z.min_r by lia. rewrite Nat2Z.id.
    rewrite !drop_ge; [done | lia | lia].
Qed.

Lemma slices_app {A} (k : Z) (l : list A) : slice_to k l ++ slice_from k l = l.
Proof. apply take_drop. Qed.

(** ** The percentage holdout splitter *)

Lemma init_inside (train_pct : Z) :
  0 < train_pct < 100 ->
  HoldoutPct.init train_pct = Ok {| HoldoutPct.train_pct := train_pct |}.
Proof.
  intros [H0 H100]. unfold HoldoutPct.init.
  destruct (Z.ltb_spec 0 train_pct); [|lia].
  destruct (Z.ltb_spec train_pct 100); [done|lia].
Qed.

Lemma init_outside (train_pct : Z) :
  ~ (0 < train_pct < 100) ->
  HoldoutPct.init train_pct = Raise Taxonomy.train_pct_error.
Proof.
  intros Hout. unfold HoldoutPct.init.
  destruct (Z.ltb_spec 0 train_pct); [|done].
  destruct (Z.ltb_spec train_pct 100); [lia|done].
Qed.

Lemma split_idx_positive (self : HoldoutPct.HoldoutPctSplitter) (n : Z) :
  1 <= HoldoutPct.split_idx self n.
Proof. unfold HoldoutPct.split_idx. lia. Qed.

Lemma split_idx_below (self : HoldoutPct.HoldoutPctSplitter) (n : Z) :
  2 <= n -> HoldoutPct.split_idx self n <= n - 1.
Proof. unfold HoldoutPct.split_idx. lia. Qed.

Lemma split_take_drop (self : HoldoutPct.HoldoutPctSplitter) (data : DataFrame) :
  HoldoutPct.split self data =
    (take (Z.to_nat (HoldoutPct.split_idx self (len data))) data,
     drop (Z.to_nat (HoldoutPct.split_idx self (len data))) data).
Proof.
  unfold HoldoutPct.split, iloc_to, iloc_from.
  pose proof (split_idx_positive self (len data)).
  rewrite slice_to_nonneg, slice_from_nonneg by lia. done.
Qed.

Lemma increasing_app_lt (train test : DataFrame) :
  increasing (train ++ test) ->
  forall a b, a ∈ train -> b ∈ test -> a.1 < b.1.
Proof.
  unfold increasing, index. rewrite fmap_app. intros Hs a b Ha Hb.
  apply (StronglySorted_app_1_elem_of Z.lt (train.*1) (test.*1)); [done| |].
  - apply list_elem_of_fmap. by exists a.
  - apply list_elem_of_fmap. by exists b.
Qed.

(** C4: on a series of at least two rows the percentage holdout returns
    two non-empty parts whose lengths add up to the length of the series,
    the training part being the rows before the test part in the original
    order, hence earlier in time on a series with increasing timestamps. *)
Theorem C4_split_nonempty_ordered (train_pct : Z) (data : DataFrame) :
  2 <= len data ->
  0 < train_pct < 100 ->
  exists train test,
    HoldoutPct.construct_and_split train_pct data = Ok (train, test) /\
    1 <= len train /\
    1 <= len test /\
    len train + len test = len data /\
    train ++ test = data /\
    (increasing data -> forall a b, a ∈ train -> b ∈ test -> a.1 < b.1).
Proof.
  intros Hn Hpct.
  set (self := {| HoldoutPct.train_pct := train_pct |}).
  pose proof (split_idx_positive self (len data)) as Hlo.
  pose proof (split_idx_below self (len data) Hn) as Hhi.
  exists (take (Z.to_nat (HoldoutPct.split_idx self (len data))) data),
         (drop (Z.to_nat (HoldoutPct.split_idx self (len data))) data).
  split.
  { unfold HoldoutPct.construct_and_split. rewrite init_inside by done.
    simpl. by rewrite split_take_drop. }
  unfold len in *. rewrite length_take, length_drop.
  repeat split; try lia.
  - apply take_drop.
  - intros Hinc. apply increasing_app_lt. by rewrite take_drop.
Qed.

Lemma C4_split_nonempty_ordered_witness :
  exists train test,
    HoldoutPct.construct_and_split 80 (StandIn.linear 100) = Ok (train, test) /\
    1 <= len train /\
    1 <= len test /\
    len train + len test = len (StandIn.linear 100) /\
    train ++ test = StandIn.linear 100 /\
    (increasing (StandIn.linear 100) ->
     forall a b, a ∈ train -> b ∈ test -> a.1 < b.1).
Proof.
  apply (C4_split_nonempty_ordered 80 (StandIn.linear 100)).
  - vm_compute. discriminate.
  - lia.
Defined.

(** The split index of the code truncates the quotient; the clamp is the
    one of the specification. *)
Lemma split_idx_floor (train_pct n : Z) :
  0 <= n -> 0 < train_pct ->
  exists q,
    100 * q <= n * train_pct < 100 * (q + 1) /\
    HoldoutPct.split_idx {| HoldoutPct.train_pct := train_pct |} n
    = SplitSpec.clamp q 1 (n - 1).
Proof.
  intros Hn Hpct. exists (n * train_pct / 100). split.
  - pose proof (Z.mul_div_le (n * train_pct) 100).
    pose proof (Z.mul_succ_div_gt (n * train_pct) 100). lia.
  - unfold HoldoutPct.split_idx, SplitSpec.clamp, int_truediv. simpl.
    rewrite Z.quot_div_nonneg by lia. done.
Qed.

(** C2, as the specification words it, fails: on ten rows at 77 percent the
    code trains on seven rows, the rounded index gives eight. *)
Lemma C2_counterexample :
  0 < 77 < 100 /\
  HoldoutPct.split_idx {| HoldoutPct.train_pct := 77 |} 10 = 7 /\
  SplitSpec.spec_split_idx 77 10 = 8 /\
  HoldoutPct.construct_and_split 77 (StandIn.linear 10)
  <> Ok (SplitSpec.spec_split 77 (StandIn.linear 10)).
Proof. repeat split; try lia; vm_compute; congruence. Qed.

(** C2, amended: for a percentage in (0,100) the split index is the
    quotient of [n * train_pct] by 100 with its fraction dropped (not
    rounded to the nearest integer), clamped between 1 and [n - 1]; train is
    the rows before the index and test the rows from it on. *)
Theorem C2_split_idx_truncates (train_pct : Z) (data : DataFrame) :
  0 < train_pct < 100 ->
  exists q split_idx,
    100 * q <= len data * train_pct < 100 * (q + 1) /\
    split_idx = SplitSpec.clamp q 1 (len data - 1) /\
    HoldoutPct.construct_and_split train_pct data
    = Ok (take (Z.to_nat split_idx) data, drop (Z.to_nat split_idx) data).
Proof.
  intros Hpct.
  destruct (split_idx_floor train_pct (len data)) as (q & Hq & Hidx);
    [unfold len; lia | lia |].
  exists q, (SplitSpec.clamp q 1 (len data - 1)). repeat split; try apply Hq.
  unfold HoldoutPct.construct_and_split. rewrite init_inside by done. simpl.
  by rewrite split_take_drop, Hidx.
Qed.

Lemma C2_split_idx_truncates_witness :
  exists q split_idx,
    100 * q <= len (StandIn.linear 10) * 77 < 100 * (q + 1) /\
    split_idx = SplitSpec.clamp q 1 (len (StandIn.linear 10) - 1) /\
    HoldoutPct.construct_and_split 77 (StandIn.linear 10)
    = Ok (take (Z.to_nat split_idx) (StandIn.linear 10),
          drop (Z.to_nat split_idx) (StandIn.linear 10)).
Proof. apply (C2_split_idx_truncates 77 (StandIn.linear 10)). lia. Defined.

(** The constructor decides alone whether the splitter fails. *)
Lemma split_fails_iff_pct_outside (train_pct : Z) (data : DataFrame) :
  HoldoutPct.construct_and_split train_pct data
  = Raise Taxonomy.train_pct_error <-> ~ (0 < train_pct < 100).
Proof.
  unfold HoldoutPct.construct_and_split.
  destruct (decide (0 < train_pct < 100)) as [Hin|Hout].
  - rewrite init_inside by done. simpl. split; [discriminate | done].
  - rewrite init_outside by done. simpl. done.
Qed.

(** The half of C3 on the percentage holds: outside (0,100) the splitter
    fails with the configuration error raised by its constructor, whatever
    the series, and no (train, test) pair is produced. *)
Lemma split_fails_outside_pct (train_pct : Z) (data : DataFrame) :
  ~ (0 < train_pct < 100) ->
  HoldoutPct.construct_and_split train_pct data
  = Raise Taxonomy.train_pct_error /\
  Taxonomy.classify Taxonomy.train_pct_error
  = Some Taxonomy.InvalidConfiguration /\
  forall train test,
    HoldoutPct.construct_and_split train_pct data <> Ok (train, test).
Proof.
  intros Hout. apply split_fails_iff_pct_outside with (data := data) in Hout.
  split; [exact Hout|]. split; [reflexivity|].
  intros train test. rewrite Hout. discriminate.
Qed.

(** C3, the half on short series, is not what the code does: for every
    percentage inside (0,100) a series of fewer than two rows is split
    without any failure, into all of its rows and an empty test part.
    The docstring of [split] and the comment at the clamp promise at least
    one point in both parts. *)
Theorem C3_split_accepts_short_series (train_pct : Z) (data : DataFrame) :
  0 < train_pct < 100 ->
  len data < 2 ->
  HoldoutPct.construct_and_split train_pct data = Ok (data, []) /\
  forall e, HoldoutPct.construct_and_split train_pct data <> Raise e.
Proof.
  intros Hpct Hshort. unfold HoldoutPct.construct_and_split.
  rewrite init_inside by done. simpl. rewrite split_take_drop.
  pose proof (split_idx_positive {| HoldoutPct.train_pct := train_pct |}
                (len data)) as Hk.
  rewrite take_ge, drop_ge by (unfold len in *; lia).
  split; [done | discriminate].
Qed.

Lemma C3_split_accepts_short_series_witness :
  len (StandIn.linear 1) < 2 /\
  HoldoutPct.construct_and_split 80 (StandIn.linear 1)
  = Ok (StandIn.linear 1, []) /\
  HoldoutPct.construct_and_split 80 [] = Ok ([], []).
Proof.
  split; [vm_compute; reflexivity|]. split.
  - apply (C3_split_accepts_short_series 80 (StandIn.linear 1));
      [lia | vm_compute; reflexivity].
  - apply (C3_split_accepts_short_series 80 []); [lia | vm_compute; reflexivity].
Defined.

(** ** Metrics *)

Lemma metric_step_insert (actual predicted : list float) (name : string)
  (func : metric_function) (results : Metrics) :
  metric_step actual predicted name func results
  = Ok (<[name := match func actual predicted with
                  | Ok value =>
                      if isnan value || isinf value then None else Some value
                  | Raise _ => None
                  end]> results).
Proof.
  unfold metric_step. destruct (func actual predicted) as [value|e]; simpl.
  - by destruct (isnan value || isinf value).
  - done.
Qed.

Lemma calculate_metrics_fmap (actual predicted : list float)
  (metric_functions : gmap string metric_function) :
  calculate_metrics actual predicted metric_functions
  = Ok ((fun func : metric_function =>
           match func actual predicted with
           | Ok value =>
               if isnan value || isinf value then None else Some value
           | Raise _ => None
           end) <$> metric_functions).
Proof.
  unfold calculate_metrics.
  apply (map_fold_weak_ind (fun r m => r = Ok (_ <$> m))).
  - by rewrite fmap_empty.
  - intros name func m r Hfresh ->. simpl.
    by rewrite metric_step_insert, fmap_insert.
Qed.

(** C8: [calculate_metrics] always returns a mapping, with exactly the
    requested metric names as keys; under each name it stores the value
    of that metric's function, or [None] when that function raised or
    returned NaN or an infinity, whatever the other functions did. *)
Theorem C8_calculate_metrics_degrades (actual predicted : list float)
  (metric_functions : gmap string metric_function) :
  exists results : Metrics,
    calculate_metrics actual predicted metric_functions = Ok results /\
    dom results = dom metric_functions /\
    forall name func,
      metric_functions !! name = Some func ->
      results !! name
      = Some match func actual predicted with
             | Raise _ => None
             | Ok value =>
                 if isnan value || isinf value then None else Some value
             end.
Proof.
  eexists. split; [apply calculate_metrics_fmap|]. split.
  - apply dom_fmap_L.
  - intros name func Hfunc. rewrite lookup_fmap, Hfunc. simpl.
    destruct (func actual predicted); done.
Qed.

(** ** The evaluation pipeline *)

Lemma recorded_run {M A} (c : call) (m : PyM M A) (s s' : M) (r : result A)
  (log : list call) :
  m s = (r, s') -> recorded c m (s, log) = (r, (s', log ++ [c])).
Proof. intros Hrun. unfold recorded. simpl. by rewrite Hrun. Qed.

(** C1: whenever the split, the two fits and the two predictions go
    through, [evaluate] returns the metrics of the test values against the
    predictions of the model fitted on train, the forecast of the model
    refitted on the full series, and those test predictions; the calls it
    makes on the model are exactly fit(train), predict(len(test)),
    fit(data), predict(horizon), in this order. *)
Theorem C1_evaluate_two_phase {M S} `{ForecastModel M} `{TimeSeriesSplitter S}
  (data : DataFrame) (splitter : S) (horizon : Z)
  (metric_functions : gmap string metric_function)
  (train test test_predictions forecast : DataFrame)
  (m0 m1 m1' m2 m2' : M) :
  split splitter data = Ok (train, test) ->
  fit train m0 = (Ok tt, m1) ->
  predict (len test) m1 = (Ok test_predictions, m1') ->
  fit data m1' = (Ok tt, m2) ->
  predict horizon m2 = (Ok forecast, m2') ->
  exists metrics,
    calculate_metrics (values test) (values test_predictions) metric_functions
    = Ok metrics /\
    evaluate data splitter horizon metric_functions m0
    = (Ok (metrics, forecast, test_predictions), m2') /\
    evaluate data splitter horizon metric_functions (m0, [])
    = (Ok (metrics, forecast, test_predictions),
       (m2', [CallFit train; CallPredict (len test);
              CallFit data; CallPredict horizon])).
Proof.
  intros Hsplit Hfit1 Hpred1 Hfit2 Hpred2.
  pose proof (calculate_metrics_fmap (values test) (values test_predictions)
                metric_functions) as Hmetrics.
  eexists. split; [exact Hmetrics|]. split.
  - unfold evaluate, bind, lift, ret. rewrite Hsplit. simpl.
    rewrite Hfit1, Hpred1, Hmetrics, Hfit2, Hpred2. done.
  - unfold evaluate, bind, lift, ret. rewrite Hsplit. simpl.
    rewrite (recorded_run _ _ _ _ _ _ Hfit1).
    rewrite (recorded_run _ _ _ _ _ _ Hpred1).
    rewrite Hmetrics.
    rewrite (recorded_run _ _ _ _ _ _ Hfit2).
    rewrite (recorded_run _ _ _ _ _ _ Hpred2). done.
Qed.

(** ** Running method bodies *)

Lemma bind_Ok {S A B} (m : PyM S A) (k : A -> PyM S B) (s s' : S) (b : B) :
  bind m k s = (Ok b, s') ->
  exists a s1, m s = (Ok a, s1) /\ k a s1 = (Ok b, s').
Proof.
  unfold bind. destruct (m s) as [[a|e] s1]; [eauto | discriminate].
Qed.

Lemma lift_Ok {S A} (r : result A) (s s' : S) (a : A) :
  lift r s = (Ok a, s') -> r = Ok a /\ s' = s.
Proof. unfold lift. by intros [= -> ->]. Qed.

Lemma modify_Ok {S} (f : S -> S) (s s' : S) (u : unit) :
  modify f s = (Ok u, s') -> s' = f s.
Proof. unfold modify. by intros [= _ <-]. Qed.

Lemma get_Ok {S} (s s' a : S) : get s = (Ok a, s') -> a = s /\ s' = s.
Proof. unfold get. by intros [= -> ->]. Qed.

Ltac run_ok H :=
  repeat
    match type of H with
    | bind _ _ _ = (Ok _, _) =>
        let a := fresh "a" in
        let s := fresh "s" in
        let H1 := fresh "Hstep" in
        apply bind_Ok in H as (a & s & H1 & H);
        first [ apply lift_Ok in H1 as [H1 ->]
              | apply modify_Ok in H1 as ->
              | apply get_Ok in H1 as [-> ->]
              | idtac ]
    end.

(** ** Future dates *)

Section Dates.
Context `{Pandas} `{!PandasContract}.

Lemma length_date_range_from (start : Timestamp) (n : nat) (freq : Freq) :
  length (date_range_from start n freq) = n.
Proof. revert start. induction n as [|n IH]; intros start; simpl; [done|]. by rewrite IH. Qed.

Lemma date_range_from_ge (start : Timestamp) (n : nat) (freq : Freq) (t : Timestamp) :
  t ∈ date_range_from start n freq -> start <= t.
Proof.
  revert start. induction n as [|n IH]; intros start; simpl.
  - by intros ?%elem_of_nil.
  - intros [->|Hin]%elem_of_cons; [lia|].
    apply IH in Hin. pose proof (offset_add_gt freq start). lia.
Qed.

Lemma date_range_from_first (start : Timestamp) (n : nat) (freq : Freq) :
  (0 < n)%nat -> date_range_from start n freq !! 0%nat = Some start.
Proof. destruct n; [lia | done]. Qed.

Lemma date_range_from_step (start : Timestamp) (n : nat) (freq : Freq)
  (i : nat) (t t' : Timestamp) :
  date_range_from start n freq !! i = Some t ->
  date_range_from start n freq !! S i = Some t' ->
  t' = offset_add freq t.
Proof.
  revert start i. induction n as [|n IH]; intros start i; simpl; [done|].
  destruct i as [|i]; simpl.
  - intros [= <-]. destruct n; simpl; [done|]. by intros [= <-].
  - apply IH.
Qed.

Lemma date_range_after (last_date : Timestamp) (n : Z) (freq : Freq)
  (t : Timestamp) :
  t ∈ date_range (offset_add freq last_date) n freq -> last_date < t.
Proof.
  intros Hin%date_range_from_ge. pose proof (offset_add_gt freq last_date). lia.
Qed.

Lemma filter_all (bound : Z) (l : list Z) :
  Forall (fun d => bound < d) l -> filter (fun d => bound < d) l = l.
Proof.
  induction 1 as [|d l Hd _ IH]; [done|].
  rewrite filter_cons_True by done. by rewrite IH.
Qed.

Lemma filter_after_date_range (last_date : Timestamp) (n : nat) (freq : Freq) :
  filter (fun d => last_date < d) (date_range_from last_date (S n) freq)
  = date_range_from (offset_add freq last_date) n freq.
Proof.
  simpl. rewrite filter_cons_False by lia.
  apply filter_all. apply Forall_forall. intros t Hin.
  apply date_range_from_ge in Hin. pose proof (offset_add_gt freq last_date). lia.
Qed.

End Dates.

(** ** Data frames *)

Lemma mk_DataFrame_Ok (vals : list float) (idx : list Timestamp) :
  length vals = length idx ->
  mk_DataFrame vals idx = Ok (zip idx vals) /\
  index (zip idx vals) = idx /\ len (zip idx vals) = len idx.
Proof.
  intros Hlen. unfold mk_DataFrame, index, len.
  destruct (decide _); [|done]. split; [done|]. split.
  - apply fst_zip. lia.
  - rewrite length_zip. lia.
Qed.

Lemma last_item_Ok {A} (l : list A) (a : A) : last_item l = Ok a -> last l = Some a.
Proof. unfold last_item. destruct (last l); by intros [= ->]. Qed.

Lemma foldr_max_base (d : Z) (l : list Z) : d <= foldr Z.max d l.
Proof. induction l; simpl; lia. Qed.

Lemma foldr_max_mono (d e : Z) (l : list Z) :
  d <= e -> foldr Z.max d l <= foldr Z.max e l.
Proof. intros Hde. induction l; simpl; lia. Qed.

Lemma foldr_max_rebase (d e : Z) (l : list Z) :
  foldr Z.max e l <= Z.max e (foldr Z.max d l).
Proof. induction l; simpl; lia. Qed.

Lemma max_date_increasing (dates : list Timestamp) (last_date : Timestamp) :
  StronglySorted Z.lt dates -> last dates = Some last_date ->
  max_date dates = Some last_date.
Proof.
  destruct dates as [|d rest]; [done|]. simpl. intros Hs Hlast. f_equal.
  revert d Hs Hlast. induction rest as [|e rest IH]; intros d Hs Hlast.
  - simpl in *. congruence.
  - apply StronglySorted_inv in Hs as [Hs Hd].
    rewrite last_cons_cons in Hlast.
    pose proof (IH e Hs Hlast) as Hmax.
    apply Forall_cons in Hd as [Hde _]. simpl.
    pose proof (foldr_max_base e rest).
    pose proof (foldr_max_mono d e rest).
    pose proof (foldr_max_rebase d e rest). lia.
Qed.

(** ** The three model variants *)

Section Variants.
Context `{Pandas} `{Statsmodels} `{ProphetLib} `{Sklearn} `{!Darts}.
Context `{!PandasContract} `{!StatsmodelsContract} `{!ProphetContract}
        `{!SklearnContract} `{!DartsContract}.

Lemma arima_fit_state (data : DataFrame) (s0 s : ARIMA.ARIMAForecaster) :
  ARIMA.fit data s0 = (Ok tt, s) ->
  exists fitted last_date freq,
    last (index data) = Some last_date /\
    infer_freq_or_D data = Ok freq /\
    ARIMA.model s = Some fitted /\
    ARIMA._last_date s = Some last_date /\
    ARIMA._freq s = Some freq.
Proof.
  unfold ARIMA.fit. intros Hfit. run_ok Hfit.
  apply modify_Ok in Hfit as ->.
  apply last_item_Ok in Hstep.
  eexists _, _, _. repeat split; [exact Hstep | exact Hstep1 | ..]; done.
Qed.

Lemma arima_predict_fitted (s : ARIMA.ARIMAForecaster) (fitted : ARIMAResults)
  (last_date : Timestamp) (freq : Freq) (h : Z) :
  ARIMA.model s = Some fitted ->
  ARIMA._last_date s = Some last_date ->
  ARIMA._freq s = Some freq ->
  1 <= h ->
  exists forecast,
    ARIMA.predict h s = (Ok forecast, s) /\
    index forecast = date_range (offset_add freq last_date) h freq /\
    len forecast = h.
Proof.
  intros Hmodel Hlast Hfreq Hh.
  destruct (ARIMA_forecast_steps fitted h Hh) as (vals & Hvals & Hlen).
  destruct (mk_DataFrame_Ok vals (date_range (offset_add freq last_date) h freq))
    as (Hmk & Hidx & Hl).
  { unfold date_range. rewrite length_date_range_from. unfold len in Hlen. lia. }
  eexists. split; [|split; [exact Hidx|]].
  - unfold ARIMA.predict, bind, get, lift, raise.
    destruct (Z.ltb_spec h 1); [lia|].
    rewrite Hmodel, Hvals, Hfreq, Hlast, Hmk. done.
  - etrans; [exact Hl|]. unfold len, date_range.
    rewrite length_date_range_from. lia.
Qed.

Lemma prophet_fit_state (data : DataFrame) (s0 s : ProphetModel.ProphetForecaster) :
  increasing data ->
  ProphetModel.fit data s0 = (Ok tt, s) ->
  exists m last_date freq,
    last (index data) = Some last_date /\
    infer_freq_or_D data = Ok freq /\
    ProphetModel.model s = Some m /\
    history_dates m = Some (index data) /\
    ProphetModel._freq s = Some freq.
Proof.
  unfold ProphetModel.fit. intros Hinc Hfit. run_ok Hfit.
  apply last_item_Ok in Hstep.
  unfold ProphetModel.fit_held_model in Hfit. simpl in Hfit.
  destruct (Prophet_fit _ _) as [r m'] eqn:Hlib.
  injection Hfit as -> <-.
  unfold index, values in Hlib. rewrite zip_fst_snd in Hlib.
  eexists _, _, _. repeat split; [exact Hstep | exact Hstep1 | ..]; try done.
  simpl. eapply Prophet_fit_history; [exact Hinc | exact Hlib].
Qed.

Lemma tail_app_length {A} (n : Z) (l k : list A) :
  len k = n -> tail n (l ++ k) = k.
Proof.
  intros Hlen. unfold tail, len in *. rewrite length_app.
  replace (length l + length k - Z.to_nat n)%nat with (length l) by lia.
  apply drop_app_length.
Qed.

Lemma prophet_predict_fitted (s : ProphetModel.ProphetForecaster) (m : Prophet)
  (history : list Timestamp) (last_date : Timestamp) (freq : Freq) (h : Z) :
  ProphetModel.model s = Some m ->
  history_dates m = Some history ->
  StronglySorted Z.lt history ->
  last history = Some last_date ->
  ProphetModel._freq s = Some freq ->
  1 <= h ->
  exists forecast,
    ProphetModel.predict h s = (Ok forecast, s) /\
    index forecast = date_range (offset_add freq last_date) h freq /\
    len forecast = h.
Proof.
  intros Hmodel Hhist Hsorted Hlast Hfreq Hh.
  set (dates := date_range (offset_add freq last_date) h freq).
  assert (length dates = Z.to_nat h) as Hdates.
  { unfold dates, date_range. apply length_date_range_from. }
  assert (make_future_dataframe m h freq = Ok (history ++ dates)) as Hfuture.
  { unfold make_future_dataframe. rewrite Hhist.
    rewrite (max_date_increasing _ _ Hsorted Hlast).
    unfold date_range. replace (Z.to_nat (h + 1)) with (S (Z.to_nat h)) by lia.
    rewrite filter_after_date_range. fold (date_range (offset_add freq last_date) h freq).
    fold dates. rewrite slice_to_nonneg by lia.
    rewrite take_ge by lia. done. }
  destruct (Prophet_predict_rows m history (history ++ dates) Hhist)
    as (rows & Hrows & Hidx).
  assert (exists rows_h rows_f, rows = rows_h ++ rows_f /\ index rows_f = dates)
    as (rows_h & rows_f & -> & Hf).
  { exists (take (length history) rows), (drop (length history) rows).
    split; [by rewrite take_drop|].
    unfold index in *. rewrite fmap_drop, Hidx. apply drop_app_length. }
  assert (len rows_f = h) as Hlen.
  { pose proof (f_equal length Hf) as Hl. unfold index in Hl.
    rewrite length_fmap in Hl. unfold len. lia. }
  exists rows_f. split; [|split; [exact Hf | exact Hlen]].
  unfold ProphetModel.predict, bind, get, lift, raise.
  destruct (Z.ltb_spec h 1); [lia|].
  rewrite Hmodel, Hfreq, Hfuture, Hrows. rewrite (tail_app_length h) by done.
  unfold mk_DataFrame, values, index. rewrite !length_fmap.
  destruct (decide _); [|done]. by rewrite zip_fst_snd.
Qed.

Lemma nbeats_scale_Ok (data processed : DataFrame)
  (s s' : NBEATS.NBEATSForecaster) :
  NBEATS.scale data s = (Ok processed, s') ->
  index processed = index data /\
  NBEATS.model s' = NBEATS.model s /\
  (NBEATS.scaler s' = None \/
   exists sc sc' scaled,
     fit_transform (values data) sc = (Ok scaled, sc') /\
     NBEATS.scaler s' = Some sc').
Proof.
  unfold NBEATS.scale. destruct (NBEATS.scaler s) as [sc|] eqn:Hsc.
  - destruct (fit_transform (values data) sc) as [[scaled|e] sc'] eqn:Hft;
      [|discriminate].
    unfold mk_DataFrame. destruct (decide _) as [Hlen|]; [|discriminate].
    intros [= <- <-]. split; [|split; [done|]].
    + unfold index. apply fst_zip. unfold index. rewrite length_fmap.
      unfold values in Hft. apply fit_transform_length in Hft.
      rewrite length_fmap in Hft. lia.
    + right. eauto.
  - intros [= <- <-]. split; [done|]. split; [done|]. by left.
Qed.

Lemma nbeats_fit_state (data : DataFrame) (s0 s : NBEATS.NBEATSForecaster) :
  NBEATS.fit data s0 = (Ok tt, s) ->
  exists m m_new last_date freq processed series,
    last (index data) = Some last_date /\
    infer_freq_or_D data = Ok freq /\
    index processed = index data /\
    from_dataframe processed freq = Ok series /\
    NBEATS_fit series m_new = (Ok tt, m) /\
    NBEATS.model s = Some m /\
    (NBEATS.scaler s = None \/
     exists sc sc' scaled,
       fit_transform (values data) sc = (Ok scaled, sc') /\
       NBEATS.scaler s = Some sc').
Proof.
  unfold NBEATS.fit. intros Hfit. run_ok Hfit.
  apply last_item_Ok in Hstep.
  match goal with
  | Hscale : NBEATS.scale _ _ = _ |- _ =>
      apply nbeats_scale_Ok in Hscale as (Hidx & _ & Hscaler)
  end.
  unfold NBEATS.fit_held_model in Hfit. simpl in Hfit.
  destruct (NBEATS_fit _ _) as [r m'] eqn:Hlib.
  injection Hfit as -> <-.
  eexists _, _, _, _, _, _.
  split_and!; first [eassumption | done | simpl; exact Hscaler].
Qed.

Lemma nbeats_predict_fitted (s : NBEATS.NBEATSForecaster) (m : NBEATSModel)
  (forecast_ts : TimeSeries) (h : Z) :
  NBEATS.model s = Some m ->
  NBEATS_predict m h = Ok forecast_ts ->
  len (ts_values forecast_ts) = len (time_index forecast_ts) ->
  (NBEATS.scaler s = None \/
   exists vals sc sc' scaled,
     fit_transform vals sc = (Ok scaled, sc') /\ NBEATS.scaler s = Some sc') ->
  1 <= h ->
  exists forecast,
    NBEATS.predict h s = (Ok forecast, s) /\
    index forecast = time_index forecast_ts.
Proof.
  intros Hmodel Hpred Hlen Hscaler Hh.
  unfold NBEATS.predict, bind, get, lift, raise, ret.
  destruct (Z.ltb_spec h 1); [lia|]. rewrite Hmodel, Hpred.
  destruct Hscaler as [Hnone|(vals & sc & sc' & scaled & Hft & Hsome)].
  - rewrite Hnone.
    destruct (mk_DataFrame_Ok (ts_values forecast_ts) (time_index forecast_ts))
      as (Hmk & Hidx & _); [unfold len in Hlen; lia|].
    rewrite Hmk. eauto.
  - rewrite Hsome.
    destruct (inverse_transform_length _ _ _ _ Hft (ts_values forecast_ts))
      as (l' & Hinv & Hl').
    rewrite Hinv.
    destruct (mk_DataFrame_Ok l' (time_index forecast_ts))
      as (Hmk & Hidx & _); [unfold len in Hlen; lia|].
    rewrite Hmk. eauto.
Qed.

Lemma forecast_dates (forecast : DataFrame) (last_date : Timestamp)
  (freq : Freq) (h : Z) :
  1 <= h ->
  index forecast = date_range (offset_add freq last_date) h freq ->
  len forecast = h /\
  (forall t, t ∈ index forecast -> last_date < t) /\
  index forecast !! 0%nat = Some (offset_add freq last_date) /\
  (forall (i : nat) t t',
     index forecast !! i = Some t -> index forecast !! S i = Some t' ->
     t' = offset_add freq t).
Proof.
  intros Hh Hidx. split_and!.
  - pose proof (f_equal length Hidx) as Hlen. unfold index, date_range in Hlen.
    rewrite length_fmap, length_date_range_from in Hlen. unfold len. lia.
  - intros t. rewrite Hidx. apply date_range_after.
  - rewrite Hidx. apply date_range_from_first. lia.
  - intros i t t'. rewrite Hidx. apply date_range_from_step.
Qed.

Lemma model_predict_fitted (m0 m : model) (data : DataFrame) (h : Z) :
  increasing data ->
  fit data m0 = (Ok tt, m) ->
  1 <= h ->
  exists forecast last_date freq,
    predict h m = (Ok forecast, m) /\
    last (index data) = Some last_date /\
    infer_freq_or_D data = Ok freq /\
    index forecast = date_range (offset_add freq last_date) h freq.
Proof.
  intros Hinc Hfit Hh. simpl in Hfit. unfold model_fit in Hfit.
  destruct m0 as [s0|s0|s0].
  - unfold on_arima in Hfit.
    destruct (ARIMA.fit data s0) as [r s] eqn:Hs. injection Hfit as -> <-.
    destruct (arima_fit_state _ _ _ Hs)
      as (fitted & last_date & freq & Hlast & Hfreq & Hm & Hl & Hf).
    destruct (arima_predict_fitted s fitted last_date freq h Hm Hl Hf Hh)
      as (forecast & Hpred & Hidx & _).
    exists forecast, last_date, freq. split_and!; try done.
    simpl. unfold on_arima. by rewrite Hpred.
  - unfold on_prophet in Hfit.
    destruct (ProphetModel.fit data s0) as [r s] eqn:Hs.
    injection Hfit as -> <-.
    destruct (prophet_fit_state _ _ _ Hinc Hs)
      as (pm & last_date & freq & Hlast & Hfreq & Hm & Hhist & Hf).
    destruct (prophet_predict_fitted s pm (index data) last_date freq h
                Hm Hhist Hinc Hlast Hf Hh)
      as (forecast & Hpred & Hidx & _).
    exists forecast, last_date, freq. split_and!; try done.
    simpl. unfold on_prophet. by rewrite Hpred.
  - unfold on_nbeats in Hfit.
    destruct (NBEATS.fit data s0) as [r s] eqn:Hs. injection Hfit as -> <-.
    destruct (nbeats_fit_state _ _ _ Hs)
      as (nm & m_new & last_date & freq & processed & series
          & Hlast & Hfreq & Hidx & Hseries & Hlib & Hm & Hscaler).
    destruct (NBEATS_predict_index processed freq series m_new nm last_date h)
      as (forecast_ts & Hpred & Htime & Hvals); try done.
    { unfold increasing. by rewrite Hidx. }
    { by rewrite Hidx. }
    destruct (nbeats_predict_fitted s nm forecast_ts h Hm Hpred)
      as (forecast & Hrun & Hfidx); try done.
    { rewrite Hvals, Htime. unfold len, date_range.
      rewrite length_date_range_from. lia. }
    { destruct Hscaler as [?|(sc & sc' & scaled & ? & ?)]; [by left|].
      right. eauto 10. }
    exists forecast, last_date, freq. split_and!; try done.
    + simpl. unfold on_nbeats. by rewrite Hrun.
    + by rewrite Hfidx.
Qed.


End Variants.

(** ** Errors of [predict] *)

Lemma classify_not_fitted :
  Taxonomy.classify Taxonomy.not_fitted_error = Some Taxonomy.NotFittedError.
Proof. reflexivity. Qed.

Lemma classify_horizon (h : Z) :
  Taxonomy.classify (Taxonomy.horizon_error h)
  = Some Taxonomy.InvalidConfiguration.
Proof.
  unfold Taxonomy.classify, Taxonomy.horizon_error. simpl.
  by destruct ("" +:+ pretty h).
Qed.

Section PredictErrors.
Context `{Pandas} `{Statsmodels} `{ProphetLib} `{Sklearn} `{!Darts}.

Lemma predict_bad_horizon (m : model) (h : Z) :
  h < 1 -> predict h m = (Raise (Taxonomy.horizon_error h), m).
Proof.
  intros Hh. simpl. unfold model_predict.
  destruct m as [s|s|s]; simpl;
    [unfold on_arima, ARIMA.predict
    |unfold on_prophet, ProphetModel.predict
    |unfold on_nbeats, NBEATS.predict];
    unfold bind, get, raise; destruct (Z.ltb_spec h 1); (done || lia).
Qed.

(** The model field of a model: [None] until a fit assigns it *)
Lemma constructed_unfitted (cls : model_class)
  (hyperparams : gmap string hyperval) (m : model) :
  construct cls hyperparams = Ok m ->
  match m with
  | MArima s => ARIMA.model s = None
  | MProphet s => ProphetModel.model s = None
  | MNbeats s => NBEATS.model s = None
  end.
Proof.
  unfold construct. destruct cls.
  - destruct (check_kwargs _ _); simpl; [|discriminate]. by intros [= <-].
  - destruct (check_kwargs _ _); simpl; [|discriminate]. by intros [= <-].
  - destruct (check_kwargs _ _); simpl; [|discriminate].
    unfold NBEATS.init. destruct (NBEATS.map_scaler_type _); simpl;
      [|discriminate]. by intros [= <-].
Qed.

Lemma predict_unfitted (m : model) (h : Z) :
  match m with
  | MArima s => ARIMA.model s = None
  | MProphet s => ProphetModel.model s = None
  | MNbeats s => NBEATS.model s = None
  end ->
  1 <= h -> predict h m = (Raise Taxonomy.not_fitted_error, m).
Proof.
  intros Hnone Hh. simpl. unfold model_predict.
  destruct m as [s|s|s]; simpl;
    [unfold on_arima, ARIMA.predict
    |unfold on_prophet, ProphetModel.predict
    |unfold on_nbeats, NBEATS.predict];
    unfold bind, get, raise; destruct (Z.ltb_spec h 1); try lia;
    by rewrite Hnone.
Qed.

(** C6, amended: for every variant and whatever the hyperparameters, a
    model that was constructed and never fitted fails on [predict(h)] with
    the not-fitted error for every [h >= 1]; for every [h < 1], and in
    particular 0 and -1, [predict(h)] fails with the configuration error
    on the horizon, on a model in any state, fitted or not, because the
    horizon is checked first. *)
Theorem C6_predict_errors (cls : model_class)
  (hyperparams : gmap string hyperval) (m : model) :
  construct cls hyperparams = Ok m ->
  (forall h, 1 <= h ->
     predict h m = (Raise Taxonomy.not_fitted_error, m)) /\
  (forall (m' : model) h, h < 1 ->
     predict h m' = (Raise (Taxonomy.horizon_error h), m')) /\
  Taxonomy.classify Taxonomy.not_fitted_error = Some Taxonomy.NotFittedError /\
  (forall h, Taxonomy.classify (Taxonomy.horizon_error h)
             = Some Taxonomy.InvalidConfiguration).
Proof.
  intros Hm. split_and!.
  - intros h Hh. apply predict_unfitted; [|done].
    by apply (constructed_unfitted cls hyperparams).
  - intros m' h Hh. by apply predict_bad_horizon.
  - apply classify_not_fitted.
  - apply classify_horizon.
Qed.

End PredictErrors.

(** ** The training cache *)







Section CacheProperties.
Context `{Pandas} `{Statsmodels} `{ProphetLib} `{Sklearn} `{!Darts}
        `{SklearnMetrics}.



End CacheProperties.

(** ** The comparison tab *)



Lemma registry_assoc_trained (s : AppState.SessionState) (name : string)
  (cls : model_class) :
  (name, cls) ∈ AVAILABLE_MODELS ->
  assoc name (AppState.get_all_trained_models s)
  = Some (AppState.r_trained (AppState.get_model_results name s)).
Proof.
  unfold AVAILABLE_MODELS.
  rewrite !elem_of_cons, elem_of_nil.
  intros [[= -> _]|[[= -> _]|[[= -> _]|[]]]]; reflexivity.
Qed.




Section Warning.
Context `{SklearnMetrics}.



End Warning.

(** ** A refit overwrites the earlier fit *)

Section Refit.
Context `{Pandas} `{Statsmodels} `{ProphetLib}.

(** What a successful ARIMA fit leaves in the model depends on the order
    and the data only, not on an earlier fit. *)
Lemma arima_refit_discards (data : DataFrame)
  (s s' fitted_s : ARIMA.ARIMAForecaster) :
  ARIMA.order s = ARIMA.order s' ->
  ARIMA.fit data s = (Ok tt, fitted_s) ->
  ARIMA.fit data s' = (Ok tt, fitted_s).
Proof.
  unfold ARIMA.fit, bind, lift, modify, get. intros Horder.
  destruct (last_item (index data)) as [last_date|]; [|discriminate].
  destruct (infer_freq_or_D data) as [freq|]; [|discriminate].
  simpl. rewrite <- Horder.
  destruct (ARIMA_fit (values data) (ARIMA.order s)) as [fitted|];
    [|discriminate].
  intros [= <-]. unfold ARIMA.set_model, ARIMA.set_freq, ARIMA.set_last_date.
  simpl. by rewrite Horder.
Qed.

Lemma arima_fit_order (data : DataFrame) (s s1 : ARIMA.ARIMAForecaster)
  (r : result unit) :
  ARIMA.fit data s = (r, s1) -> ARIMA.order s1 = ARIMA.order s.
Proof.
  unfold ARIMA.fit, bind, lift, modify, get.
  destruct (last_item (index data)) as [last_date|]; [|by intros [= _ <-]].
  destruct (infer_freq_or_D data) as [freq|]; [|by intros [= _ <-]].
  simpl.
  destruct (ARIMA_fit (values data) (ARIMA.order s)); by intros [= _ <-].
Qed.

Lemma arima_predict_state (h : Z) (s s1 : ARIMA.ARIMAForecaster)
  (r : result DataFrame) :
  ARIMA.predict h s = (r, s1) -> s1 = s.
Proof.
  unfold ARIMA.predict, bind, lift, raise, get.
  destruct (h <? 1); [by intros [= _ <-]|].
  destruct (ARIMA.model s); [|by intros [= _ <-]].
  destruct (ARIMA_forecast _ _); [|by intros [= _ <-]].
  destruct (ARIMA._freq s), (ARIMA._last_date s); by intros [= _ <-].
Qed.

(** The forecast [evaluate] delivers for an ARIMA model is the one of a
    model fitted on the full series alone. *)
Lemma arima_forecast_from_full_fit (train data : DataFrame) (n horizon : Z)
  (s0 s1 s1' s2 : ARIMA.ARIMAForecaster) (rf : result unit)
  (rp : result DataFrame) :
  ARIMA.fit train s0 = (rf, s1) ->
  ARIMA.predict n s1 = (rp, s1') ->
  ARIMA.fit data s1' = (Ok tt, s2) ->
  ARIMA.fit data s0 = (Ok tt, s2).
Proof.
  intros Hfit1 Hpred Hfit2.
  apply arima_predict_state in Hpred as ->.
  apply arima_fit_order in Hfit1.
  by apply (arima_refit_discards data s1 s0 s2).
Qed.

End Refit.

(** ** The splitter on long and on short series *)

(** X1: on a series of at least 100 rows the clamp of the split index
    never acts: for every percentage in (0,100) the training part has
    exactly floor(n * train_pct / 100) rows, so its share of the series
    is below the requested percentage by less than one row. *)
Theorem X1_split_exact_from_100_rows (train_pct : Z) (data : DataFrame) :
  100 <= len data ->
  0 < train_pct < 100 ->
  exists train test,
    HoldoutPct.construct_and_split train_pct data = Ok (train, test) /\
    len train = len data * train_pct / 100 /\
    100 * len train <= len data * train_pct < 100 * (len train + 1).
Proof.
  intros Hn Hpct.
  unfold HoldoutPct.construct_and_split. rewrite init_inside by done. simpl.
  rewrite split_take_drop. eexists _, _. split; [reflexivity|].
  set (n := len data) in *.
  assert (HoldoutPct.split_idx {| HoldoutPct.train_pct := train_pct |} n
          = n * train_pct / 100) as Hidx.
  { unfold HoldoutPct.split_idx, int_truediv. cbn [HoldoutPct.train_pct].
    rewrite Z.quot_div_nonneg by nia.
    pose proof (Z.mul_div_le (n * train_pct) 100).
    pose proof (Z.mul_succ_div_gt (n * train_pct) 100).
    assert (1 <= n * train_pct / 100) by (apply Z.div_le_lower_bound; nia).
    assert (n * train_pct / 100 <= n - 1)
      by (apply Z.lt_succ_r, Z.div_lt_upper_bound; nia).
    lia. }
  rewrite Hidx.
  pose proof (Z.mul_div_le (n * train_pct) 100).
  pose proof (Z.mul_succ_div_gt (n * train_pct) 100).
  assert (0 <= n * train_pct / 100 <= n)
    by (split; [apply Z.div_pos; nia | apply Z.div_le_upper_bound; nia]).
  assert (len (take (Z.to_nat (n * train_pct / 100)) data)
          = n * train_pct / 100) as ->.
  { unfold len. rewrite length_take. unfold n, len in *. lia. }
  lia.
Qed.

Lemma X1_split_exact_from_100_rows_witness :
  exists train test,
    HoldoutPct.construct_and_split 77 (StandIn.linear 100) = Ok (train, test) /\
    len train = len (StandIn.linear 100) * 77 / 100 /\
    100 * len train <= len (StandIn.linear 100) * 77
    < 100 * (len train + 1).
Proof.
  apply (X1_split_exact_from_100_rows 77 (StandIn.linear 100)).
  - vm_compute. discriminate.
  - lia.
Defined.

(** X2: a larger training percentage never gives a shorter training
    part: the split index grows with the percentage, on every series. *)
Theorem X2_split_monotone_in_pct (pct1 pct2 : Z) (data : DataFrame) :
  0 < pct1 -> pct1 <= pct2 -> pct2 < 100 ->
  exists train1 test1 train2 test2,
    HoldoutPct.construct_and_split pct1 data = Ok (train1, test1) /\
    HoldoutPct.construct_and_split pct2 data = Ok (train2, test2) /\
    len train1 <= len train2 /\
    len test2 <= len test1.
Proof.
  intros H1 H12 H2.
  unfold HoldoutPct.construct_and_split. rewrite !init_inside by lia. simpl.
  rewrite !split_take_drop. eexists _, _, _, _.
  split; [reflexivity|]. split; [reflexivity|].
  assert (HoldoutPct.split_idx {| HoldoutPct.train_pct := pct1 |} (len data)
          <= HoldoutPct.split_idx {| HoldoutPct.train_pct := pct2 |} (len data))
    as Hidx.
  { unfold HoldoutPct.split_idx, int_truediv. cbn [HoldoutPct.train_pct].
    assert (0 <= len data) by (unfold len; lia).
    rewrite !Z.quot_div_nonneg by nia.
    assert (len data * pct1 / 100 <= len data * pct2 / 100)
      by (apply Z.div_le_mono; nia).
    lia. }
  pose proof (split_idx_positive {| HoldoutPct.train_pct := pct1 |} (len data)).
  unfold len in *. rewrite !length_take, !length_drop. lia.
Qed.

Lemma X2_split_monotone_in_pct_witness :
  exists train1 test1 train2 test2,
    HoldoutPct.construct_and_split 70 (StandIn.linear 10) = Ok (train1, test1) /\
    HoldoutPct.construct_and_split 90 (StandIn.linear 10) = Ok (train2, test2) /\
    len train1 <= len train2 /\
    len test2 <= len test1.
Proof. apply (X2_split_monotone_in_pct 70 90 (StandIn.linear 10)); lia. Defined.

(** ** The evaluation details of the model tab *)

Lemma slice_to_negative {A} (t : Z) (l : list A) :
  1 <= t <= len l -> slice_to (- t) l = take (Z.to_nat (len l - t)) l.
Proof.
  intros Ht. unfold slice_to, slice_bound.
  destruct (Z.ltb_spec (- t) 0); [|lia]. f_equal. lia.
Qed.

Lemma slice_from_negative {A} (t : Z) (l : list A) :
  1 <= t <= len l -> slice_from (- t) l = drop (Z.to_nat (len l - t)) l.
Proof.
  intros Ht. unfold slice_from, slice_bound.
  destruct (Z.ltb_spec (- t) 0); [|lia]. f_equal. lia.
Qed.

(** X3: for a series of at least two rows, the train and test parts that
    the detail view of a model rebuilds from the number of stored test
    predictions are those of the splitter, whenever there are as many test
    predictions as test rows. *)
Theorem X3_evaluation_details_agree (train_pct : Z)
  (historical_data test_predictions train test : DataFrame) :
  2 <= len historical_data ->
  0 < train_pct < 100 ->
  HoldoutPct.construct_and_split train_pct historical_data = Ok (train, test) ->
  len test_predictions = len test ->
  evaluation_details historical_data test_predictions = (train, test).
Proof.
  intros Hn Hpct Hsplit Hlen.
  unfold HoldoutPct.construct_and_split in Hsplit.
  rewrite init_inside in Hsplit by done. simpl in Hsplit.
  rewrite split_take_drop in Hsplit.
  set (self := {| HoldoutPct.train_pct := train_pct |}) in *.
  pose proof (split_idx_positive self (len historical_data)) as Hlo.
  pose proof (split_idx_below self (len historical_data) Hn) as Hhi.
  set (k := HoldoutPct.split_idx self (len historical_data)) in *.
  injection Hsplit as <- <-.
  assert (len test_predictions = len historical_data - k) as Hsize.
  { rewrite Hlen. unfold len. rewrite length_drop. unfold len in *. lia. }
  unfold evaluation_details, iloc_to, iloc_from. rewrite Hsize.
  rewrite slice_to_negative, slice_from_negative by lia.
  replace (len historical_data - (len historical_data - k)) with k by lia.
  done.
Qed.

Lemma X3_evaluation_details_agree_witness :
  evaluation_details (StandIn.linear 10) (drop 8 (StandIn.linear 10))
  = (take 8 (StandIn.linear 10), drop 8 (StandIn.linear 10)).
Proof.
  apply (X3_evaluation_details_agree 80).
  - vm_compute. discriminate.
  - lia.
  - vm_compute. reflexivity.
  - vm_compute. reflexivity.
Defined.

(** ** The evaluation pipeline: failures and results *)

Lemma evaluate_Ok_inv {M S} `{ForecastModel M} `{TimeSeriesSplitter S}
  (data : DataFrame) (splitter : S) (horizon : Z)
  (metric_functions : gmap string metric_function)
  (metrics : Metrics) (forecast test_predictions : DataFrame) (m0 m' : M) :
  evaluate data splitter horizon metric_functions m0
  = (Ok (metrics, forecast, test_predictions), m') ->
  exists train test m1 m1' m2,
    split splitter data = Ok (train, test) /\
    fit train m0 = (Ok tt, m1) /\
    predict (len test) m1 = (Ok test_predictions, m1') /\
    calculate_metrics (values test) (values test_predictions) metric_functions
    = Ok metrics /\
    fit data m1' = (Ok tt, m2) /\
    predict horizon m2 = (Ok forecast, m').
Proof.
  unfold evaluate. intros Hrun.
  apply bind_Ok in Hrun as ([train test] & s0 & Hsplit & Hrun).
  apply lift_Ok in Hsplit as [Hsplit ->].
  apply bind_Ok in Hrun as ([] & m1 & Hfit1 & Hrun).
  apply bind_Ok in Hrun as (tp & m1' & Hpred1 & Hrun).
  apply bind_Ok in Hrun as (ms & s1 & Hmetrics & Hrun).
  apply lift_Ok in Hmetrics as [Hmetrics ->].
  apply bind_Ok in Hrun as ([] & m2 & Hfit2 & Hrun).
  apply bind_Ok in Hrun as (fc & m2' & Hpred2 & Hrun).
  injection Hrun as <- <- <- <-.
  exists train, test, m1, m1', m2. done.
Qed.

(** X4: [evaluate] gives no partial result: when it returns, the split,
    the fit on train, the prediction of the test part, the refit on the
    full series and the forecast have all succeeded, and the three parts of
    the result are the metrics of the test values against the test
    predictions, the forecast of the refitted model and the test
    predictions of the model fitted on train. *)
Theorem X4_evaluate_result_inversion {M S}
  `{ForecastModel M} `{TimeSeriesSplitter S}
  (data : DataFrame) (splitter : S) (horizon : Z)
  (metric_functions : gmap string metric_function)
  (metrics : Metrics) (forecast test_predictions : DataFrame) (m0 m' : M) :
  evaluate data splitter horizon metric_functions m0
  = (Ok (metrics, forecast, test_predictions), m') ->
  exists train test m1 m1' m2,
    split splitter data = Ok (train, test) /\
    fit train m0 = (Ok tt, m1) /\
    predict (len test) m1 = (Ok test_predictions, m1') /\
    calculate_metrics (values test) (values test_predictions) metric_functions
    = Ok metrics /\
    fit data m1' = (Ok tt, m2) /\
    predict horizon m2 = (Ok forecast, m').
Proof. apply evaluate_Ok_inv. Qed.

Lemma X4_evaluate_result_inversion_witness :
  let data := StandIn.linear 10 in
  let splitter := {| HoldoutPct.train_pct := 80 |} in
  let m0 : @model StandIn.pandas StandIn.statsmodels StandIn.prophet
                  StandIn.sklearn StandIn.darts :=
    MArima (ARIMA.init (HInt 1) (HInt 1) (HInt 1)) in
  let run := evaluate data splitter 3 ∅ m0 in
  let res := value_or (∅, [], []) run.1 in
  exists train test m1 m1' m2,
    split splitter data = Ok (train, test) /\
    fit train m0 = (Ok tt, m1) /\
    predict (len test) m1 = (Ok res.2, m1') /\
    calculate_metrics (values test) (values res.2) ∅ = Ok res.1.1 /\
    fit data m1' = (Ok tt, m2) /\
    predict 3 m2 = (Ok res.1.2, run.2).
Proof.
  intros data splitter m0 run res.
  apply (X4_evaluate_result_inversion data splitter 3 ∅
           res.1.1 res.1.2 res.2 m0 run.2).
  vm_compute. reflexivity.
Defined.

Section Pipeline.
Context `{Pandas} `{Statsmodels} `{ProphetLib} `{Sklearn} `{!Darts}.

(** X5: a horizon below 1 is found out only at the last step: when the
    split, the fit on train, the test prediction and the refit on the full
    series succeed, [evaluate] has trained the model twice before it fails
    with the horizon error, for every model variant. *)
Theorem X5_bad_horizon_after_both_fits {S} `{TimeSeriesSplitter S}
  (data train test test_predictions : DataFrame) (splitter : S)
  (horizon : Z) (metric_functions : gmap string metric_function)
  (m0 m1 m1' m2 : model) :
  horizon < 1 ->
  split splitter data = Ok (train, test) ->
  fit train m0 = (Ok tt, m1) ->
  predict (len test) m1 = (Ok test_predictions, m1') ->
  fit data m1' = (Ok tt, m2) ->
  evaluate data splitter horizon metric_functions (m0, [])
  = (Raise (Taxonomy.horizon_error horizon),
     (m2, [CallFit train; CallPredict (len test);
           CallFit data; CallPredict horizon])).
Proof.
  intros Hh Hsplit Hfit1 Hpred1 Hfit2.
  pose proof (predict_bad_horizon m2 horizon Hh) as Hpred2.
  unfold evaluate, bind, lift, ret. rewrite Hsplit. simpl.
  rewrite (recorded_run _ _ _ _ _ _ Hfit1).
  rewrite (recorded_run _ _ _ _ _ _ Hpred1).
  rewrite calculate_metrics_fmap.
  rewrite (recorded_run _ _ _ _ _ _ Hfit2).
  rewrite (recorded_run _ _ _ _ _ _ Hpred2). done.
Qed.

(** X6: a fit on an empty frame fails with an IndexError, at the read of
    the last timestamp, and leaves the model as it was, for every model
    variant. *)
Theorem X6_fit_empty_frame (m : model) :
  exists e, exn_cls e = IndexError /\ fit [] m = (Raise e, m).
Proof.
  eexists. split; [|destruct m as [s|s|s]; reflexivity]. reflexivity.
Qed.

Lemma model_predict_state (m m' : model) (horizon : Z)
  (r : result DataFrame) :
  predict horizon m = (r, m') -> m' = m.
Proof.
  simpl. unfold model_predict. destruct m as [s|s|s].
  - unfold on_arima, ARIMA.predict, bind, get, lift, raise.
    destruct (horizon <? 1); [by intros [= _ <-]|].
    destruct (ARIMA.model s); [|by intros [= _ <-]].
    destruct (ARIMA_forecast _ _); [|by intros [= _ <-]].
    destruct (ARIMA._freq s), (ARIMA._last_date s); by intros [= _ <-].
  - unfold on_prophet, ProphetModel.predict, bind, get, lift, raise.
    destruct (horizon <? 1); [by intros [= _ <-]|].
    destruct (ProphetModel.model s); [|by intros [= _ <-]].
    destruct (ProphetModel._freq s); [|by intros [= _ <-]].
    destruct (make_future_dataframe _ _ _); [|by intros [= _ <-]].
    destruct (Prophet_predict _ _); by intros [= _ <-].
  - unfold on_nbeats, NBEATS.predict, bind, get, lift, raise, ret.
    destruct (horizon <? 1); [by intros [= _ <-]|].
    destruct (NBEATS.model s); [|by intros [= _ <-]].
    destruct (NBEATS_predict _ _); [|by intros [= _ <-]].
    destruct (NBEATS.scaler s).
    + destruct (inverse_transform _ _); by intros [= _ <-].
    + by intros [= _ <-].
Qed.

(** X7: [predict] never changes the model, whether it returns a forecast
    or raises, for every model variant. *)
Theorem X7_predict_keeps_model (m m' : model) (horizon : Z)
  (r : result DataFrame) :
  predict horizon m = (r, m') -> m' = m.
Proof. apply model_predict_state. Qed.

Lemma evaluate_short_raises (m0 : model)
  (splitter : HoldoutPct.HoldoutPctSplitter) (data : DataFrame)
  (horizon : Z) (metric_functions : gmap string metric_function) :
  len data < 2 ->
  exists e m',
    evaluate data splitter horizon metric_functions m0 = (Raise e, m') /\
    (forall m1, fit data m0 = (Ok tt, m1) -> e = Taxonomy.horizon_error 0).
Proof.
  intros Hn. unfold evaluate, bind, lift. simpl split.
  cbv beta iota. rewrite split_take_drop.
  pose proof (split_idx_positive splitter (len data)) as Hk.
  assert (take (Z.to_nat (HoldoutPct.split_idx splitter (len data))) data = data)
    as Htrain by (apply take_ge; unfold len in *; lia).
  assert (drop (Z.to_nat (HoldoutPct.split_idx splitter (len data))) data = [])
    as Htest by (apply drop_ge; unfold len in *; lia).
  cbn [fst snd]. rewrite Htrain, Htest.
  destruct (fit data m0) as [[[]|e] m1] eqn:Hfit.
  - change (len []) with 0.
    rewrite (predict_bad_horizon m1 0) by lia.
    eexists _, _. split; [reflexivity|]. done.
  - eexists _, _. split; [reflexivity|]. intros m1' [=].
Qed.

(** X8: on a series of fewer than two rows [evaluate] with the percentage
    holdout never returns a result, for every model variant: an empty
    series fails at the fit on the empty training part, and a series of
    one row, once the fit on that row went through, fails at the
    prediction of the empty test part with the horizon error for 0. *)
Theorem X8_evaluate_short_series_fails (m0 : model)
  (splitter : HoldoutPct.HoldoutPctSplitter) (data : DataFrame)
  (horizon : Z) (metric_functions : gmap string metric_function) :
  len data < 2 ->
  exists e m',
    evaluate data splitter horizon metric_functions m0 = (Raise e, m') /\
    (forall m1, fit data m0 = (Ok tt, m1) -> e = Taxonomy.horizon_error 0).
Proof. apply evaluate_short_raises. Qed.

Lemma sorted_last_max (dates : list Timestamp) (last_date t : Timestamp) :
  StronglySorted Z.lt dates -> last dates = Some last_date ->
  t ∈ dates -> t <= last_date.
Proof.
  intros Hs Hlast Hin. apply last_Some in Hlast as [front ->].
  apply elem_of_app in Hin as [Hin|Hin%list_elem_of_singleton]; [|lia].
  assert (t < last_date); [|lia].
  apply (StronglySorted_app_1_elem_of Z.lt front [last_date]); [done..|].
  by apply list_elem_of_singleton.
Qed.

Lemma increasing_take (k : nat) (data : DataFrame) :
  increasing data -> increasing (take k data).
Proof.
  unfold increasing, index. rewrite <- (take_drop k data) at 1.
  rewrite fmap_app. apply StronglySorted_app_1_l.
Qed.

Section Results.
Context `{!PandasContract} `{!StatsmodelsContract} `{!ProphetContract}
        `{!SklearnContract} `{!DartsContract}.

(** X9: what [evaluate] returns on a series with increasing timestamps,
    for every model variant and the percentage holdout: as many test
    predictions as test rows, at least one; as many forecast points as the
    horizon, which is at least 1; a metric value or [None] under exactly
    the requested metric names; test predictions dated after every
    training row and a forecast dated after every row of the series. *)
Theorem X9_evaluation_result_shape (m0 m' : model)
  (splitter : HoldoutPct.HoldoutPctSplitter) (data : DataFrame)
  (horizon : Z) (metric_functions : gmap string metric_function)
  (metrics : Metrics) (forecast test_predictions : DataFrame) :
  increasing data ->
  evaluate data splitter horizon metric_functions m0
  = (Ok (metrics, forecast, test_predictions), m') ->
  1 <= len test_predictions /\
  len test_predictions = len (HoldoutPct.split splitter data).2 /\
  1 <= horizon /\
  len forecast = horizon /\
  dom metrics = dom metric_functions /\
  (forall t t', t ∈ index test_predictions ->
                t' ∈ index (HoldoutPct.split splitter data).1 -> t' < t) /\
  (forall t t', t ∈ index forecast -> t' ∈ index data -> t' < t).
Proof.
  intros Hinc Hrun.
  apply evaluate_Ok_inv in Hrun
    as (train & test & m1 & m1' & m2
        & Hsplit & Hfit1 & Hpred1 & Hmetrics & Hfit2 & Hpred2).
  assert (HoldoutPct.split splitter data = (train, test)) as Hpair
    by (simpl in Hsplit; congruence).
  rewrite Hpair. cbn [fst snd].
  assert (increasing train) as Hinc_train.
  { rewrite split_take_drop in Hpair. injection Hpair as <- _.
    by apply increasing_take. }
  assert (1 <= len test) as Htest.
  { destruct (Z.le_gt_cases 1 (len test)) as [|Hlt]; [done|].
    rewrite (predict_bad_horizon m1 (len test)) in Hpred1 by lia.
    discriminate. }
  assert (1 <= horizon) as Hhorizon.
  { destruct (Z.le_gt_cases 1 horizon) as [|Hlt]; [done|].
    rewrite (predict_bad_horizon m2 horizon) in Hpred2 by lia.
    discriminate. }
  destruct (model_predict_fitted m0 m1 train (len test) Hinc_train Hfit1 Htest)
    as (tp & last_train & freq_train & Htp & Hlast_train & _ & Hidx_tp).
  rewrite Hpred1 in Htp. injection Htp as <- _.
  destruct (forecast_dates _ _ _ _ Htest Hidx_tp) as (Hlen_tp & Hafter_tp & _).
  destruct (model_predict_fitted m1' m2 data horizon Hinc Hfit2 Hhorizon)
    as (fc & last_date & freq & Hfc & Hlast & _ & Hidx_fc).
  rewrite Hpred2 in Hfc. injection Hfc as <- _.
  destruct (forecast_dates _ _ _ _ Hhorizon Hidx_fc)
    as (Hlen_fc & Hafter_fc & _).
  rewrite calculate_metrics_fmap in Hmetrics. injection Hmetrics as <-.
  split_and!; try done; try lia.
  - apply dom_fmap_L.
  - intros t t' Ht Ht'. apply Hafter_tp in Ht.
    pose proof (sorted_last_max _ _ _ Hinc_train Hlast_train Ht'). lia.
  - intros t t' Ht Ht'. apply Hafter_fc in Ht.
    pose proof (sorted_last_max _ _ _ Hinc Hlast Ht'). lia.
Qed.

End Results.
End Pipeline.

(** ** Refits, constructors and schemas *)

Section Constructors.
Context `{Pandas} `{Statsmodels} `{ProphetLib} `{Sklearn} `{!Darts}.

Lemma prophet_refit_discards (data : DataFrame)
  (s s' fitted_s : ProphetModel.ProphetForecaster) :
  ProphetModel.changepoint_prior_scale s = ProphetModel.changepoint_prior_scale s' ->
  ProphetModel.seasonality_prior_scale s = ProphetModel.seasonality_prior_scale s' ->
  ProphetModel.seasonality_mode s = ProphetModel.seasonality_mode s' ->
  ProphetModel.fit data s = (Ok tt, fitted_s) ->
  ProphetModel.fit data s' = (Ok tt, fitted_s).
Proof.
  unfold ProphetModel.fit, bind, lift, modify, get. intros Hc Hs Hm.
  destruct (last_item (index data)) as [last_date|]; [|discriminate].
  destruct (infer_freq_or_D data) as [freq|]; [|discriminate].
  simpl. rewrite <- Hc, <- Hs, <- Hm.
  destruct (Prophet_new _ _ _) as [m|]; [|discriminate].
  unfold ProphetModel.fit_held_model. simpl.
  destruct (Prophet_fit _ m) as [r m']. intros [= -> <-].
  unfold ProphetModel.set_model. simpl. by rewrite Hc, Hs, Hm.
Qed.

Lemma prophet_fit_hyperparameters (data : DataFrame)
  (s s1 : ProphetModel.ProphetForecaster) (r : result unit) :
  ProphetModel.fit data s = (r, s1) ->
  ProphetModel.changepoint_prior_scale s1 = ProphetModel.changepoint_prior_scale s /\
  ProphetModel.seasonality_prior_scale s1 = ProphetModel.seasonality_prior_scale s /\
  ProphetModel.seasonality_mode s1 = ProphetModel.seasonality_mode s.
Proof.
  unfold ProphetModel.fit, bind, lift, modify, get.
  destruct (last_item (index data)) as [last_date|]; [|by intros [= _ <-]].
  destruct (infer_freq_or_D data) as [freq|]; [|by intros [= _ <-]].
  simpl.
  destruct (Prophet_new _ _ _) as [m|]; [|by intros [= _ <-]].
  unfold ProphetModel.fit_held_model. simpl.
  destruct (Prophet_fit _ m) as [r' m']. by intros [= _ <-].
Qed.

(** X10: for the ARIMA and the Prophet variant, the refit on the full
    series overwrites all an earlier fit left in the model: after a fit on
    train and a prediction, whatever their outcome, a successful fit on the
    full series leaves the model exactly as a fit on the full series of
    the untouched model would. *)
Theorem X10_refit_discards_earlier_fit (m0 m1 m1' m2 : model)
  (train data : DataFrame) (n : Z) (r1 : result unit) (r2 : result DataFrame) :
  (forall s, m0 <> MNbeats s) ->
  fit train m0 = (r1, m1) ->
  predict n m1 = (r2, m1') ->
  fit data m1' = (Ok tt, m2) ->
  fit data m0 = (Ok tt, m2).
Proof.
  intros Hvariant Hfit1 Hpred Hfit2. simpl in *. unfold model_fit, model_predict in *.
  destruct m0 as [s0|s0|s0]; [| |by destruct (Hvariant s0)].
  - unfold on_arima in *.
    destruct (ARIMA.fit train s0) as [r s1] eqn:Hs1. injection Hfit1 as -> <-.
    destruct (ARIMA.predict n s1) as [r s1'] eqn:Hs1'. injection Hpred as -> <-.
    destruct (ARIMA.fit data s1') as [r s2] eqn:Hs2. injection Hfit2 as -> <-.
    by rewrite (arima_forecast_from_full_fit train data n 0 s0 s1 s1' s2
                  r1 r2 Hs1 Hs1' Hs2).
  - unfold on_prophet in *.
    destruct (ProphetModel.fit train s0) as [r s1] eqn:Hs1.
    injection Hfit1 as -> <-.
    destruct (ProphetModel.predict n s1) as [r s1'] eqn:Hs1'.
    injection Hpred as -> <-.
    destruct (ProphetModel.fit data s1') as [r s2] eqn:Hs2.
    injection Hfit2 as -> <-.
    assert (s1' = s1) as ->.
    { assert (predict n (MProphet s1) = (r2, MProphet s1')) as Hp
        by (simpl; unfold model_predict, on_prophet; by rewrite Hs1').
      apply model_predict_state in Hp. by injection Hp. }
    apply prophet_fit_hyperparameters in Hs1 as (Hc & Hs & Hm).
    by rewrite (prophet_refit_discards data s1 s0 s2).
Qed.

End Constructors.

Lemma lower_ascii_idempotent (c : ascii) :
  lower_ascii (lower_ascii c) = lower_ascii c.
Proof. destruct c as [[] [] [] [] [] [] [] []]; reflexivity. Qed.

Lemma lower_idempotent (s : string) : lower (lower s) = lower s.
Proof.
  induction s as [|c s IH]; [done|]. simpl.
  by rewrite lower_ascii_idempotent, IH.
Qed.

Section Scaler.
Context `{Pandas} `{Sklearn} `{!Darts}.

Lemma scaler_mapping_fixed (key name : string) :
  assoc key NBEATS.scaler_mapping = Some name ->
  assoc name NBEATS.scaler_mapping = Some name.
Proof.
  unfold NBEATS.scaler_mapping. simpl.
  repeat (destruct (decide (_ = key)) as [<-|_];
          [intros [= <-]; reflexivity|]).
  discriminate.
Qed.

Lemma scaler_mapping_lower (s name : string) :
  assoc (lower s) NBEATS.scaler_mapping = Some name -> name = lower s.
Proof.
  assert (forall key, key = lower s -> lower key = key) as Hfix.
  { intros key ->. apply lower_idempotent. }
  unfold NBEATS.scaler_mapping. cbn [assoc].
  destruct (decide (_ = lower s)) as [Heq|_];
    [apply Hfix in Heq; vm_compute in Heq; discriminate Heq|].
  destruct (decide (_ = lower s)) as [Heq|_];
    [apply Hfix in Heq; vm_compute in Heq; discriminate Heq|].
  destruct (decide (_ = lower s)) as [Heq|_];
    [apply Hfix in Heq; vm_compute in Heq; discriminate Heq|].
  destruct (decide (_ = lower s)) as [Heq|_]; [by intros [= <-]|].
  destruct (decide (_ = lower s)) as [Heq|_]; [by intros [= <-]|].
  destruct (decide (_ = lower s)) as [Heq|_]; [by intros [= <-]|].
  discriminate.
Qed.

(** X11: for every scaler type that is an ASCII string, the constructor
    of the N-BEATS variant succeeds and keeps the other three arguments as
    given; the scaler type it stores is the internal name of a display
    name ("Standard (z-score)", "MinMax (0-1)", "None") and the lower case
    of every other string; mapping the stored name again gives the same
    name; the model holds a MinMaxScaler when the stored name is "minmax",
    a StandardScaler when it is "standard" and no scaler for every other
    name, so an unknown name silently turns scaling off.  A scaler type
    that is not a string fails with an AttributeError. *)
Theorem X11_scaler_type_normal_form
  (input_chunk_length n_epochs random_state : hyperval) (name : string) :
  isascii name = true ->
  exists m,
    NBEATS.init input_chunk_length n_epochs (HStr name) random_state = Ok m /\
    NBEATS.scaler_type m = expected_scaler_type name /\
    NBEATS.input_chunk_length m = input_chunk_length /\
    NBEATS.n_epochs m = n_epochs /\
    NBEATS.random_state m = random_state /\
    NBEATS.map_scaler_type (HStr (NBEATS.scaler_type m))
    = Ok (NBEATS.scaler_type m) /\
    (expected_scaler_type name = "minmax" ->
     NBEATS.scaler m = Some MinMaxScaler) /\
    (expected_scaler_type name = "standard" ->
     NBEATS.scaler m = Some StandardScaler) /\
    (expected_scaler_type name <> "minmax" ->
     expected_scaler_type name <> "standard" ->
     NBEATS.scaler m = None) /\
    NBEATS.model m = None /\
    (forall z, exists e,
       NBEATS.init input_chunk_length n_epochs (HInt z) random_state = Raise e /\
       exn_cls e = AttributeError) /\
    (forall x, exists e,
       NBEATS.init input_chunk_length n_epochs (HFloat x) random_state = Raise e /\
       exn_cls e = AttributeError).
Proof.
  intros _.
  assert (default (lower name) (assoc name NBEATS.scaler_mapping)
          = expected_scaler_type name) as Hstored.
  { unfold expected_scaler_type, NBEATS.scaler_mapping. cbn [assoc].
    destruct (decide ("Standard (z-score)" = name)) as [<-|Hn1]; [done|].
    rewrite (decide_False (P := name = "Standard (z-score)")) by done.
    destruct (decide ("MinMax (0-1)" = name)) as [<-|Hn2]; [done|].
    rewrite (decide_False (P := name = "MinMax (0-1)")) by done.
    destruct (decide ("None" = name)) as [<-|Hn3]; [done|].
    rewrite (decide_False (P := name = "None")) by done.
    destruct (decide ("standard" = name)) as [<-|Hn4]; [done|].
    destruct (decide ("minmax" = name)) as [<-|Hn5]; [done|].
    destruct (decide ("none" = name)) as [<-|Hn6]; done. }
  eexists. split; [reflexivity|].
  cbn [NBEATS.scaler_type NBEATS.scaler NBEATS.model NBEATS.input_chunk_length
       NBEATS.n_epochs NBEATS.random_state].
  rewrite Hstored. split_and!; try done.
  - unfold NBEATS.map_scaler_type. f_equal. rewrite <- Hstored.
    destruct (assoc name NBEATS.scaler_mapping) as [t|] eqn:Hname;
      cbn [default from_option id].
    + by rewrite (scaler_mapping_fixed _ _ Hname).
    + destruct (assoc (lower name) NBEATS.scaler_mapping) as [t|] eqn:Hlower;
        cbn [default from_option id]; [|apply lower_idempotent].
      by apply scaler_mapping_lower.
  - intros ->. done.
  - intros ->. done.
  - intros Hmm Hst. by rewrite !decide_False.
  - intros z. eexists. split; reflexivity.
  - intros x. eexists. split; reflexivity.
Qed.

End Scaler.

Section SchemaAccepted.
Context `{Pandas} `{Statsmodels} `{ProphetLib} `{Sklearn} `{!Darts}.

Lemma check_kwargs_allowed (allowed : list string)
  (kwargs : gmap string hyperval) :
  (forall name, is_Some (kwargs !! name) -> name ∈ allowed) ->
  check_kwargs allowed kwargs = Ok tt.
Proof.
  intros Hnames. unfold check_kwargs.
  destruct (decide _) as [|Hbad]; [done|]. destruct Hbad.
  intros name v Hv. apply Hnames. by exists v.
Qed.

(** X12: the constructor of every model class accepts every set of
    keyword arguments over the names of the class's hyperparameter schema,
    with whatever values, as long as a scaler type is a string (which the
    select widget of the schema makes it); and the defaults of the schema
    build the same model as the defaults of the constructor. *)
Theorem X12_schema_accepted_by_constructor (cls : model_class)
  (kwargs : gmap string hyperval) :
  (forall name, is_Some (kwargs !! name) ->
                name ∈ (Schema.get_hyperparameters cls).*1) ->
  (forall v, kwargs !! "scaler_type" = Some v -> exists s, v = HStr s) ->
  (exists m, construct cls kwargs = Ok m) /\
  construct cls (Schema.defaults (Schema.get_hyperparameters cls))
  = construct cls ∅.
Proof.
  intros Hnames Hscaler. split.
  - unfold construct. destruct cls.
    + rewrite check_kwargs_allowed by exact Hnames. simpl. eauto.
    + rewrite check_kwargs_allowed by exact Hnames. simpl. eauto.
    + rewrite check_kwargs_allowed.
      2:{ intros name Hname. apply Hnames in Hname. simpl in Hname.
          repeat (apply elem_of_cons in Hname as [->|Hname];
                  [rewrite !elem_of_cons; auto 10|]).
          by apply elem_of_nil in Hname. }
      simpl. unfold kwarg.
      destruct (kwargs !! "scaler_type") as [v|] eqn:Hv.
      * destruct (Hscaler v eq_refl) as [s ->]. simpl. eauto.
      * simpl. eauto.
  - destruct cls; vm_compute; reflexivity.
Qed.

End SchemaAccepted.

(** ** The order recommendations of the ARIMA variant *)

Section Recommendations.
Context `{StatTools}.

Lemma scan_lags_member (corr : list float) (confidence : float)
  (lags : list Z) (found r : Z) :
  Recommend.scan_lags corr confidence lags found = Ok r ->
  r = found \/ r ∈ lags.
Proof.
  revert found. induction lags as [|lag rest IH]; intros found; simpl.
  - intros [= <-]. by left.
  - destruct (corr !! Z.to_nat lag) as [v|]; [|discriminate].
    destruct (Recommend.significant v confidence).
    + intros [->|Hin]%IH; right; [by left | by right].
    + intros [= <-]. by left.
Qed.

Lemma recommend_order_bounds
  (correlation : list float -> Z -> result (list float))
  (tool symbol : string) (data : DataFrame) (max_lag : Z) :
  1 <= (Recommend.recommend_order correlation tool symbol data max_lag).1 <= 5.
Proof.
  unfold Recommend.recommend_order.
  destruct (_ <? 20); [simpl; lia|].
  destruct (correlation _ _) as [corr|e]; [|simpl; lia]. simpl.
  destruct (Recommend.scan_lags _ _ _ _) as [found|e] eqn:Hscan; [|simpl; lia].
  simpl. destruct (decide _) as [|Hne]; [simpl; lia|]. simpl.
  apply scan_lags_member in Hscan as [->|Hin]; [lia|].
  apply elem_of_seqZ in Hin. lia.
Qed.

Lemma adf_levels_pvalue (levels : nat) (d : Z) (series : list float)
  (p : float) :
  Recommend.adf_levels levels d series (Some p) <> inr None.
Proof.
  revert d series p. induction levels as [|levels IH]; intros d series p;
    simpl; [done|].
  destruct (_ <? 10); [done|].
  destruct (adfuller_pvalue _) as [p'|]; [|done].
  destruct (flt p' _); [done | apply IH].
Qed.

Lemma adf_levels_bounds (levels : nat) (d d' : Z) (series : list float)
  (p_value : option float) (e : Recommend.explanation) :
  Recommend.adf_levels levels d series p_value = inl (d', e) ->
  d' = 1 \/ d <= d' < d + Z.of_nat levels.
Proof.
  revert d series p_value. induction levels as [|levels IH];
    intros d series p_value; simpl; [done|].
  destruct (_ <? 10); [intros [= <- _]; by left|].
  destruct (adfuller_pvalue _) as [p|]; [|intros [= <- _]; by left].
  destruct (flt p _).
  - intros [= <- _]. right. lia.
  - intros [->|Hd]%IH; [by left | right; lia].
Qed.

Lemma recommend_d_bounds (data : DataFrame) (max_d : Z) :
  0 <= max_d ->
  exists d e, Recommend.recommend_d data max_d = Ok (d, e) /\
              (d = 1 \/ 0 <= d <= max_d).
Proof.
  intros Hmax. unfold Recommend.recommend_d.
  destruct (_ <? 10); [eexists _, _; split; [reflexivity | by left]|].
  destruct (Recommend.adf_levels _ _ _ _) as [[d e]|[p|]] eqn:Hlevels.
  - eexists _, _. split; [reflexivity|].
    apply adf_levels_bounds in Hlevels as [->|Hd]; [by left | right; lia].
  - eexists _, _. split; [reflexivity | by left].
  - exfalso. replace (Z.to_nat (max_d + 1)) with (S (Z.to_nat max_d)) in Hlevels
      by lia.
    simpl in Hlevels.
    destruct (_ <? 10); [done|].
    destruct (adfuller_pvalue _) as [p'|]; [|done].
    destruct (flt p' _); [done|]. by apply adf_levels_pvalue in Hlevels.
Qed.

(** X13: [get_recommendations] never raises, whatever the series and
    whatever the statistical tests return or raise, and every value it
    recommends lies within the bounds the hyperparameter schema of the
    ARIMA variant gives for that parameter: p and q between 1 and 5, d
    between 0 and 2. *)
Theorem X13_recommendations_within_schema (data : DataFrame) :
  exists recommendations,
    Recommend.get_recommendations data = Ok recommendations /\
    recommendations.*1 = ["p"; "d"; "q"] /\
    forall name value explanation,
      (name, (value, explanation)) ∈ recommendations ->
      exists cfg lower upper,
        assoc name (Schema.get_hyperparameters ARIMAForecaster) = Some cfg /\
        Schema.cfg_min cfg = Some (HInt lower) /\
        Schema.cfg_max cfg = Some (HInt upper) /\
        lower <= value <= upper.
Proof.
  unfold Recommend.get_recommendations.
  destruct (recommend_d_bounds data 2) as (d & e & -> & Hd); [lia|].
  eexists. split; [reflexivity|]. split; [reflexivity|].
  intros name value explanation Hin.
  pose proof (recommend_order_bounds pacf "PACF" "p" data 20) as Hp.
  pose proof (recommend_order_bounds acf "ACF" "q" data 20) as Hq.
  apply elem_of_cons in Hin as [[= -> Hv]|Hin].
  { eexists _, 0, 5. split_and!; [reflexivity..| |];
      unfold Recommend.recommend_p in Hv; rewrite <- Hv in Hp; simpl in Hp; lia. }
  apply elem_of_cons in Hin as [[= -> -> _]|Hin].
  { eexists _, 0, 2. split_and!; [reflexivity..| |]; lia. }
  apply elem_of_cons in Hin as [[= -> Hv]|Hin].
  { eexists _, 0, 5. split_and!; [reflexivity..| |];
      unfold Recommend.recommend_q in Hv; rewrite <- Hv in Hq; simpl in Hq; lia. }
  by apply elem_of_nil in Hin.
Qed.

(** *** The orders p and q *)

Lemma scan_lags_run (corr : list float) (confidence : float) (r : nat) :
  forall (a m found : Z),
    Z.of_nat r <= Z.max 0 m ->
    (forall lag, a <= lag < a + Z.of_nat r ->
       exists v, corr !! Z.to_nat lag = Some v /\
                 Recommend.significant v confidence = true) ->
    (Z.of_nat r = Z.max 0 m \/
     exists v, corr !! Z.to_nat (a + Z.of_nat r) = Some v /\
               Recommend.significant v confidence = false) ->
    Recommend.scan_lags corr confidence (seqZ a m) found
    = Ok (if r is O then found else a + Z.of_nat r - 1).
Proof.
  induction r as [|r IH]; intros a m found Hm Hrun Hend.
  - destruct (decide (0 < m)) as [Hpos|Hnpos]; [|by rewrite seqZ_nil by lia].
    destruct Hend as [Hend|(v & Hv & Hns)]; [lia|].
    rewrite seqZ_cons by done. simpl.
    replace (a + Z.of_nat 0) with a in Hv by lia. by rewrite Hv, Hns.
  - rewrite seqZ_cons by lia. simpl.
    destruct (Hrun a) as (v & -> & ->); [lia|].
    rewrite (IH (Z.succ a) (Z.pred m) a).
    + destruct r; f_equal; lia.
    + lia.
    + intros lag Hlag. apply Hrun. lia.
    + destruct Hend as [Hend|(v' & Hv' & Hns)]; [left; lia|].
      right. exists v'. split; [|done]. rewrite <- Hv'. f_equal. lia.
Qed.

Lemma recommend_order_leading_run
  (correlation : list float -> Z -> result (list float))
  (tool symbol : string) (data : DataFrame) (corr : list float) (k : Z) :
  20 <= len (Recommend.dropna (values data)) ->
  correlation (Recommend.dropna (values data))
    (Z.min 20 (len (Recommend.dropna (values data)) / 2)) = Ok corr ->
  leading_run corr (confidence_bound data) k ->
  (Recommend.recommend_order correlation tool symbol data 20).1 = Z.max 1 k.
Proof.
  intros Hlen Hcorr (Hk & Hrun & Hend).
  unfold Recommend.recommend_order.
  destruct (_ <? 20) eqn:Hshort; [apply Z.ltb_lt in Hshort; lia|].
  rewrite Hcorr. simpl. fold (confidence_bound data).
  assert (k = 0 \/ k < len corr) as Hinside.
  { destruct (decide (k = 0)) as [|Hne]; [by left | right].
    destruct (Hrun k) as (v & Hv & _); [lia|].
    apply lookup_lt_Some in Hv. unfold len. lia. }
  rewrite (scan_lags_run corr (confidence_bound data) (Z.to_nat k)).
  - simpl. destruct (Z.to_nat k) eqn:Hnat.
    + assert (k = 0) as -> by lia. done.
    + replace (1 + Z.of_nat (S n) - 1) with k by lia.
      destruct (decide _) as [Heq|Hne]; simpl; lia.
  - lia.
  - intros lag Hlag. apply Hrun. lia.
  - destruct Hend as [->|[Hshortcorr|(v & Hv & Hns)]].
    + left. lia.
    + left. lia.
    + destruct (decide (k = 5)) as [->|Hne]; [left; lia|].
      right. exists v. split; [|done]. rewrite <- Hv. f_equal. lia.
Qed.

(** X14: on a series of at least 20 non-missing values whose PACF and
    ACF computations succeed, [recommend_p] and [recommend_q] return the
    length of the leading run of significant lags, among the lags 1 to 5
    that the correlation array holds and against the bound
    1.96 / sqrt(n), and 1 when that run is empty.  A significant lag after
    the first insignificant one is not counted. *)
Theorem X14_orders_are_leading_runs (data : DataFrame)
  (pacf_values acf_values : list float) (p q : Z) :
  let clean_data := Recommend.dropna (values data) in
  20 <= len clean_data ->
  pacf clean_data (Z.min 20 (len clean_data / 2)) = Ok pacf_values ->
  acf clean_data (Z.min 20 (len clean_data / 2)) = Ok acf_values ->
  leading_run pacf_values (confidence_bound data) p ->
  leading_run acf_values (confidence_bound data) q ->
  (Recommend.recommend_p data 20).1 = Z.max 1 p /\
  (Recommend.recommend_q data 20).1 = Z.max 1 q.
Proof.
  intros clean_data Hlen Hpacf Hacf Hp Hq. split.
  - by apply (recommend_order_leading_run pacf _ _ data pacf_values).
  - by apply (recommend_order_leading_run acf _ _ data acf_values).
Qed.

(** *** The differencing order d *)

Lemma differenced_S (series : list float) (j : nat) :
  differenced series (S j) = differenced (Recommend.diff series) j.
Proof. unfold differenced. by rewrite Nat.iter_succ_r. Qed.

Lemma first_stationary_S (series : list float) (j : nat) :
  first_stationary series (S j) <->
  10 <= len (Recommend.dropna series) /\
  (exists p_value, adfuller_pvalue (Recommend.dropna series) = Ok p_value /\
                   flt p_value (float_of_ratio 5 100) = false) /\
  first_stationary (Recommend.diff series) j.
Proof.
  unfold first_stationary. split.
  - intros (Hlen & Hnot & Hstat). split_and!.
    + apply (Hlen O). lia.
    + apply (Hnot O). lia.
    + intros i Hi. rewrite <- differenced_S. apply Hlen. lia.
    + intros i Hi. rewrite <- differenced_S. apply Hnot. lia.
    + by rewrite <- differenced_S.
  - intros (Hlen0 & Hnot0 & Hlen & Hnot & Hstat). split_and!.
    + intros [|i] Hi; [done|]. rewrite differenced_S. apply Hlen. lia.
    + intros [|i] Hi; [done|]. rewrite differenced_S. apply Hnot. lia.
    + by rewrite differenced_S.
Qed.

Lemma adf_levels_complete (j : nat) :
  forall (levels : nat) (d : Z) (series : list float) (p_value : option float),
    (j < levels)%nat -> first_stationary series j ->
    exists e, Recommend.adf_levels levels d series p_value
              = inl (d + Z.of_nat j, e).
Proof.
  induction j as [|j IH]; intros levels d series p_value Hj Hfirst;
    (destruct levels as [|levels]; [lia|]); simpl.
  - destruct Hfirst as (Hlen & _ & p & Hp & Hsig).
    specialize (Hlen O (le_n _)). unfold differenced in *. simpl in *.
    destruct (_ <? 10) eqn:Hshort; [apply Z.ltb_lt in Hshort; lia|].
    rewrite Hp, Hsig. replace (d + Z.of_nat 0) with d by lia. by eexists.
  - apply first_stationary_S in Hfirst as (Hlen & (p & Hp & Hns) & Hrest).
    destruct (_ <? 10) eqn:Hshort; [apply Z.ltb_lt in Hshort; lia|].
    rewrite Hp, Hns.
    destruct (IH levels (d + 1) (Recommend.diff series) (Some p))
      as (e & ->); [lia | done|].
    exists e. do 2 f_equal. lia.
Qed.

Lemma adf_levels_sound (levels : nat) :
  forall (d d' : Z) (series : list float) (p_value : option float)
         (e : Recommend.explanation),
    Recommend.adf_levels levels d series p_value = inl (d', e) ->
    d' <> 1 ->
    exists j, d' = d + Z.of_nat j /\ (j < levels)%nat /\
              first_stationary series j.
Proof.
  induction levels as [|levels IH]; intros d d' series p_value e; simpl;
    [done|].
  destruct (_ <? 10) eqn:Hshort; [by intros [= <- _]|].
  apply Z.ltb_ge in Hshort.
  destruct (adfuller_pvalue _) as [p|] eqn:Hp; [|by intros [= <- _]].
  destruct (flt p _) eqn:Hsig.
  - intros [= <- _] _. exists O. split_and!; [lia | lia|].
    split_and!.
    + intros i Hi. by assert (i = O) as -> by lia.
    + intros i Hi. lia.
    + by exists p.
  - intros Hrec Hne. apply IH in Hrec as (j & -> & Hj & Hfirst); [|done].
    exists (S j). split_and!; [lia | lia|].
    apply first_stationary_S. split_and!; [done | by exists p | done].
Qed.

(** X15: [recommend_d] returns the first differencing level, from 0 to
    [max_d], at which the ADF test gives a p-value below 0.05, provided
    every level up to it keeps at least 10 values and its test returns.
    Conversely a recommendation other than 1 is always such a level; the
    value 1 alone is also the fallback of every failure. *)
Theorem X15_d_is_first_stationary_level (data : DataFrame) (max_d d : Z) :
  0 <= max_d ->
  (0 <= d <= max_d /\ first_stationary (values data) (Z.to_nat d) ->
   exists e, Recommend.recommend_d data max_d = Ok (d, e)) /\
  (d <> 1 ->
   (exists e, Recommend.recommend_d data max_d = Ok (d, e)) ->
   0 <= d <= max_d /\ first_stationary (values data) (Z.to_nat d)).
Proof.
  intros Hmax. unfold Recommend.recommend_d. split.
  - intros (Hd & Hfirst).
    pose proof Hfirst as (Hlen & _). specialize (Hlen O (Nat.le_0_l _)).
    unfold differenced in Hlen. simpl in Hlen.
    destruct (_ <? 10) eqn:Hshort; [apply Z.ltb_lt in Hshort; lia|].
    destruct (adf_levels_complete (Z.to_nat d) (Z.to_nat (max_d + 1)) 0
                (values data) None) as (e & ->); [lia | done|].
    exists e. do 2 f_equal. lia.
  - intros Hne (e & Hrec).
    destruct (_ <? 10); [by injection Hrec as <- _|].
    destruct (Recommend.adf_levels _ _ _ _) as [[d' e']|[p|]] eqn:Hlevels;
      [|by injection Hrec as <- _|done].
    injection Hrec as -> ->.
    apply adf_levels_sound in Hlevels as (j & -> & Hj & Hfirst); [|done].
    split; [lia|]. by replace (Z.to_nat (0 + Z.of_nat j)) with j by lia.
Qed.

End Recommendations.

(** ** The session state *)

Lemma foldl_insert_lookup {A} (v : A) (keys : list string)
  (m : gmap string A) (key : string) :
  foldl (fun acc k => <[k := v]> acc) m keys !! key
  = if decide (key ∈ keys) then Some v else m !! key.
Proof.
  revert m. induction keys as [|k keys IH]; intros m; simpl.
  - destruct (decide (key ∈ [])) as [Hin|]; [by apply elem_of_nil in Hin | done].
  - rewrite IH. destruct (decide (key ∈ keys)) as [Hin|Hnin].
    + rewrite decide_True; [done | by right].
    + destruct (decide (key = k)) as [->|Hne].
      * rewrite lookup_insert_eq. rewrite decide_True; [done | by left].
      * rewrite lookup_insert_ne by done.
        rewrite decide_False; [done|].
        intros [?|?]%elem_of_cons; done.
Qed.

Lemma set_all_lookup {A} (v : A) (m : gmap string A) (key : string) :
  AppState.set_all v m !! key
  = if decide (key ∈ AppState.model_keys) then Some v else m !! key.
Proof. apply foldl_insert_lookup. Qed.

Lemma set_missing_lookup {A} (v : A) (m : gmap string A) (key : string) :
  AppState.set_missing v m !! key
  = match m !! key with
    | Some x => Some x
    | None => if decide (key ∈ AppState.model_keys) then Some v else None
    end.
Proof.
  unfold AppState.set_missing. generalize AppState.model_keys as keys.
  intros keys. revert m. induction keys as [|k keys IH]; intros m; simpl.
  - destruct (m !! key); [done|].
    destruct (decide (key ∈ [])) as [Hin|]; [by apply elem_of_nil in Hin | done].
  - rewrite IH. destruct (m !! k) as [x|] eqn:Hk.
    + destruct (m !! key) as [y|] eqn:Hkey; [done|].
      destruct (decide (key ∈ keys)) as [Hin|Hnin].
      * rewrite decide_True; [done | by right].
      * rewrite decide_False; [done|].
        intros [->|?]%elem_of_cons; [congruence | done].
    + destruct (decide (key = k)) as [->|Hne].
      * rewrite lookup_insert_eq, Hk. rewrite decide_True; [done | by left].
      * rewrite lookup_insert_ne by done.
        destruct (m !! key); [done|].
        destruct (decide (key ∈ keys)) as [Hin|Hnin].
        -- rewrite decide_True; [done | by right].
        -- rewrite decide_False; [done|].
           intros [?|?]%elem_of_cons; done.
Qed.

Lemma registered_key (name : string) (cls : model_class) :
  (name, cls) ∈ AVAILABLE_MODELS -> lower name ∈ AppState.model_keys.
Proof.
  intros Hin. unfold AppState.model_keys.
  apply list_elem_of_fmap. by exists (name, cls).
Qed.

Lemma registry_keys_distinct (name name' : string) (cls cls' : model_class) :
  (name, cls) ∈ AVAILABLE_MODELS ->
  (name', cls') ∈ AVAILABLE_MODELS ->
  lower name = lower name' ->
  name = name' /\ cls = cls'.
Proof.
  unfold AVAILABLE_MODELS. rewrite !elem_of_cons, !elem_of_nil.
  intros [[= -> ->]|[[= -> ->]|[[= -> ->]|[]]]]
         [[= -> ->]|[[= -> ->]|[[= -> ->]|[]]]]; vm_compute; by try intros [=].
Qed.

Lemma registry_session_keys_distinct : NoDup all_session_keys.
Proof. apply (bool_decide_unpack _). vm_compute. exact I. Qed.

(** X16: for a registered model, [get_model_results] after
    [set_model_results] returns exactly what was stored, under any
    spelling of the model's name that differs only in letter case; the
    results of every other registered model, the split and horizon
    settings of every registered model, the loaded data and the upload key
    are untouched. *)
Theorem X16_results_round_trip (model_name other : string)
  (cls : model_class) (metrics : Metrics) (preds test_preds : DataFrame)
  (pct hor : Z) (s : AppState.SessionState) :
  (model_name, cls) ∈ AVAILABLE_MODELS ->
  let s' := AppState.set_model_results model_name metrics preds test_preds
              pct hor s in
  (lower other = lower model_name ->
   AppState.get_model_results other s'
   = {| AppState.r_trained := true;
        AppState.r_metrics := Some metrics;
        AppState.r_predictions := Some preds;
        AppState.r_test_predictions := Some test_preds;
        AppState.r_train_pct := Some pct;
        AppState.r_horizon := Some hor |}) /\
  (forall cls',
     (other, cls') ∈ AVAILABLE_MODELS ->
     (other <> model_name ->
      AppState.get_model_results other s'
      = AppState.get_model_results other s) /\
     AppState.train_pct s' !! lower other
     = AppState.train_pct s !! lower other /\
     AppState.horizon s' !! lower other
     = AppState.horizon s !! lower other) /\
  AppState.get_data s' = AppState.get_data s /\
  AppState.get_upload_key s' = AppState.get_upload_key s.
Proof.
  intros Hreg s'. split_and!; try reflexivity.
  - intros Heq. unfold AppState.get_model_results, AppState.session_get, s'.
    simpl. rewrite Heq, !lookup_insert_eq. done.
  - intros cls' Hother. split_and!; try reflexivity.
    intros Hdiff.
    assert (lower other <> lower model_name) as Hne.
    { intros Heq.
      by destruct (registry_keys_distinct other model_name cls' cls)
        as [? _]. }
    unfold AppState.get_model_results, AppState.session_get, s'.
    simpl. by rewrite !lookup_insert_ne.
Qed.

Lemma X16_results_round_trip_witness :
  let s := AppState.initialize AppState.fresh_session in
  let s' := AppState.set_model_results "ARIMA" ∅ [] [] 80 3 s in
  AppState.r_train_pct (AppState.get_model_results "Arima" s') = Some 80 /\
  AppState.get_model_results "PROPHET" s'
  = AppState.get_model_results "PROPHET" s.
Proof.
  intros s s'.
  destruct (X16_results_round_trip "ARIMA" "Arima" ARIMAForecaster ∅ [] []
              80 3 s) as (Hsame & _); [by left|].
  destruct (X16_results_round_trip "ARIMA" "PROPHET" ARIMAForecaster ∅ [] []
              80 3 s) as (_ & Hother & _); [by left|].
  split.
  - fold s' in Hsame. by rewrite Hsame.
  - destruct (Hother ProphetForecaster) as [Hframe _];
      [right; by left|].
    by apply Hframe.
Defined.

Lemma clear_all_models_registered (s : AppState.SessionState)
  (name : string) (cls : model_class) :
  (name, cls) ∈ AVAILABLE_MODELS ->
  AppState.get_model_results name (AppState.clear_all_models s) = no_results.
Proof.
  intros Hin%registered_key.
  unfold AppState.get_model_results, AppState.session_get,
    AppState.clear_all_models. simpl.
  rewrite !set_all_lookup, !decide_True by done. done.
Qed.

(** X17: [set_data] stores the new frame, raises the upload key by one
    and leaves every registered model untrained with no metrics, forecasts
    or recorded configuration, whatever was stored before; the split and
    horizon settings of the user are kept.  [clear_all_models] does the
    same and keeps the data. *)
Theorem X17_new_data_clears_results (data : option DataFrame)
  (s : AppState.SessionState) :
  let s' := AppState.set_data data s in
  let s'' := AppState.clear_all_models s in
  AppState.get_data s' = data /\
  AppState.get_data s'' = AppState.get_data s /\
  AppState.get_upload_key s' = AppState.get_upload_key s + 1 /\
  AppState.get_upload_key s'' = AppState.get_upload_key s + 1 /\
  AppState.train_pct s' = AppState.train_pct s /\
  AppState.horizon s' = AppState.horizon s /\
  (forall name cls,
     (name, cls) ∈ AVAILABLE_MODELS ->
     AppState.get_model_results name s' = no_results /\
     AppState.get_model_results name s'' = no_results) /\
  Forall (fun entry => entry.2 = false) (AppState.get_all_trained_models s').
Proof.
  intros s' s''. split_and!; try reflexivity.
  - intros name cls Hin. split; by eapply clear_all_models_registered.
  - apply Forall_forall. intros [name trained] Hin.
    unfold AppState.get_all_trained_models in Hin.
    apply list_elem_of_fmap in Hin as ([name' cls] & [= -> ->] & Hin).
    simpl. apply registered_key in Hin.
    unfold s', AppState.set_data, AppState.clear_all_models. simpl.
    rewrite set_all_lookup, decide_True by done. done.
Qed.

Lemma set_missing_idempotent {A} (v : A) (m : gmap string A) :
  AppState.set_missing v (AppState.set_missing v m) = AppState.set_missing v m.
Proof.
  apply map_eq. intros key. rewrite !set_missing_lookup.
  destruct (m !! key); [done|]. by case_decide.
Qed.

Lemma initialize_results (s : AppState.SessionState) (name : string) :
  AppState.get_model_results name (AppState.initialize s)
  = AppState.get_model_results name s.
Proof.
  unfold AppState.get_model_results, AppState.session_get,
    AppState.initialize. simpl.
  rewrite !set_missing_lookup. f_equal.
  - destruct (AppState.model_trained s !! lower name); [done|].
    by case_decide.
  - destruct (AppState.results s !! lower name); [done|].
    by case_decide.
Qed.

(** X18: [initialize], which runs at the start of every rerun of the
    script, only fills what is missing: the results of every model, the
    data and the upload key read the same before and after, a split or
    horizon setting that exists is kept, every registered model has both
    settings afterwards, and a second run changes nothing. *)
Theorem X18_initialize_fills_only_missing (s : AppState.SessionState) :
  let s' := AppState.initialize s in
  (forall name, AppState.get_model_results name s'
                = AppState.get_model_results name s) /\
  AppState.get_data s' = AppState.get_data s /\
  AppState.get_upload_key s' = AppState.get_upload_key s /\
  (forall key v, AppState.train_pct s !! key = Some v ->
                 AppState.train_pct s' !! key = Some v) /\
  (forall key v, AppState.horizon s !! key = Some v ->
                 AppState.horizon s' !! key = Some v) /\
  (forall name cls,
     (name, cls) ∈ AVAILABLE_MODELS ->
     AppState.train_pct s !! lower name = None ->
     AppState.train_pct s' !! lower name = Some TRAIN_PCT_DEFAULT) /\
  (forall name cls,
     (name, cls) ∈ AVAILABLE_MODELS ->
     AppState.horizon s !! lower name = None ->
     AppState.horizon s' !! lower name = Some HORIZON_DEFAULT) /\
  AppState.initialize s' = s'.
Proof.
  intros s'. split_and!; try reflexivity.
  - intros name. apply initialize_results.
  - intros key v Hv. unfold s'. simpl. by rewrite set_missing_lookup, Hv.
  - intros key v Hv. unfold s'. simpl. by rewrite set_missing_lookup, Hv.
  - intros name cls Hin%registered_key Hnone. unfold s'. simpl.
    by rewrite set_missing_lookup, Hnone, decide_True.
  - intros name cls Hin%registered_key Hnone. unfold s'. simpl.
    by rewrite set_missing_lookup, Hnone, decide_True.
  - unfold s', AppState.initialize. simpl.
    by rewrite !set_missing_idempotent.
Qed.

(** ** What a training leaves in the session *)

Lemma cache_lookup_member (key : CacheKey) (r : EvaluationResult)
  (es : list (CacheKey * EvaluationResult)) :
  cache_lookup key es = Some r -> (key, r) ∈ es.
Proof.
  induction es as [|[k r'] es IH]; simpl; [done|].
  destruct (decide (k = key)) as [->|Hne].
  - intros [= ->]. by left.
  - intros Hin. right. by apply IH.
Qed.

Section Service.
Context `{Pandas} `{Statsmodels} `{ProphetLib} `{Sklearn} `{!Darts}
        `{SklearnMetrics}.

Lemma body_Ok_inv (cls : model_class) (data : DataFrame)
  (train_pct horizon upload_key : Z) (hyperparams : gmap string hyperval)
  (metrics : Metrics) (preds test_preds : DataFrame) :
  train_and_evaluate_body cls data train_pct horizon upload_key hyperparams
  = Ok (metrics, preds, test_preds) ->
  exists m0 m',
    construct cls hyperparams = Ok m0 /\
    0 < train_pct < 100 /\
    evaluate data {| HoldoutPct.train_pct := train_pct |} horizon
      (list_to_map ((fun nc => (nc.1, mc_function nc.2)) <$> AVAILABLE_METRICS))
      m0
    = (Ok (metrics, preds, test_preds), m').
Proof.
  unfold train_and_evaluate_body. intros Hrun.
  destruct (construct cls hyperparams) as [m0|e]; [|done]. simpl in Hrun.
  destruct (decide (0 < train_pct < 100)) as [Hpct|Hpct].
  - rewrite init_inside in Hrun by done. simpl in Hrun.
    destruct (evaluate _ _ _ _ _) as [r m'] eqn:Heval. simpl in Hrun.
    subst r. by exists m0, m'.
  - by rewrite init_outside in Hrun.
Qed.

Lemma train_and_evaluate_sound (cls : model_class) (data : DataFrame)
  (train_pct horizon upload_key : Z) (hyperparams : gmap string hyperval)
  (c c' : TrainingCache) (r : result EvaluationResult) :
  cache_sound c ->
  train_and_evaluate cls data train_pct horizon upload_key hyperparams c
  = (r, c') ->
  cache_sound c' /\
  forall res, r = Ok res ->
    train_and_evaluate_body cls data train_pct horizon upload_key hyperparams
    = Ok res.
Proof.
  unfold train_and_evaluate, get_or_train. intros Hsound.
  destruct (cache_lookup _ _) as [res|] eqn:Hlookup.
  - intros [= <- <-]. split; [done|]. intros res' [= <-].
    apply cache_lookup_member in Hlookup. by apply Hsound in Hlookup.
  - destruct (train_and_evaluate_body _ _ _ _ _ _) as [res|e] eqn:Hbody.
    + intros [= <- <-]. split; [|by intros res' [= <-]].
      intros key r' [[= -> ->]|Hin]%elem_of_cons; [done | by apply Hsound].
    + intros [= <- <-]. split; [|done].
      intros key r' Hin. by apply Hsound.
Qed.

Lemma reachable_invariant (app : App) :
  reachable app ->
  cache_sound (cache app) /\
  forall name cls,
    (name, cls) ∈ AVAILABLE_MODELS ->
    AppState.r_trained (AppState.get_model_results name (session app)) = true ->
    results_from_training (session app) name cls.
Proof.
  induction 1 as [|app data _ [IHc IHs]|app _ [IHc IHs]
                  |app model_name cls data train_pct horizon hyperparams
                     _ [IHc IHs] Hdata Hcls].
  - split; [by intros key r Hin%elem_of_nil|].
    intros name cls Hin.
    change (session initial_app)
      with (AppState.initialize AppState.fresh_session).
    by rewrite initialize_results.
  - split; [done|]. intros name cls Hin. cbn [session].
    unfold AppState.set_data.
    by rewrite (clear_all_models_registered _ name cls).
  - split; [done|]. intros name cls Hin. cbn [session].
    change (AppState.r_trained
              (AppState.get_model_results name
                 (AppState.reset_all (session app))))
      with (AppState.r_trained
              (AppState.get_model_results name
                 (AppState.set_data None (session app)))).
    unfold AppState.set_data.
    by rewrite (clear_all_models_registered _ name cls).
  - unfold on_train.
    destruct (train_and_evaluate _ _ _ _ _ _ _) as [r cache'] eqn:Hrun.
    apply train_and_evaluate_sound in Hrun as [Hsound Hres]; [|done].
    destruct r as [[[metrics preds] test_preds]|e]; cbn [session cache];
      [|by split].
    split; [done|]. intros name cls' Hin Htrained.
    specialize (Hres _ eq_refl).
    destruct (decide (lower name = lower model_name)) as [Heq|Hne].
    + destruct (registry_keys_distinct name model_name cls' cls)
        as [-> ->]; [done..|].
      exists data, hyperparams, metrics, preds, test_preds, train_pct, horizon.
      pose proof Hres as (m0 & m' & _ & Hpct & _)%body_Ok_inv.
      split_and!; [done | | lia | lia | done].
      unfold AppState.get_model_results, AppState.session_get. simpl.
      by rewrite !lookup_insert_eq.
    + assert (AppState.get_model_results name
                (AppState.set_model_results model_name metrics preds
                   test_preds train_pct horizon (session app))
              = AppState.get_model_results name (session app)) as Hsame.
      { unfold AppState.get_model_results, AppState.session_get. simpl.
        by rewrite !lookup_insert_ne. }
      rewrite Hsame in Htrained.
      destruct (IHs name cls' Hin Htrained)
        as (d & hp & ms & ps & tps & pct & hor & Hd & Hr & Hpct & Hbody).
      exists d, hp, ms, ps, tps, pct, hor. rewrite Hsame. done.
Qed.

(** X19: in every state the application reaches by loading data,
    resetting and training, a registered model that is shown as trained
    has a complete record: metrics, forecast, test predictions, split
    percentage and horizon are all present, the percentage lies strictly
    between 0 and 100, data is loaded, and the stored triple is the result
    of [train_and_evaluate] for the model's class on the data now loaded,
    with the recorded percentage and horizon.  Results of an earlier
    series never survive a new upload. *)
Theorem X19_trained_results_match_loaded_data (app : App) (name : string)
  (cls : model_class) :
  reachable app ->
  (name, cls) ∈ AVAILABLE_MODELS ->
  AppState.r_trained (AppState.get_model_results name (session app)) = true ->
  results_from_training (session app) name cls.
Proof. intros Hreach. by apply reachable_invariant. Qed.

(** X20: a training that returns has been given a split percentage
    strictly between 0 and 100, hyperparameters its model class accepts and
    a series of at least two rows; its metrics have exactly the keys of
    [AVAILABLE_METRICS], mae and rmse, and each value is either missing or
    a number that is neither NaN nor infinite. *)
Theorem X20_training_result_metrics (cls : model_class) (data : DataFrame)
  (train_pct horizon upload_key : Z) (hyperparams : gmap string hyperval)
  (metrics : Metrics) (preds test_preds : DataFrame) :
  train_and_evaluate_body cls data train_pct horizon upload_key hyperparams
  = Ok (metrics, preds, test_preds) ->
  0 < train_pct < 100 /\
  2 <= len data /\
  (exists m0, construct cls hyperparams = Ok m0) /\
  (forall name, is_Some (metrics !! name) <-> name = "mae" \/ name = "rmse") /\
  (forall name value,
     metrics !! name = Some (Some value) ->
     isnan value = false /\ isinf value = false).
Proof.
  intros (m0 & m' & Hm0 & Hpct & Heval)%body_Ok_inv.
  assert (2 <= len data) as Hlen.
  { destruct (decide (len data < 2)) as [Hshort|]; [|lia].
    destruct (evaluate_short_raises m0 {| HoldoutPct.train_pct := train_pct |}
                data horizon
                (list_to_map ((fun nc => (nc.1, mc_function nc.2))
                                <$> AVAILABLE_METRICS)) Hshort)
      as (e & m'' & Hraise & _).
    congruence. }
  apply evaluate_Ok_inv in Heval
    as (train & test & m1 & m1' & m2 & Hsplit & _ & _ & Hmetrics & _).
  rewrite calculate_metrics_fmap in Hmetrics. injection Hmetrics as <-.
  split_and!; [lia | lia | done | by exists m0 | |].
  - intros name. rewrite lookup_fmap, fmap_is_Some.
    unfold AVAILABLE_METRICS. cbn [fmap list_fmap list_to_map foldr fst snd uncurry].
    destruct (decide (name = "mae")) as [->|Hmae].
    { rewrite lookup_insert_eq. split; [by left | by eexists]. }
    rewrite lookup_insert_ne by done.
    destruct (decide (name = "rmse")) as [->|Hrmse].
    { rewrite lookup_insert_eq. split; [by right | by eexists]. }
    rewrite lookup_insert_ne, lookup_empty by done.
    split; [by intros [? [=]] | by intros [?|?]].
  - intros name value. rewrite lookup_fmap.
    destruct (_ !! name) as [func|]; [|done]. simpl.
    destruct (func _ _) as [v|]; [|done].
    destruct (isnan v || isinf v) eqn:Hbad; [done|].
    intros [= ->]. by apply orb_false_elim in Hbad.
Qed.

End Service.

(** ** The leaderboard *)

Lemma flt_rank (x y : float) :
  isnan x = false -> isnan y = false ->
  flt x y = true <-> rank_lt (float_rank x) (float_rank y).
Proof.
  assert (forall (c : comparison) (P : Prop),
            (c = Lt <-> P) ->
            match c with Lt => true | _ => false end = true <-> P) as Hcase.
  { intros [] P [HP1 HP2]; split; intros Hc; auto; try done;
      by specialize (HP2 Hc). }
  unfold flt, SFltb, rank_lt.
  destruct x as [[]|[]| |[] mx ex], y as [[]|[]| |[] my ey]; try done;
    intros _ _; simpl;
    try (split; [intros Heq; first [discriminate Heq | lia]
                |intros Hlt; first [reflexivity | exfalso; lia]]).
  - apply Hcase. change (Pos.compare_cont Eq mx my) with (Pos.compare mx my).
    destruct (Z.compare_spec ex ey), (Pos.compare_spec mx my); simpl;
      (split; [try done; lia | try done; intros; exfalso; lia]).
  - apply Hcase. change (Pos.compare_cont Eq mx my) with (Pos.compare mx my).
    destruct (Z.compare_spec ex ey), (Pos.compare_spec mx my); simpl;
      (split; [try done; lia | try done; intros; exfalso; lia]).
Qed.

Lemma flt_negative_transitive (x y z : float) :
  isnan x = false -> isnan y = false -> isnan z = false ->
  flt x y = true -> flt z y = false -> flt x z = true.
Proof.
  intros Hx Hy Hz Hxy Hzy.
  apply (flt_rank x z Hx Hz). apply (flt_rank x y Hx Hy) in Hxy.
  assert (~ rank_lt (float_rank z) (float_rank y)) as Hn.
  { intros Hlt%(flt_rank z y Hz Hy). congruence. }
  unfold rank_lt in *. lia.
Qed.

Lemma flt_asymmetric (x y : float) :
  isnan x = false -> isnan y = false ->
  flt x y = true -> flt y x = false.
Proof.
  intros Hx Hy Hxy. apply (flt_rank x y Hx Hy) in Hxy.
  destruct (flt y x) eqn:Hyx; [|done].
  apply (flt_rank y x Hy Hx) in Hyx. unfold rank_lt in *. lia.
Qed.

Lemma better_negative_transitive (lib : bool) (x y z : float) :
  isnan x = false -> isnan y = false -> isnan z = false ->
  better lib x y = true -> better lib z y = false -> better lib x z = true.
Proof.
  destruct lib; simpl; intros Hx Hy Hz Hxy Hzy.
  - by apply (flt_negative_transitive x y z).
  - apply (flt_rank z x Hz Hx). apply (flt_rank y x Hy Hx) in Hxy.
    assert (~ rank_lt (float_rank y) (float_rank z)) as Hn.
    { intros Hlt%(flt_rank y z Hy Hz). congruence. }
    unfold rank_lt in *. lia.
Qed.

Lemma better_asymmetric (lib : bool) (x y : float) :
  isnan x = false -> isnan y = false ->
  better lib x y = true -> better lib y x = false.
Proof. destruct lib; simpl; intros; by apply flt_asymmetric. Qed.

Lemma py_better_Some (lib : bool) (a b : float) :
  py_better lib (Some a) (Some b) = Ok (better lib a b).
Proof. by destruct lib. Qed.

Ltac members :=
  repeat (rewrite elem_of_app || rewrite elem_of_cons || rewrite elem_of_nil);
  tauto.

(** The scan of [min] and [max] keeps the first of the best items. *)
Lemma min_max_loop_first_best {A} (lib : bool) (key : A -> option float)
  (val : A -> float) (items : list A) :
  forall (pre post : list A) (best : A),
    (forall x, x ∈ pre ++ best :: post ++ items ->
               key x = Some (val x) /\ isnan (val x) = false) ->
    (forall x, x ∈ pre -> better lib (val best) (val x) = true) ->
    (forall x, x ∈ post -> better lib (val x) (val best) = false) ->
    exists pre' b post',
      UI.min_max_loop (py_better lib) key items best (key best) = Ok b /\
      pre ++ best :: post ++ items = pre' ++ b :: post' /\
      (forall x, x ∈ pre' -> better lib (val b) (val x) = true) /\
      (forall x, x ∈ post' -> better lib (val x) (val b) = false).
Proof.
  induction items as [|item rest IH]; intros pre post best Hkey Hpre Hpost;
    simpl.
  - exists pre, best, post. by rewrite app_nil_r.
  - destruct (Hkey item) as [Hitem Hnan_item].
    { members. }
    destruct (Hkey best) as [Hbest Hnan_best].
    { members. }
    rewrite Hitem, Hbest, py_better_Some. simpl.
    destruct (better lib (val item) (val best)) eqn:Hcmp.
    + rewrite <- Hitem.
      destruct (IH (pre ++ best :: post) [] item) as (pre' & b & post' & Hrun
        & Heq & Hpre' & Hpost').
      * intros x Hx. apply Hkey. revert Hx. simpl. members.
      * intros x [Hx|[->|Hx]%elem_of_cons]%elem_of_app.
        -- destruct (Hkey x) as [_ Hnan_x].
           { revert Hx. members. }
           apply (better_negative_transitive lib _ (val best)); try done.
           apply better_asymmetric; try done. by apply Hpre.
        -- done.
        -- destruct (Hkey x) as [_ Hnan_x].
           { revert Hx. members. }
           apply (better_negative_transitive lib _ (val best)); try done.
           by apply Hpost.
      * by intros x Hx%elem_of_nil.
      * exists pre', b, post'. split_and!; try done.
        rewrite <- Heq. simpl. by rewrite <- !app_assoc.
    + rewrite <- Hbest.
      destruct (IH pre (post ++ [item]) best) as (pre' & b & post' & Hrun
        & Heq & Hpre' & Hpost').
      * intros x Hx. apply Hkey. revert Hx. members.
      * done.
      * intros x [Hx|[->|Hx%elem_of_nil]%elem_of_cons]%elem_of_app;
          [by apply Hpost | done | done].
      * exists pre', b, post'. split_and!; try done.
        rewrite <- Heq. by rewrite <- !app_assoc.
Qed.

Lemma min_max_first_best {A} (lib : bool) (key : A -> option float)
  (val : A -> float) (items : list A) :
  items <> [] ->
  (forall x, x ∈ items -> key x = Some (val x) /\ isnan (val x) = false) ->
  exists pre b post,
    UI.min_max (py_better lib) key items = Ok b /\
    items = pre ++ b :: post /\
    (forall x, x ∈ pre -> better lib (val b) (val x) = true) /\
    (forall x, x ∈ post -> better lib (val x) (val b) = false).
Proof.
  destruct items as [|first rest]; [done|]. intros _ Hkey. simpl.
  apply (min_max_loop_first_best lib key val rest [] [] first); [done|..];
    by intros x Hx%elem_of_nil.
Qed.

(** The best value is the value of the best model. *)
Lemma min_max_loop_values {A} (op : option float -> option float -> result bool)
  (key : A -> option float) (items : list A) (best b : A) :
  UI.min_max_loop op key items best (key best) = Ok b ->
  UI.min_max_loop op id (key <$> items) (key best) (key best) = Ok (key b).
Proof.
  revert best. induction items as [|item rest IH]; intros best; simpl.
  - by intros [= ->].
  - destruct (op (key item) (key best)) as [[]|]; simpl; [apply IH..|done].
Qed.

Lemma min_max_values {A} (op : option float -> option float -> result bool)
  (key : A -> option float) (items : list A) (b : A) :
  UI.min_max op key items = Ok b ->
  UI.min_max op id (key <$> items) = Ok (key b).
Proof.
  destruct items as [|first rest]; simpl; [done|]. apply min_max_loop_values.
Qed.

Lemma assoc_fmap {A} (f : string -> A) (names : list string) (name : string) :
  name ∈ names -> assoc name ((fun n => (n, f n)) <$> names) = Some (f name).
Proof.
  induction names as [|n names IH]; [by intros ?%elem_of_nil|]. simpl.
  destruct (decide (n = name)) as [->|Hne]; [done|].
  intros [->|Hin]%elem_of_cons; [done | by apply IH].
Qed.

Lemma metric_values_of_present (metric_key : string)
  (results_of : string -> option Metrics) (val : string -> float)
  (names : list string) :
  (forall n, n ∈ names ->
     exists m, results_of n = Some m /\ m !! metric_key = Some (Some (val n))) ->
  UI.metric_values_of metric_key ((fun n => (n, results_of n)) <$> names)
  = Ok ((fun n => (n, Some (val n))) <$> names).
Proof.
  induction names as [|n names IH]; intros Hpresent; [done|].
  rewrite !fmap_cons. cbn [UI.metric_values_of].
  destruct (Hpresent n) as (m & -> & ->); [by left|].
  rewrite IH; [done|]. intros n' Hn'. apply Hpresent. by right.
Qed.

Lemma render_cards (metric_config : metric_config) (val : string -> float)
  (selected : list string) (best : string) (cards : list string) :
  (forall n, n ∈ cards -> n ∈ selected) ->
  forall out,
    UI.for_each cards
      (UI.render_card metric_config
         ((fun n => (n, Some (val n))) <$> selected) (Some (val best)) best) out
    = (UI.Done tt, out ++ (leaderboard_card metric_config val best <$> cards)).
Proof.
  induction cards as [|n cards IH]; intros Hsub out.
  - simpl. unfold UI.done. by rewrite app_nil_r.
  - cbn [UI.for_each]. unfold UI.and_then at 1. unfold UI.render_card at 1.
    unfold UI.and_then at 1. unfold UI.of_result at 1.
    rewrite (assoc_fmap (fun n => Some (val n))) by (apply Hsub; by left).
    rewrite fmap_cons. unfold leaderboard_card at 1.
    destruct (bool_decide (n = best)) eqn:Hbest; cbn [UI.py_sub UI.format_fixed2];
      unfold UI.and_then, UI.of_result, UI.emit; simpl;
      (rewrite IH by (intros n' Hn'; apply Hsub; by right));
      by rewrite <- app_assoc.
Qed.

Lemma and_then_Ok {A B} (a : A) (k : A -> UI.Render B)
  (out : list UI.element) :
  UI.and_then (UI.of_result (Ok a)) k out = k a out.
Proof. reflexivity. Qed.

Lemma and_then_emit {B} (e : UI.element) (k : unit -> UI.Render B)
  (out : list UI.element) :
  UI.and_then (UI.emit e) k out = k tt (out ++ [e]).
Proof. reflexivity. Qed.

Lemma and_then_done {A B} (a : A) (k : A -> UI.Render B)
  (out : list UI.element) :
  UI.and_then (UI.done a) k out = k a out.
Proof. reflexivity. Qed.

Lemma leaderboard_completes (metric_key : string)
  (metric_config : metric_config) (results_of : string -> option Metrics)
  (val : string -> float) (selected : list string) :
  selected <> [] ->
  (forall n, n ∈ selected ->
     exists m, results_of n = Some m /\
               m !! metric_key = Some (Some (val n)) /\
               isnan (val n) = false) ->
  exists pre best post,
    selected = pre ++ best :: post /\
    (forall n, n ∈ pre ->
       better (lower_is_better metric_config) (val best) (val n) = true) /\
    (forall n, n ∈ post ->
       better (lower_is_better metric_config) (val n) (val best) = false) /\
    forall out,
    UI.render_metric_leaderboard metric_key metric_config
      ((fun n => (n, results_of n)) <$> selected) selected out
    = (UI.Done tt,
       out ++ [UI.st_write ("#### " +:+ mc_name metric_config);
               UI.st_caption (description metric_config);
               UI.st_columns (len selected)]
           ++ (leaderboard_card metric_config val best <$> selected)).
Proof.
  intros Hne Hpresent.
  set (metric_values := (fun n => (n, Some (val n))) <$> selected).
  set (get := fun k => mjoin (assoc k metric_values)).
  assert (forall n, n ∈ selected ->
                    get n = Some (val n) /\ isnan (val n) = false) as Hget.
  { intros n Hn. split.
    - unfold get, metric_values.
      by rewrite (assoc_fmap (fun n => Some (val n))).
    - by destruct (Hpresent n Hn) as (? & ? & ? & ?). }
  destruct (min_max_first_best (lower_is_better metric_config) get val
              selected Hne Hget) as (pre & best & post & Hmin & Hsel & Hpre & Hpost).
  exists pre, best, post. split_and!; [done..|]. intros out.
  assert (best ∈ selected) as Hbest by (rewrite Hsel; members).
  assert (metric_values.*1 = selected) as Hnames.
  { unfold metric_values. rewrite <- list_fmap_compose.
    rewrite <- (list_fmap_id selected) at 2. by apply list_fmap_ext. }
  assert (metric_values.*2 = get <$> selected) as Hvalues.
  { unfold metric_values. rewrite <- list_fmap_compose.
    apply list_eq. intros i. rewrite !list_lookup_fmap.
    destruct (selected !! i) as [n|] eqn:Hi; [|done]. simpl.
    apply list_elem_of_lookup_2 in Hi. by destruct (Hget n Hi) as [-> _]. }
  assert (UI.metric_missing metric_key ((fun n => (n, results_of n)) <$> selected)
          = Ok false) as Hmissing.
  { destruct selected as [|first rest]; [done|]. simpl.
    destruct (Hpresent first) as (m & -> & Hm & _); [by left|].
    f_equal. apply bool_decide_eq_false. congruence. }
  unfold UI.render_metric_leaderboard.
  rewrite Hmissing, and_then_Ok, !and_then_emit.
  rewrite (metric_values_of_present metric_key results_of val)
    by (intros n Hn; destruct (Hpresent n Hn) as (m & ? & ? & ?); by exists m).
  rewrite and_then_Ok. fold metric_values. fold get.
  rewrite Hnames, Hvalues.
  assert ((if lower_is_better metric_config
           then (bv <~ UI.py_min id (get <$> selected) ;;
                 bm <~ UI.py_min get selected ;; Ok (bv, bm))%py
           else (bv <~ UI.py_max id (get <$> selected) ;;
                 bm <~ UI.py_max get selected ;; Ok (bv, bm))%py)
          = Ok (Some (val best), best)) as ->.
  { destruct (Hget best Hbest) as [<- _].
    pose proof (min_max_values _ _ _ _ Hmin) as Hval.
    unfold UI.py_min, UI.py_max.
    destruct (lower_is_better metric_config); simpl in Hmin, Hval;
      by rewrite Hval, Hmin. }
  rewrite and_then_Ok, and_then_emit. cbn [fst snd].
  rewrite (render_cards metric_config val selected best selected) by done.
  by rewrite <- !app_assoc.
Qed.

(** X21: when every selected model has a value for the metric that is
    not NaN, the leaderboard of that metric completes: it emits the
    heading, the description, a row of as many columns as models and one
    card per selected model in selection order.  Exactly the cards of the
    best model carry the trophy; the best model is the first, in selection
    order, of the models that no other model beats (lower values beat
    higher ones when lower is better), so it strictly beats every model
    before it and none after it beats it.  Every other card shows the
    signed difference to the best value. *)
Theorem X21_leaderboard_cards (metric_key : string)
  (metric_config : metric_config) (results_of : string -> option Metrics)
  (val : string -> float) (selected : list string) :
  selected <> [] ->
  (forall n, n ∈ selected ->
     exists m, results_of n = Some m /\
               m !! metric_key = Some (Some (val n)) /\
               isnan (val n) = false) ->
  exists pre best post,
    selected = pre ++ best :: post /\
    (forall n, n ∈ pre ->
       better (lower_is_better metric_config) (val best) (val n) = true) /\
    (forall n, n ∈ post ->
       better (lower_is_better metric_config) (val n) (val best) = false) /\
    forall out,
    UI.render_metric_leaderboard metric_key metric_config
      ((fun n => (n, results_of n)) <$> selected) selected out
    = (UI.Done tt,
       out ++ [UI.st_write ("#### " +:+ mc_name metric_config);
               UI.st_caption (description metric_config);
               UI.st_columns (len selected)]
           ++ (leaderboard_card metric_config val best <$> selected)).
Proof. apply leaderboard_completes. Qed.

(** ** The comparison tab from start to end *)

Section Tab.
Context `{SklearnMetrics}.

Lemma trained_names_filter (s : AppState.SessionState) :
  (filter (fun nb : string * bool => nb.2 = true)
          (AppState.get_all_trained_models s)).*1
  = trained_names s.
Proof.
  unfold trained_names, AppState.get_all_trained_models.
  induction AVAILABLE_MODELS as [|[name cls] registry IH]; [done|].
  rewrite fmap_cons, !filter_cons. cbn [fst snd].
  change (AppState.r_trained (AppState.get_model_results name s))
    with (default false (AppState.model_trained s !! lower name)).
  destruct (decide (default false (AppState.model_trained s !! lower name)
                    = true)); rewrite ?fmap_cons, IH; done.
Qed.

(** X22: while fewer than two registered models are trained the
    comparison tab shows one information line and nothing else: it asks
    for one model when none is trained and for two when one is. *)
Theorem X22_tab_needs_two_models (historical_data : DataFrame)
  (multiselect : list string -> list string) (s : AppState.SessionState)
  (out : list UI.element) :
  (length (trained_names s) < 2)%nat ->
  UI.render_comparison_tab historical_data multiselect s out
  = (UI.Done tt,
     out ++ [UI.st_info
               (UI.info_sign +:+
                if decide (trained_names s = [])
                then " Train at least one model to see comparisons."
                else " Train at least 2 models to see meaningful comparisons.")]).
Proof.
  intros Hfew. unfold UI.render_comparison_tab.
  assert (len (filter (fun nb : string * bool => nb.2 = true)
                 (AppState.get_all_trained_models s))
          = Z.of_nat (length (trained_names s))) as ->.
  { rewrite <- trained_names_filter. unfold len. by rewrite length_fmap. }
  destruct (trained_names s) as [|first [|second rest]]; simpl in *;
    [done | done | lia].
Qed.

Lemma recorded_of_trained (s : AppState.SessionState) :
  UI.recorded_train_pcts (AppState.get_all_trained_models s) s
  = (fun n => (n, AppState.r_train_pct (AppState.get_model_results n s)))
      <$> trained_names s.
Proof.
  unfold UI.recorded_train_pcts, trained_names.
  assert (forall nc, nc ∈ AVAILABLE_MODELS ->
            default false (assoc nc.1 (AppState.get_all_trained_models s))
            = AppState.r_trained (AppState.get_model_results nc.1 s)) as Hflag.
  { intros [name cls] Hin. cbn [fst].
    by rewrite (registry_assoc_trained s name cls). }
  revert Hflag. generalize (AppState.get_all_trained_models s) as flags.
  intros flags.
  induction AVAILABLE_MODELS as [|[name cls] registry IH]; intros Hflag;
    [done|].
  rewrite filter_cons. cbn [omap list_omap fst snd].
  pose proof (Hflag (name, cls) ltac:(by left)) as Hhead.
  cbn [fst] in Hhead. rewrite Hhead.
  destruct (AppState.r_trained (AppState.get_model_results name s)) eqn:Hb.
  - rewrite decide_True by done. rewrite !fmap_cons. cbn [fst snd].
    f_equal. apply IH. intros nc Hnc. apply Hflag. by right.
  - rewrite decide_False by done.
    apply IH. intros nc Hnc. apply Hflag. by right.
Qed.

Lemma all_same_constant {A} `{EqDecision A} (f : A -> option Z)
  (items : list A) (pct : Z) :
  (forall x, x ∈ items -> f x = Some pct) ->
  UI.all_same (f <$> items) = true.
Proof.
  intros Hall. destruct items as [|first rest]; [done|].
  unfold UI.all_same. rewrite fmap_cons.
  apply forallb_forall. intros v Hv%list_elem_of_In.
  rewrite <- fmap_cons in Hv.
  apply list_elem_of_fmap in Hv as (x & -> & Hx).
  apply bool_decide_eq_true. rewrite (Hall x Hx), (Hall first); [done|by left].
Qed.

Lemma last_item_nonempty {A} (l : list A) :
  l <> [] -> exists a, last_item l = Ok a /\ last l = Some a.
Proof.
  intros Hne. unfold last_item.
  destruct (last l) as [a|] eqn:Hlast; [by exists a|].
  by apply last_None in Hlast.
Qed.

Lemma split_parts_nonempty (pct : Z) (data : DataFrame) :
  2 <= len data ->
  (HoldoutPct.split {| HoldoutPct.train_pct := pct |} data).1 <> [] /\
  (HoldoutPct.split {| HoldoutPct.train_pct := pct |} data).2 <> [].
Proof.
  intros Hlen. rewrite split_take_drop. cbn [fst snd].
  pose proof (split_idx_positive {| HoldoutPct.train_pct := pct |} (len data)).
  pose proof (split_idx_below {| HoldoutPct.train_pct := pct |} (len data) Hlen).
  unfold len in *. split; intros Hnil; apply (f_equal length) in Hnil.
  - rewrite length_take in Hnil. simpl in Hnil. lia.
  - rewrite length_drop in Hnil. simpl in Hnil. lia.
Qed.

(** X23: on a loaded series of at least two rows, in a state where at
    least two registered models are trained, all with the same recorded
    split percentage strictly between 0 and 100, where the user keeps at
    least one model selected and every selected model has values for mae
    and rmse that are not NaN, the tab renders to the end without raising
    or stopping: the success line with the common split, the chart that
    [plot_model_comparison] returns for the train and test parts recomputed
    from the loaded series with that percentage and for the stored
    predictions of the selected models, with its two vertical lines at the
    last date of either part, the leaderboard caption, and the MAE and the
    RMSE leaderboards, each with one card per selected model. *)
Theorem X23_tab_renders_completely (historical_data : DataFrame)
  (multiselect : list string -> list string) (s : AppState.SessionState)
  (pct : Z) (mae rmse : string -> float) (out : list UI.element) :
  let selected := multiselect (trained_names s) in
  let train_data :=
    (HoldoutPct.split {| HoldoutPct.train_pct := pct |} historical_data).1 in
  let test_data :=
    (HoldoutPct.split {| HoldoutPct.train_pct := pct |} historical_data).2 in
  2 <= len historical_data ->
  (2 <= length (trained_names s))%nat ->
  0 < pct < 100 ->
  (forall n, n ∈ trained_names s ->
     AppState.r_train_pct (AppState.get_model_results n s) = Some pct) ->
  selected <> [] ->
  (forall n, n ∈ selected ->
     exists m, AppState.r_metrics (AppState.get_model_results n s) = Some m /\
               m !! "mae" = Some (Some (mae n)) /\ isnan (mae n) = false /\
               m !! "rmse" = Some (Some (rmse n)) /\ isnan (rmse n) = false) ->
  exists mae_config rmse_config best_mae best_rmse fig train_end test_end,
    AVAILABLE_METRICS = [("mae", mae_config); ("rmse", rmse_config)] /\
    best_mae ∈ selected /\ best_rmse ∈ selected /\
    UI.plot_model_comparison train_data test_data
      ((fun n =>
          (n, (AppState.r_test_predictions (AppState.get_model_results n s),
               AppState.r_predictions (AppState.get_model_results n s))))
         <$> selected) selected
    = Ok fig /\
    last (index train_data) = Some train_end /\
    last (index test_data) = Some test_end /\
    UI.fig_vlines fig = [train_end; test_end] /\
    UI.render_comparison_tab historical_data multiselect s out
    = (UI.Done tt,
       out ++
       [UI.st_success (UI.check_mark +:+ " All models trained on "
                       +:+ pretty pct +:+ "% / " +:+ pretty (100 - pct)
                       +:+ "% split");
        UI.st_plotly_chart fig;
        UI.st_caption (UI.chart_sign +:+ " LEADERBOARD");
        UI.st_write "#### MAE";
        UI.st_caption (description mae_config);
        UI.st_columns (len selected)]
       ++ (leaderboard_card mae_config mae best_mae <$> selected)
       ++ [UI.st_write "#### RMSE";
           UI.st_caption (description rmse_config);
           UI.st_columns (len selected)]
       ++ (leaderboard_card rmse_config rmse best_rmse <$> selected)).
Proof.
  intros selected train_data test_data Hrows Hmany Hpct Hsame Hsel Hvalues.
  unfold AVAILABLE_METRICS.
  match goal with
  | |- context [ [("mae", ?c1); ("rmse", ?c2)] ] =>
      set (mae_config := c1); set (rmse_config := c2)
  end.
  destruct (leaderboard_completes "mae" mae_config
              (fun n => AppState.r_metrics (AppState.get_model_results n s))
              mae selected Hsel)
    as (pre1 & best_mae & post1 & Hsel1 & _ & _ & Hboard1).
  { intros n Hn. destruct (Hvalues n Hn) as (m & ? & ? & ? & ? & ?).
    by exists m. }
  destruct (leaderboard_completes "rmse" rmse_config
              (fun n => AppState.r_metrics (AppState.get_model_results n s))
              rmse selected Hsel)
    as (pre2 & best_rmse & post2 & Hsel2 & _ & _ & Hboard2).
  { intros n Hn. destruct (Hvalues n Hn) as (m & ? & ? & ? & ? & ?).
    by exists m. }
  destruct (split_parts_nonempty pct historical_data Hrows)
    as [Htrain Htest].
  fold train_data in Htrain. fold test_data in Htest.
  destruct (last_item_nonempty (index train_data))
    as (train_end & Hend1 & Hlast1).
  { unfold index. by destruct train_data. }
  destruct (last_item_nonempty (index test_data))
    as (test_end & Hend2 & Hlast2).
  { unfold index. by destruct test_data. }
  destruct (UI.plot_model_comparison train_data test_data
              ((fun n =>
                  (n, (AppState.r_test_predictions
                         (AppState.get_model_results n s),
                       AppState.r_predictions
                         (AppState.get_model_results n s)))) <$> selected)
              selected) as [fig|e] eqn:Hplot;
    unfold UI.plot_model_comparison in Hplot;
    rewrite Hend1, Hend2 in Hplot; simpl in Hplot; [|done].
  exists mae_config, rmse_config, best_mae, best_rmse, fig, train_end, test_end.
  split; [reflexivity|].
  split; [rewrite Hsel1; members|]. split; [rewrite Hsel2; members|].
  split; [reflexivity|]. split; [done|]. split; [done|].
  split; [by injection Hplot as <-|].
  unfold UI.render_comparison_tab.
  assert (len (filter (fun nb : string * bool => nb.2 = true)
                 (AppState.get_all_trained_models s))
          = Z.of_nat (length (trained_names s))) as ->.
  { rewrite <- trained_names_filter. unfold len. by rewrite length_fmap. }
  rewrite !decide_False by lia.
  rewrite recorded_of_trained, <- list_fmap_compose.
  rewrite (all_same_constant _ _ pct) by done. cbn [negb].
  rewrite and_then_done.
  destruct (trained_names s) as [|first rest] eqn:Hnames; [simpl in Hmany; lia|].
  rewrite fmap_cons. cbn [first_item compose snd].
  rewrite and_then_Ok, (Hsame first) by (by left).
  cbn [UI.hundred_minus UI.pretty_opt].
  rewrite and_then_Ok, and_then_emit, init_inside by done.
  rewrite and_then_Ok.
  destruct (HoldoutPct.split {| HoldoutPct.train_pct := pct |} historical_data)
    as [train test] eqn:Hsplit.
  cbn [fst snd] in train_data, test_data. subst train_data test_data.
  rewrite trained_names_filter, Hnames. fold selected.
  rewrite decide_False
    by (unfold len; destruct selected; [done | simpl; lia]).
  rewrite and_then_done.
  unfold UI.plot_model_comparison. rewrite Hend1, Hend2.
  cbn [rbind].
  rewrite and_then_Ok, !and_then_emit.
  unfold AVAILABLE_METRICS. fold mae_config. fold rmse_config.
  cbn [UI.for_each fst snd]. unfold UI.and_then at 1.
  rewrite Hboard1. unfold UI.and_then at 1. rewrite Hboard2.
  unfold UI.done. rewrite <- !app_assoc.
  simpl in Hplot. injection Hplot as <-. reflexivity.
Qed.

End Tab.

(** ** The stand-ins keep the contracts *)

Import StandIn.

Lemma standin_pandas_contract : PandasContract.
Proof. split. intros f t. simpl. lia. Qed.

Lemma standin_statsmodels_contract : StatsmodelsContract.
Proof.
  split. intros fitted steps Hsteps. eexists. split; [reflexivity|].
  unfold len. rewrite length_replicate. lia.
Qed.

Lemma standin_prophet_contract : ProphetContract.
Proof.
  split.
  - intros df m m' _. simpl.
    destruct (repeat_last (values df)); [|discriminate]. by intros [= <-].
  - intros [[history' v]|] history dates; simpl; [|discriminate].
    intros _. eexists. split; [reflexivity|].
    unfold index. rewrite <- list_fmap_compose. apply list_fmap_id.
Qed.

Lemma standin_sklearn_contract : SklearnContract.
Proof.
  split.
  - intros vals scaled sc sc'. simpl. by intros [= <- _].
  - intros vals scaled sc sc' _ l. by exists l.
Qed.

Lemma standin_darts_contract : DartsContract.
Proof.
  split. intros df freq series m m' last_date n _ Hlast. simpl.
  intros [= <-] [= <-] Hn.
  unfold index in Hlast. rewrite fmap_last in Hlast.
  destruct (last df) as [[t v]|]; [|discriminate].
  injection Hlast as ->.
  eexists. split; [reflexivity|].
  assert (length (date_range (last_date + Z.pos freq) n freq)
          = length (replicate (Z.to_nat n) v)) as Hlen.
  { unfold date_range. by rewrite length_date_range_from, length_replicate. }
  split.
  - simpl. apply fst_zip. lia.
  - simpl. unfold len, values. rewrite snd_zip by lia.
    rewrite length_replicate. lia.
Qed.

(** ** The properties on concrete runs *)

Lemma C1_evaluate_two_phase_witness :
  let data := StandIn.linear 10 in
  let splitter := {| HoldoutPct.train_pct := 80 |} in
  let metric_functions : gmap string metric_function :=
    {[ "mae" := mean_absolute_error ]} in
  let m0 : model := MArima (ARIMA.init (HInt 1) (HInt 1) (HInt 1)) in
  exists metrics forecast test_predictions m',
    evaluate data splitter 3 metric_functions (m0, [])
    = (Ok (metrics, forecast, test_predictions),
       (m', [CallFit (take 8 data); CallPredict 2;
             CallFit data; CallPredict 3])) /\
    index test_predictions = [8; 9] /\
    index forecast = [10; 11; 12].
Proof.
  intros data splitter metric_functions m0.
  pose (train := (HoldoutPct.split splitter data).1).
  pose (test := (HoldoutPct.split splitter data).2).
  pose (m1 := (fit train m0).2).
  pose (tp := value_or [] (predict (len test) m1).1).
  pose (m1' := (predict (len test) m1).2).
  pose (m2 := (fit data m1').2).
  pose (fc := value_or [] (predict 3 m2).1).
  pose (m2' := (predict 3 m2).2).
  destruct (C1_evaluate_two_phase data splitter 3 metric_functions
              train test tp fc m0 m1 m1' m2 m2')
    as (metrics & _ & _ & Hrun); [vm_compute; reflexivity ..|].
  exists metrics, fc, tp, m2'.
  split; [exact Hrun | split; vm_compute; reflexivity].
Defined.


Lemma C6_counterexample :
  exists m : model,
    construct ARIMAForecaster ∅ = Ok m /\
    predict 0 m = (Raise (Taxonomy.horizon_error 0), m) /\
    Taxonomy.classify (Taxonomy.horizon_error 0)
    = Some Taxonomy.InvalidConfiguration /\
    predict 0 m <> (Raise Taxonomy.not_fitted_error, m).
Proof.
  eexists. split; [reflexivity|]. split; [reflexivity|].
  split; [reflexivity|]. vm_compute. discriminate.
Qed.

Lemma C6_predict_errors_witness :
  let m : model := MNbeats (value_or
                     {| NBEATS.input_chunk_length := HInt 5;
                        NBEATS.n_epochs := HInt 10;
                        NBEATS.scaler_type := "";
                        NBEATS.random_state := HInt 0;
                        NBEATS.model := None; NBEATS.scaler := None;
                        NBEATS._last_date := None; NBEATS._freq := None;
                        NBEATS._timeseries := None;
                        NBEATS._output_chunk_length := None |}
                     (NBEATS.init (HInt 5) (HInt 10) (HStr "MinMax (0-1)")
                        (HInt RANDOM_SEED))) in
  (forall h, 1 <= h ->
     predict h m = (Raise Taxonomy.not_fitted_error, m)) /\
  (forall (m' : model) h, h < 1 ->
     predict h m' = (Raise (Taxonomy.horizon_error h), m')) /\
  Taxonomy.classify Taxonomy.not_fitted_error = Some Taxonomy.NotFittedError /\
  (forall h, Taxonomy.classify (Taxonomy.horizon_error h)
             = Some Taxonomy.InvalidConfiguration).
Proof.
  intros m.
  apply (C6_predict_errors NBEATSForecaster
           {[ "scaler_type" := HStr "MinMax (0-1)" ]} m).
  vm_compute. reflexivity.
Defined.



(** C10 fails on the code: with a metric that degraded to [None] for one
    of two compared models, the leaderboard of that metric raises a
    TypeError at the comparison of [None] with a float, after the heading
    and before any card; with a single compared model it raises at the
    formatting of [None]. *)
Theorem C10_leaderboard_raises_on_missing_metric :
  let metric_functions : gmap string metric_function :=
    list_to_map ((fun nc => (nc.1, mc_function nc.2)) <$> AVAILABLE_METRICS) in
  let degraded :=
    value_or ∅ (calculate_metrics [float_of_Z 1; float_of_Z 2]
                  [S754_nan; float_of_Z 2] metric_functions) in
  let sound :=
    value_or ∅ (calculate_metrics [float_of_Z 1; float_of_Z 2]
                  [float_of_Z 1; float_of_Z 3] metric_functions) in
  let mae := value_or (("", {| mc_name := ""; mc_function := fun _ _ => Ok S754_nan;
                               lower_is_better := true; description := "" |}))
               (first_item AVAILABLE_METRICS) in
  degraded !! "mae" = Some None /\
  sound !! "mae" = Some (Some (float_of_ratio 1 2)) /\
  UI.render_metric_leaderboard mae.1 mae.2
    [("ARIMA", Some degraded); ("PROPHET", Some sound)] ["ARIMA"; "PROPHET"] []
  = (UI.Failed (Exn TypeError "'<' not supported between instances"),
     [UI.st_write "#### MAE"; UI.st_caption (description mae.2)]) /\
  UI.render_metric_leaderboard mae.1 mae.2
    [("ARIMA", Some degraded)] ["ARIMA"] []
  = (UI.Failed (Exn TypeError "unsupported format string passed to NoneType.__format__"),
     [UI.st_write "#### MAE"; UI.st_caption (description mae.2);
      UI.st_columns 1]).
Proof. vm_compute. auto. Qed.

(** ** Concrete runs of the pipeline, the recommendations and the tab *)

Lemma X5_bad_horizon_after_both_fits_witness :
  let data := linear 10 in
  let splitter := {| HoldoutPct.train_pct := 80 |} in
  let m0 : model := MArima (ARIMA.init (HInt 1) (HInt 1) (HInt 1)) in
  let train := (HoldoutPct.split splitter data).1 in
  let test := (HoldoutPct.split splitter data).2 in
  exists m2,
    evaluate data splitter 0 ∅ (m0, [])
    = (Raise (Taxonomy.horizon_error 0),
       (m2, [CallFit train; CallPredict (len test);
             CallFit data; CallPredict 0])).
Proof.
  intros data splitter m0 train test.
  pose (m1 := (fit train m0).2).
  pose (tp := value_or [] (predict (len test) m1).1).
  pose (m1' := (predict (len test) m1).2).
  pose (m2 := (fit data m1').2).
  exists m2.
  apply (X5_bad_horizon_after_both_fits data train test tp splitter 0 ∅
           m0 m1 m1' m2); [lia | vm_compute; reflexivity ..].
Defined.

Lemma X7_predict_keeps_model_witness :
  let m : model :=
    (fit (linear 10) (MArima (ARIMA.init (HInt 1) (HInt 1) (HInt 1)))).2 in
  (predict 3 m).2 = m /\ (predict 0 m).2 = m.
Proof.
  intros m. split.
  - apply (X7_predict_keeps_model m (predict 3 m).2 3 (predict 3 m).1).
    vm_compute. reflexivity.
  - apply (X7_predict_keeps_model m (predict 0 m).2 0 (predict 0 m).1).
    vm_compute. reflexivity.
Defined.

Lemma X8_evaluate_short_series_fails_witness :
  let m0 : model := MArima (ARIMA.init (HInt 1) (HInt 1) (HInt 1)) in
  exists e m',
    evaluate (linear 1) {| HoldoutPct.train_pct := 80 |} 3 ∅ m0
    = (Raise e, m').
Proof.
  intros m0.
  destruct (X8_evaluate_short_series_fails m0 {| HoldoutPct.train_pct := 80 |}
              (linear 1) 3 ∅) as (e & m' & Hrun & _);
    [vm_compute; reflexivity|].
  by exists e, m'.
Defined.

Lemma X9_evaluation_result_shape_witness :
  let data := linear 10 in
  let splitter := {| HoldoutPct.train_pct := 80 |} in
  let m0 : model := MProphet (ProphetModel.init (HFloat (float_of_ratio 5 100))
                                (HFloat (float_of_Z 10)) (HStr "additive")) in
  let run := evaluate data splitter 3 {[ "mae" := mean_absolute_error ]} m0 in
  let res := value_or (∅, [], []) run.1 in
  len res.2 = 2 /\ len res.1.2 = 3 /\ dom res.1.1 = {[ "mae" ]}.
Proof.
  intros data splitter m0 run res.
  destruct (@X9_evaluation_result_shape _ _ _ _ _
              standin_pandas_contract standin_statsmodels_contract
              standin_prophet_contract standin_sklearn_contract
              standin_darts_contract m0 run.2 splitter data 3
              {[ "mae" := mean_absolute_error ]} res.1.1 res.1.2 res.2)
    as (_ & Htest & _ & Hforecast & Hdom & _ & _).
  - apply (bool_decide_unpack _). vm_compute. exact I.
  - vm_compute. reflexivity.
  - split_and!; [by rewrite Htest | done | by rewrite Hdom, dom_singleton_L].
Defined.

Lemma X10_refit_discards_earlier_fit_witness :
  let data := linear 10 in
  let m0 : model := MArima (ARIMA.init (HInt 1) (HInt 1) (HInt 1)) in
  let m1 := (fit (take 8 data) m0).2 in
  let m1' := (predict 2 m1).2 in
  fit data m0 = (Ok tt, (fit data m1').2).
Proof.
  intros data m0 m1 m1'.
  apply (X10_refit_discards_earlier_fit m0 m1 m1' (fit data m1').2
           (take 8 data) data 2 (fit (take 8 data) m0).1 (predict 2 m1).1).
  - intros s. discriminate.
  - vm_compute. reflexivity.
  - vm_compute. reflexivity.
  - vm_compute. reflexivity.
Defined.

Lemma X12_schema_accepted_by_constructor_witness :
  let kwargs : gmap string hyperval :=
    <["n_epochs" := HInt 5]> (<["scaler_type" := HStr "MinMax"]> ∅) in
  (exists m : model, construct NBEATSForecaster kwargs = Ok m) /\
  construct NBEATSForecaster
    (Schema.defaults (Schema.get_hyperparameters NBEATSForecaster))
  = (construct NBEATSForecaster ∅ : result model).
Proof.
  intros kwargs.
  apply (X12_schema_accepted_by_constructor NBEATSForecaster kwargs).
  - intros name [v Hv]. unfold kwargs in Hv.
    apply lookup_insert_Some in Hv as [[<- _]|[_ Hv]];
      [apply (bool_decide_unpack _); vm_compute; exact I|].
    apply lookup_insert_Some in Hv as [[<- _]|[_ Hv]];
      [apply (bool_decide_unpack _); vm_compute; exact I|].
    by rewrite lookup_empty in Hv.
  - intros v Hv. unfold kwargs in Hv.
    rewrite lookup_insert_ne, lookup_insert_eq in Hv by done.
    injection Hv as <-. by eexists.
Defined.

Lemma X14_orders_are_leading_runs_witness :
  (Recommend.recommend_p (linear 25) 20).1 = Z.max 1 2 /\
  (Recommend.recommend_q (linear 25) 20).1 = Z.max 1 5.
Proof.
  pose (clean := Recommend.dropna (values (linear 25))).
  apply (X14_orders_are_leading_runs (linear 25)
           (value_or [] (pacf clean (Z.min 20 (len clean / 2))))
           (value_or [] (acf clean (Z.min 20 (len clean / 2)))) 2 5).
  - vm_compute. discriminate.
  - vm_compute. reflexivity.
  - vm_compute. reflexivity.
  - split; [lia|]. split.
    + intros lag Hlag. assert (lag = 1 \/ lag = 2) as [->| ->] by lia;
        eexists; (split; [vm_compute; reflexivity|]); vm_compute; reflexivity.
    + right. right. eexists. split; vm_compute; reflexivity.
  - split; [lia|]. split.
    + intros lag Hlag.
      assert (lag = 1 \/ lag = 2 \/ lag = 3 \/ lag = 4 \/ lag = 5)
        as [->|[->|[->|[->| ->]]]] by lia;
        eexists; (split; [vm_compute; reflexivity|]); vm_compute; reflexivity.
    + by left.
Defined.

Lemma X15_d_is_first_stationary_level_witness :
  exists e, Recommend.recommend_d (quadratic 25) 2 = Ok (2, e).
Proof.
  destruct (X15_d_is_first_stationary_level (quadratic 25) 2 2) as [Hto _];
    [lia|].
  apply Hto. clear Hto.
  split; [lia|]. split; [|split].
  - intros [|[|[|i]]] Hi; [apply Z.leb_le; vm_compute; reflexivity..|].
    exfalso; clear -Hi; lia.
  - intros [|[|i]] Hi; [eexists; (split; [vm_compute; reflexivity|]); vm_compute; reflexivity..|].
    exfalso; clear -Hi; lia.
  - eexists. (split; [vm_compute; reflexivity|]); vm_compute; reflexivity.
Defined.

Lemma X19_trained_results_match_loaded_data_witness :
  let data := linear 10 in
  let loaded := {| session := AppState.set_data (Some data) (session initial_app);
                   cache := cache initial_app |} in
  let app := on_train "ARIMA" ARIMAForecaster data 80 3 ∅ loaded in
  results_from_training (session app) "ARIMA" ARIMAForecaster.
Proof.
  intros data loaded app.
  apply (X19_trained_results_match_loaded_data app "ARIMA" ARIMAForecaster).
  - apply reach_train.
    + apply reach_set_data. apply reach_initial.
    + reflexivity.
    + by left.
  - by left.
  - vm_compute. reflexivity.
Defined.

Lemma X20_training_result_metrics_witness :
  let res := value_or (∅, [], [])
               (train_and_evaluate_body ARIMAForecaster (linear 10) 80 3 0 ∅) in
  is_Some (res.1.1 !! "mae") /\ is_Some (res.1.1 !! "rmse").
Proof.
  intros res.
  destruct (X20_training_result_metrics ARIMAForecaster (linear 10) 80 3 0 ∅
              res.1.1 res.1.2 res.2) as (_ & _ & _ & Hkeys & _).
  - vm_compute. reflexivity.
  - split; apply Hkeys; [by left | by right].
Defined.

Lemma X21_leaderboard_cards_witness :
  let val := fun n : string =>
               if decide (n = "ARIMA") then float_of_Z 2 else float_of_Z 1 in
  let results_of := fun n : string =>
                      Some ({[ "mae" := Some (val n) ]} : Metrics) in
  let mae := value_or (("", {| mc_name := ""; mc_function := fun _ _ => Ok S754_nan;
                               lower_is_better := true; description := "" |}))
               (first_item AVAILABLE_METRICS) in
  let selected := ["ARIMA"; "PROPHET"] in
  exists best,
    UI.render_metric_leaderboard mae.1 mae.2
      ((fun n => (n, results_of n)) <$> selected) selected []
    = (UI.Done tt,
       [UI.st_write "#### MAE"; UI.st_caption (description mae.2);
        UI.st_columns 2]
       ++ (leaderboard_card mae.2 val best <$> selected)).
Proof.
  intros val results_of mae selected.
  destruct (X21_leaderboard_cards mae.1 mae.2 results_of val selected)
    as (pre & best & post & _ & _ & _ & Hrun).
  - done.
  - intros n Hn. eexists. split; [reflexivity|]. split.
    + apply lookup_singleton_eq.
    + unfold val. by destruct (decide (n = "ARIMA")).
  - exists best. apply (Hrun []).
Defined.

Lemma X22_tab_needs_two_models_witness :
  UI.render_comparison_tab (linear 10) id (session initial_app) []
  = (UI.Done tt,
     [UI.st_info (UI.info_sign
                  +:+ " Train at least one model to see comparisons.")]).
Proof.
  apply (X22_tab_needs_two_models (linear 10) id (session initial_app) []).
  apply Nat.ltb_lt. vm_compute. reflexivity.
Defined.

Lemma X23_tab_renders_completely_witness :
  let data := linear 10 in
  let loaded := {| session := AppState.set_data (Some data) (session initial_app);
                   cache := cache initial_app |} in
  let app := on_train "PROPHET" ProphetForecaster data 80 3 ∅
               (on_train "ARIMA" ARIMAForecaster data 80 3 ∅ loaded) in
  (UI.render_comparison_tab data id (session app) []).1 = UI.Done tt.
Proof.
  intros data loaded app.
  remember (session app) as s0 eqn:Hs. vm_compute in Hs. subst s0.
  match goal with
  | |- context [UI.render_comparison_tab _ _ ?t _] => set (s := t)
  end.
  pose (metric_of := fun (key n : string) =>
          default (float_of_Z 0)
            (mjoin (AppState.r_metrics (AppState.get_model_results n s)
                    ≫= (fun m : Metrics => m !! key)))).
  assert (trained_names s = ["ARIMA"; "PROPHET"]) as Hnames
    by (vm_compute; reflexivity).
  destruct (X23_tab_renders_completely data id s 80
              (metric_of "mae") (metric_of "rmse") [])
    as (c1 & c2 & b1 & b2 & fig & t1 & t2 & _ & _ & _ & _ & _ & _ & _ & Hrun).
  - vm_compute. discriminate.
  - rewrite Hnames. simpl. lia.
  - lia.
  - intros n. rewrite Hnames.
    intros [->|[->|[]%elem_of_nil]%elem_of_cons]%elem_of_cons;
      vm_compute; reflexivity.
  - unfold id. by rewrite Hnames.
  - intros n. unfold id. rewrite Hnames.
    intros [->|[->|[]%elem_of_nil]%elem_of_cons]%elem_of_cons.
    + exists (default ∅ (AppState.r_metrics
                           (AppState.get_model_results "ARIMA" s))).
      split_and!; vm_compute; reflexivity.
    + exists (default ∅ (AppState.r_metrics
                           (AppState.get_model_results "PROPHET" s))).
      split_and!; vm_compute; reflexivity.
  - by rewrite Hrun.
Defined.

Lemma X11_scaler_type_normal_form_witness :
  exists m,
    NBEATS.init (HInt 5) (HInt 10) (HStr "MINMAX") (HInt 42) = Ok m /\
    NBEATS.scaler_type m = "minmax" /\
    NBEATS.scaler m = Some MinMaxScaler.
Proof.
  destruct (X11_scaler_type_normal_form (HInt 5) (HInt 10) (HInt 42) "MINMAX")
    as (m & Hinit & Hstored & _ & _ & _ & _ & Hminmax & _); [reflexivity|].
  exists m. split; [exact Hinit|]. split; [exact Hstored|].
  apply Hminmax. reflexivity.
Defined.
